(** * GitCanvas: the stats fetcher, the language card and the roast widget

    A shallow embedding of
      - [src/utils/github_utils.py]   (module [GithubUtils]),
      - [src/generators/lang_card.py] (module [LangCard]),
      - [src/roast_widget_streamlit.py] (module [RoastWidget]),
    over a small model of the Python values these files exchange (module
    [Py]): dictionaries keep their insertion order, exceptions are values of
    an error monad, [int] is [Z] and [float] is the kernel's binary64. *)

From Stdlib Require Import ZArith QArith List String Ascii Bool Lia.
From Stdlib Require Import Qpower Qabs Lqa.
From Stdlib Require Import Sorting.Sorted.
From Stdlib Require Import DecimalString.
From Stdlib Require Import PrimFloat SpecFloat FloatOps FloatAxioms.
From stdpp Require Import gmap strings list.

Set Warnings "-register-all".
Local Open Scope string_scope.
Local Open Scope Z_scope.

(** ** Python values, exceptions and the few builtins the sources use *)
Module Py.

(** The exception classes that the modelled statements can raise. *)
Inductive ExcKind :=
| TypeError | ValueError | KeyError | AttributeError
| ZeroDivisionError | OverflowError
| ConnectionError | JSONDecodeError | RuntimeError.

(** An exception object: its class and [str(e)]. *)
Record PyExc := Exc { exc_kind : ExcKind; exc_msg : string }.

Inductive Result (A : Type) :=
| Ok (a : A)
| Raise (e : PyExc).
Arguments Ok {A} a.
Arguments Raise {A} e.

#[export] Instance Result_ret : MRet Result := fun _ a => Ok a.
#[export] Instance Result_bind : MBind Result := fun _ _ k m =>
  match m with
  | Ok a => k a
  | Raise e => Raise e
  end.

Definition raise {A} (k : ExcKind) (msg : string) : Result A :=
  Raise (Exc k msg).

Definition succeeds {A} (r : Result A) : Prop := ∃ a, r = Ok a.

(** The values: [None], [int], [str], tuples, lists, and dictionaries with
    string keys in insertion order. *)
Inductive PyVal :=
| VNone
| VInt (z : Z)
| VStr (s : string)
| VTuple (items : list PyVal)
| VList (items : list PyVal)
| VDict (items : list (string * PyVal)).

(** [bool(v)]. *)
Definition truthy (v : PyVal) : bool :=
  match v with
  | VNone => false
  | VInt z => negb (z =? 0)
  | VStr s => negb (String.eqb s "")
  | VTuple l | VList l => negb (Nat.eqb (length l) 0)
  | VDict d => negb (Nat.eqb (length d) 0)
  end.

(** *** [repr] of a string

    Text is ASCII here: a byte above 127 belongs to a character that
    [repr] leaves as it is. *)

Definition quote1 : ascii := "'"%char.
Definition quote2 : ascii := ascii_of_nat 34.
Definition backslash : ascii := ascii_of_nat 92.
Definition newline : ascii := ascii_of_nat 10.

Fixpoint has_char (c : ascii) (s : string) : bool :=
  match s with
  | EmptyString => false
  | String c' s' => (Ascii.eqb c c' || has_char c s')%bool
  end.

Definition hex_digit (n : nat) : ascii :=
  match String.get n "0123456789abcdef" with
  | Some c => c
  | None => "0"%char
  end.

(** One character of [repr(s)], between quotes [q]. *)
Definition escape_char (q c : ascii) : string :=
  let n := nat_of_ascii c in
  if (Ascii.eqb c q || Ascii.eqb c backslash)%bool
  then String backslash (String c EmptyString)
  else if Nat.eqb n 9 then String backslash "t"
  else if Nat.eqb n 10 then String backslash "n"
  else if Nat.eqb n 13 then String backslash "r"
  else if (Nat.ltb n 32 || Nat.eqb n 127)%bool
  then String backslash
         (String "x" (String (hex_digit (Nat.div n 16))
                        (String (hex_digit (Nat.modulo n 16)) EmptyString)))
  else String c EmptyString.

Fixpoint escape (q : ascii) (s : string) : string :=
  match s with
  | EmptyString => EmptyString
  | String c s' => escape_char q c ++ escape q s'
  end.

(** [repr(s)] for a string: single quotes, unless the string has one and
    has no double quote. *)
Definition repr_str (s : string) : string :=
  let q := if (has_char quote1 s && negb (has_char quote2 s))%bool
           then quote2 else quote1 in
  String q (escape q s ++ String q EmptyString).

(** Lookup in an insertion-ordered dictionary. *)
Fixpoint assoc (k : string) (d : list (string * PyVal)) : option PyVal :=
  match d with
  | [] => None
  | (k', v) :: d' => if String.eqb k k' then Some v else assoc k d'
  end.

(** [d.get(k, dflt)]. *)
Definition dict_get (d : PyVal) (k : string) (dflt : PyVal) : Result PyVal :=
  match d with
  | VDict items => Ok (default dflt (assoc k items))
  | _ => raise AttributeError "object has no attribute 'get'"
  end.

(** [d[k]]. The text of a [KeyError], its [str(e)], is the [repr] of the
    key: [d['roast']] on a dictionary without it gives ['roast'], with the
    quotes. *)
Definition getitem (d : PyVal) (k : string) : Result PyVal :=
  match d with
  | VDict items =>
      match assoc k items with
      | Some v => Ok v
      | None => raise KeyError (repr_str k)
      end
  | _ => raise TypeError "object is not subscriptable"
  end.

(** One-character strings of a string, as iterating it yields them. *)
Fixpoint chars (s : string) : list PyVal :=
  match s with
  | EmptyString => []
  | String c s' => VStr (String c EmptyString) :: chars s'
  end.

(** [iter(v)], run to the end. A dictionary yields its keys. *)
Definition iterate (v : PyVal) : Result (list PyVal) :=
  match v with
  | VTuple l | VList l => Ok l
  | VDict d => Ok (map (fun kv => VStr (fst kv)) d)
  | VStr s => Ok (chars s)
  | VNone | VInt _ => raise TypeError "object is not iterable"
  end.

(** The target list [a, b = v]. *)
Definition unpack2 (v : PyVal) : Result (PyVal * PyVal) :=
  l ← iterate v;
  match l with
  | [a; b] => Ok (a, b)
  | _ => raise ValueError "wrong number of values to unpack"
  end.

(** [len(v)]. *)
Definition len (v : PyVal) : Result Z :=
  match v with
  | VTuple l | VList l => Ok (Z.of_nat (length l))
  | VDict d => Ok (Z.of_nat (length d))
  | VStr s => Ok (Z.of_nat (String.length s))
  | VNone | VInt _ => raise TypeError "object has no len()"
  end.

(** [a + b] on the values modelled here. *)
Definition add (a b : PyVal) : Result PyVal :=
  match a, b with
  | VInt x, VInt y => Ok (VInt (x + y))
  | VStr x, VStr y => Ok (VStr (x ++ y))
  | VTuple x, VTuple y => Ok (VTuple (x ++ y)%list)
  | VList x, VList y => Ok (VList (x ++ y)%list)
  | _, _ => raise TypeError "unsupported operand type(s) for +"
  end.

(** A string of ASCII characters only. *)
Fixpoint is_ascii (s : string) : bool :=
  match s with
  | EmptyString => true
  | String c s' => (Nat.ltb (nat_of_ascii c) 128 && is_ascii s')%bool
  end.

(** [s.lower()] on ASCII text, where it maps [A]-[Z] to [a]-[z] and keeps
    every other character. Strings are sequences of bytes here, a
    character outside ASCII is several bytes above 127, and what
    [str.lower] does to it is in Python's Unicode tables: [lower] keeps
    these bytes, and a statement that depends on the lower case of a
    string assumes the string [is_ascii]. *)
Definition lower_ascii (c : ascii) : ascii :=
  let n := nat_of_ascii c in
  if (Nat.leb 65 n && Nat.leb n 90)%bool then ascii_of_nat (n + 32) else c.

Fixpoint lower (s : string) : string :=
  match s with
  | EmptyString => EmptyString
  | String c s' => String (lower_ascii c) (lower s')
  end.

(** [x in l] for a list of strings. *)
Definition str_in (x : string) (l : list string) : bool :=
  existsb (String.eqb x) l.

(** [str(n)] for an integer. *)
Definition str_of_Z (z : Z) : string := NilZero.string_of_int (Z.to_int z).

(** *** Floats

    Python's [float] is IEEE 754 binary64, which is what the kernel's
    [float] is. [int / int] is the correctly rounded quotient of the two
    integers, whatever their size; it raises when the divisor is zero and
    when the rounded quotient leaves the range of binary64. *)

Definition Z2SF (z : Z) : spec_float :=
  match z with
  | Z0 => S754_zero false
  | Zpos p => S754_finite false p 0
  | Zneg p => S754_finite true p 0
  end.

(** [float(n)] for an integer literal that binary64 holds exactly. *)
Definition float_of_small (z : Z) : float := SF2Prim (Z2SF z).

(** The least magnitude that rounds (to nearest, ties to even) to 2^1024. *)
Definition overflow_threshold : Z := 2 ^ 1024 - 2 ^ 970.

(** The binary64 nearest to [a / b] (ties to even). *)
Definition int_quotient (a b : Z) : float :=
  SF2Prim (SFdiv prec emax (Z2SF a) (Z2SF b)).

Definition int_truediv (a b : Z) : Result float :=
  if b =? 0 then raise ZeroDivisionError "division by zero"
  else if overflow_threshold * Z.abs b <=? Z.abs a
       then raise OverflowError "integer division result too large for a float"
       else Ok (int_quotient a b).

(** [a / b] on the values modelled here. *)
Definition truediv (a b : PyVal) : Result float :=
  match a, b with
  | VInt x, VInt y => int_truediv x y
  | _, _ => raise TypeError "unsupported operand type(s) for /"
  end.

(** Nearest integer to [num / den] ([den > 0]), ties to the even one. *)
Definition round_half_even (num den : Z) : Z :=
  let q := num / den in
  let r := num mod den in
  match 2 * r ?= den with
  | Lt => q
  | Gt => q + 1
  | Eq => if Z.even q then q else q + 1
  end.

(** The tenths of [m * 2^e], correctly rounded. *)
Definition tenths (m : positive) (e : Z) : Z :=
  if 0 <=? e then Zpos m * 2 ^ e * 10
  else round_half_even (Zpos m * 10) (2 ^ (- e)).

Definition sign_str (s : bool) : string := if s then "-" else "".

(** [f"{x:.1f}"]: one digit after the point, correctly rounded. *)
Definition format_1f (x : float) : string :=
  match Prim2SF x with
  | S754_nan => "nan"
  | S754_infinity s => sign_str s ++ "inf"
  | S754_zero s => sign_str s ++ "0.0"
  | S754_finite s m e =>
      let t := tenths m e in
      sign_str s ++ str_of_Z (t / 10) ++ "." ++ str_of_Z (t mod 10)
  end.

(** *** What a binary64 stands for

    The vocabulary of the statements about rounding. *)

(** Two to an integer power, as a rational. *)
Definition pow2 (e : Z) : Q := Qpower 2 e.

(** The rational a finite binary64 stands for. *)
Definition SF2Q (x : spec_float) : Q :=
  match x with
  | S754_finite s m e =>
      ((if s then -1 else 1) * (inject_Z (Zpos m) * pow2 e))%Q
  | _ => 0%Q
  end.

Definition float_value (x : float) : Q := SF2Q (Prim2SF x).

(** Zero or a positive finite number. *)
Definition plus_finite (x : spec_float) : Prop :=
  match x with
  | S754_zero false | S754_finite false _ _ => True
  | _ => False
  end.

Definition is_plus_finite (x : float) : Prop := plus_finite (Prim2SF x).

(** What a [location] records: where an exact value [v], counted in
    units of the last place, lies between the mantissa [m] and the
    next. *)
Definition inb (v : Q) (m : Z) (l : location) : Prop :=
  match l with
  | loc_Exact => (v == inject_Z m)%Q
  | loc_Inexact Lt => (inject_Z m < v ∧ v < inject_Z m + (1 # 2))%Q
  | loc_Inexact Eq => (v == inject_Z m + (1 # 2))%Q
  | loc_Inexact Gt => (inject_Z m + (1 # 2) < v ∧ v < inject_Z m + 1)%Q
  end.

(** *** [repr], [str], [join], slices and item assignment *)

(** [sep.join(parts)] on strings. *)
Fixpoint concat_with (sep : string) (parts : list string) : string :=
  match parts with
  | [] => ""
  | [x] => x
  | x :: rest => x ++ sep ++ concat_with sep rest
  end.

(** [repr(v)]. *)
Fixpoint repr (v : PyVal) : string :=
  match v with
  | VNone => "None"
  | VInt z => str_of_Z z
  | VStr s => repr_str s
  | VTuple [x] => "(" ++ repr x ++ ",)"
  | VTuple l => "(" ++ concat_with ", " (map repr l) ++ ")"
  | VList l => "[" ++ concat_with ", " (map repr l) ++ "]"
  | VDict d =>
      "{" ++ concat_with ", "
               (map (fun kv => repr_str (fst kv) ++ ": " ++ repr (snd kv)) d)
          ++ "}"
  end.

(** [str(v)], which is also [f"{v}"]. *)
Definition str (v : PyVal) : string :=
  match v with
  | VStr s => s
  | _ => repr v
  end.

(** [sep.join(items)]: every item has to be a string. *)
Fixpoint join (sep : string) (items : list PyVal) : Result string :=
  match items with
  | [] => Ok ""
  | VStr x :: rest =>
      match rest with
      | [] => Ok x
      | _ => tail ← join sep rest; Ok (x ++ sep ++ tail)
      end
  | _ :: _ => raise TypeError "sequence item: expected str instance"
  end.

(** [v[:n]]. *)
Definition slice_to (n : nat) (v : PyVal) : Result PyVal :=
  match v with
  | VList l => Ok (VList (firstn n l))
  | VTuple l => Ok (VTuple (firstn n l))
  | VStr s => Ok (VStr (substring 0 n s))
  | VDict _ => raise TypeError "unhashable type: 'slice'"
  | VNone | VInt _ => raise TypeError "object is not subscriptable"
  end.

(** [d[k] = v] on the items of a dictionary: a key that is there keeps
    its place. *)
Fixpoint assoc_set (k : string) (v : PyVal) (d : list (string * PyVal))
  : list (string * PyVal) :=
  match d with
  | [] => [(k, v)]
  | (k', v') :: d' =>
      if String.eqb k k' then (k', v) :: d' else (k', v') :: assoc_set k v d'
  end.

(** [[x[k] for x in items]]. *)
Fixpoint item_of_each (k : string) (items : list PyVal)
  : Result (list PyVal) :=
  match items with
  | [] => Ok []
  | x :: rest =>
      v ← getitem x k;
      vs ← item_of_each k rest;
      Ok (v :: vs)
  end.

Definition setitem (d : PyVal) (k : string) (v : PyVal) : Result PyVal :=
  match d with
  | VDict items => Ok (VDict (assoc_set k v items))
  | _ => raise TypeError "object does not support item assignment"
  end.

End Py.

(** ** The language card: [src/generators/lang_card.py] *)
Module LangCard.
Import Py.

(** What svgwrite receives as an attribute value. *)
Inductive Attr :=
| AInt (z : Z)
| AFloat (f : float)
| AStr (s : string)
| AVal (v : PyVal)
| APair (a b : Attr).

(** An element made by [dwg.rect] or [dwg.text]: its tag, the text it
    encloses, and its keyword arguments in the order they are written. *)
Record Element := {
  tag : string;
  body : option PyVal;
  attrs : list (string * Attr)
}.

(** [svgwrite.Drawing]: the document that [tostring] serialises. The
    serialisation is svgwrite's: the document stands for its
    serialisation here. *)
Record Drawing := {
  size : Attr;
  viewBox : string;
  elements : list Element
}.

(** [dwg.add(e)]. *)
Definition add (dwg : Drawing) (e : Element) : Drawing :=
  {| size := size dwg; viewBox := viewBox dwg;
     elements := (elements dwg ++ [e])%list |}.

(** The objects of the classes [Rect] and [Text]. *)
Definition Rect (kw : list (string * Attr)) : Element :=
  {| tag := "rect"; body := None; attrs := kw |}.

Definition Text (t : PyVal) (kw : list (string * Attr)) : Element :=
  {| tag := "text"; body := Some t; attrs := kw |}.

(** svgwrite is not among the sources. A drawing in its default (debug)
    mode checks every attribute value an element is given, in
    [BaseElement.__setitem__], and raises ([TypeError], as a rule) when
    the SVG profile does not allow the value for this attribute of this
    element. The check is a parameter of the renderer: it takes the name
    of the element, the name of the attribute and the value. *)
Definition Check : Type := string → string → PyVal → Result unit.

(** A keyword as svgwrite reads it: [font_size] is the attribute
    [font-size]. No keyword of the renderer ends with an underscore. *)
Fixpoint attribute_name (k : string) : string :=
  match k with
  | EmptyString => EmptyString
  | String c k' =>
      String (if Ascii.eqb c "_" then "-"%char else c) (attribute_name k')
  end.

(** [lang.lower()]: a method of [str] only. *)
Definition str_lower (v : PyVal) : Result string :=
  match v with
  | VStr s => Ok (lower s)
  | _ => raise AttributeError "object has no attribute 'lower'"
  end.

(** The comprehension of lines 26-30: the kept entries, rebuilt as pairs. *)
Fixpoint filter_langs (excluded_lower : list string) (items : list PyVal)
  : Result (list PyVal) :=
  match items with
  | [] => Ok []
  | item :: rest =>
      '(lang, count) ← unpack2 item;
      l ← str_lower lang;
      kept ← filter_langs excluded_lower rest;
      Ok (if negb (str_in l excluded_lower)
          then VTuple [lang; count] :: kept else kept)
  end.

(** [sum(count for _, count in langs)], continued from [acc]. *)
Fixpoint sum_counts (acc : PyVal) (items : list PyVal) : Result PyVal :=
  match items with
  | [] => Ok acc
  | item :: rest =>
      '(_, count) ← unpack2 item;
      acc' ← Py.add acc count;
      sum_counts acc' rest
  end.

(** The literal [0.3]: the binary64 nearest to three tenths. *)
Definition opacity_03 : float := 0x1.3333333333333p-2%float.

(** [total_usage == 0]. *)
Definition is_zero (v : PyVal) : bool :=
  match v with
  | VInt z => z =? 0
  | _ => false
  end.

(** Line 60: [pct = (count / total_usage) * 100]. *)
Definition percentage (count total_usage : PyVal) : Result float :=
  q ← truediv count total_usage;
  Ok (q * float_of_small 100)%float.

(** Line 76: [fill_width = (pct / 100) * bar_width]. *)
Definition fill_width_of (pct : float) (bar_width : Z) : float :=
  (pct / float_of_small 100 * float_of_small bar_width)%float.

Section Card.

Variable check_svg_attribute_value : Check.

(** [themes.styles.THEMES] is not among the sources: the presets are a
    parameter of the renderer. *)
Variable THEMES : gmap string (gmap string PyVal).

(** The check of the keyword arguments of an element, in the order they
    are written. The numbers, the lengths and the keywords [bold] and
    [end] that the renderer writes itself are values svgwrite accepts; a
    value taken from the theme is what the presets or the caller gave,
    and is checked. *)
Fixpoint check_attrs (elementname : string) (kw : list (string * Attr))
  : Result unit :=
  match kw with
  | [] => Ok tt
  | (k, AVal v) :: kw' =>
      _ ← check_svg_attribute_value elementname (attribute_name k) v;
      check_attrs elementname kw'
  | _ :: kw' => check_attrs elementname kw'
  end.

(** [dwg.rect(...)] and [dwg.text(...)]. *)
Definition rect (kw : list (string * Attr)) : Result Element :=
  _ ← check_attrs "rect" kw;
  Ok (Rect kw).

Definition text (t : PyVal) (kw : list (string * Attr)) : Result Element :=
  _ ← check_attrs "text" kw;
  Ok (Text t kw).

(** [theme[k]]. *)
Definition theme_item {V} (theme : gmap string V) (k : string) : Result V :=
  match theme !! k with
  | Some v => Ok v
  | None => raise KeyError (repr_str k)
  end.

(** Lines 14-16. The default [THEMES["Default"]] is an argument of [get]
    and so is looked up whatever [theme_name] is. *)
Definition resolve_theme (theme_name : string)
    (custom_colors : option (gmap string PyVal)) : Result (gmap string PyVal) :=
  dflt ← theme_item THEMES "Default";
  let theme := default dflt (THEMES !! theme_name) in
  Ok (match custom_colors with
      | Some c => if Nat.eqb (base.size c) 0 then theme else c ∪ theme
      | None => theme
      end).

(** The body of the loop of lines 58-79, for the entries from index [i]. *)
Fixpoint draw_rows (theme : gmap string PyVal) (width item_height start_y : Z)
    (total_usage : PyVal) (i : Z) (items : list PyVal) (dwg : Drawing)
  : Result Drawing :=
  match items with
  | [] => Ok dwg
  | item :: rest =>
      '(lang, count) ← unpack2 item;
      let y := start_y + i * item_height in
      pct ← percentage count total_usage;
      (* Label *)
      text_color ← theme_item theme "text_color";
      text_font_size ← theme_item theme "text_font_size";
      font_family ← theme_item theme "font_family";
      label ← text lang
        [("insert", APair (AInt 20) (AInt y)); ("fill", AVal text_color);
         ("font_size", AVal text_font_size);
         ("font_family", AVal font_family)];
      let dwg := add dwg label in
      (* Percentage Text *)
      text_color ← theme_item theme "text_color";
      text_font_size ← theme_item theme "text_font_size";
      font_family ← theme_item theme "font_family";
      percent ← text (VStr (format_1f pct ++ "%"))
        [("insert", APair (AInt (width - 20)) (AInt y));
         ("fill", AVal text_color); ("font_size", AVal text_font_size);
         ("font_family", AVal font_family); ("text_anchor", AStr "end")];
      let dwg := add dwg percent in
      (* Progress Bar Background *)
      let bar_y := y + 5 in
      let bar_width := width - 40 in
      border_color ← theme_item theme "border_color";
      track ← rect
        [("insert", APair (AInt 20) (AInt bar_y));
         ("size", APair (AInt bar_width) (AInt 6));
         ("rx", AInt 3); ("ry", AInt 3); ("fill", AVal border_color);
         ("opacity", AFloat opacity_03)];
      let dwg := add dwg track in
      (* Progress Bar Fill *)
      let fill_width := fill_width_of pct bar_width in
      bar_color ← theme_item theme "title_color";
      bar ← rect
        [("insert", APair (AInt 20) (AInt bar_y));
         ("size", APair (AFloat fill_width) (AInt 6));
         ("rx", AInt 3); ("ry", AInt 3); ("fill", AVal bar_color)];
      let dwg := add dwg bar in
      draw_rows theme width item_height start_y total_usage (i + 1) rest dwg
  end.

Definition draw_lang_card (data : PyVal) (theme_name : string)
    (custom_colors : option (gmap string PyVal))
    (excluded_languages : option (list string)) : Result Drawing :=
  theme ← resolve_theme theme_name custom_colors;
  let width := 300 in
  langs ← dict_get data "top_languages" (VList []);
  (* Apply exclusion filter if provided *)
  langs ← match excluded_languages with
          | Some (e :: es) =>
              if truthy langs then
                let excluded_lower := map lower (e :: es) in
                items ← iterate langs;
                kept ← filter_langs excluded_lower items;
                Ok (VList kept)
              else Ok langs
          | Some [] | None => Ok langs
          end;
  (* Handle empty result after filtering *)
  let langs :=
    if negb (truthy langs) then VList [VTuple [VStr "No Data"; VInt 0]]
    else langs in
  let item_height := 35 in
  let header_height := 40 in
  n ← len langs;
  let height := header_height + n * item_height + 10 in
  let dwg :=
    {| size := APair (AStr "100%") (AStr "100%");
       viewBox := "0 0 " ++ str_of_Z width ++ " " ++ str_of_Z height;
       elements := [] |} in
  (* Background *)
  bg_color ← theme_item theme "bg_color";
  border_color ← theme_item theme "border_color";
  background ← rect
    [("insert", APair (AInt 0) (AInt 0));
     ("size", APair (AStr "100%") (AStr "100%"));
     ("rx", AInt 10); ("ry", AInt 10); ("fill", AVal bg_color);
     ("stroke", AVal border_color); ("stroke_width", AInt 2)];
  let dwg := add dwg background in
  (* Title *)
  title_color ← theme_item theme "title_color";
  title_font_size ← theme_item theme "title_font_size";
  font_family ← theme_item theme "font_family";
  title ← text (VStr "Top Languages")
    [("insert", APair (AInt 20) (AInt 30)); ("fill", AVal title_color);
     ("font_size", AVal title_font_size); ("font_family", AVal font_family);
     ("font_weight", AStr "bold")];
  let dwg := add dwg title in
  (* Content *)
  let start_y := 60 in
  (* Calculate total for percentages *)
  items ← iterate langs;
  total_usage ← sum_counts (VInt 0) items;
  let total_usage := if is_zero total_usage then VInt 1 else total_usage in
  draw_rows theme width item_height start_y total_usage 0 items dwg.

(** Lines 33-81 of [draw_lang_card], from the languages left by the
    exclusion step: the part of the function that the steps before it
    feed. *)
Definition finish_card (theme : gmap string PyVal) (langs : PyVal)
  : Result Drawing :=
  let width := 300 in
  let langs :=
    if negb (truthy langs) then VList [VTuple [VStr "No Data"; VInt 0]]
    else langs in
  let item_height := 35 in
  let header_height := 40 in
  n ← len langs;
  let height := header_height + n * item_height + 10 in
  let dwg :=
    {| size := APair (AStr "100%") (AStr "100%");
       viewBox := "0 0 " ++ str_of_Z width ++ " " ++ str_of_Z height;
       elements := [] |} in
  bg_color ← theme_item theme "bg_color";
  border_color ← theme_item theme "border_color";
  background ← rect
    [("insert", APair (AInt 0) (AInt 0));
     ("size", APair (AStr "100%") (AStr "100%"));
     ("rx", AInt 10); ("ry", AInt 10); ("fill", AVal bg_color);
     ("stroke", AVal border_color); ("stroke_width", AInt 2)];
  let dwg := add dwg background in
  title_color ← theme_item theme "title_color";
  title_font_size ← theme_item theme "title_font_size";
  font_family ← theme_item theme "font_family";
  title ← text (VStr "Top Languages")
    [("insert", APair (AInt 20) (AInt 30)); ("fill", AVal title_color);
     ("font_size", AVal title_font_size); ("font_family", AVal font_family);
     ("font_weight", AStr "bold")];
  let dwg := add dwg title in
  let start_y := 60 in
  items ← iterate langs;
  total_usage ← sum_counts (VInt 0) items;
  let total_usage := if is_zero total_usage then VInt 1 else total_usage in
  draw_rows theme width item_height start_y total_usage 0 items dwg.

End Card.

(** *** The vocabulary of the statements about the card *)

(** A language entry as the renderer unpacks it: the pair [(name, count)]. *)
Definition pair_val (p : string * Z) : PyVal := VTuple [VStr p.1; VInt p.2].

(** [data] is a record whose [top_languages] is the list of the pairs [l]. *)
Definition has_languages (data : PyVal) (l : list (string * Z)) : Prop :=
  dict_get data "top_languages" (VList []) = Ok (VList (map pair_val l)).

(** The least record with these languages. *)
Definition lang_data (l : list (string * Z)) : PyVal :=
  VDict [("top_languages", VList (map pair_val l))].

(** A name matches an excluded entry when they are equal up to case. *)
Definition matches_ci (name entry : string) : bool :=
  String.eqb (lower name) (lower entry).

Definition excluded (excluded_languages : option (list string))
    (name : string) : bool :=
  existsb (matches_ci name) (default [] excluded_languages).

(** The pairs that exclusion leaves. *)
Definition kept (excluded_languages : option (list string))
    (l : list (string * Z)) : list (string * Z) :=
  List.filter (fun p => negb (excluded excluded_languages p.1)) l.

(** The rows of the card: what exclusion leaves, or the placeholder. *)
Definition post_filter (excluded_languages : option (list string))
    (l : list (string * Z)) : list (string * Z) :=
  match kept excluded_languages l with
  | [] => [("No Data", 0)]
  | k => k
  end.

(** The sum of the counts, and the divisor that stands in for it. *)
Definition total (l : list (string * Z)) : Z :=
  foldr (fun p acc => p.2 + acc) 0 l.

Definition divisor (l : list (string * Z)) : Z :=
  if total l =? 0 then 1 else total l.

(** A count between zero and the divisor. *)
Definition share_of (T : Z) (p : string * Z) : Prop := 0 ≤ p.2 ≤ T.

(** No count is negative. *)
Definition nonneg (l : list (string * Z)) : Prop :=
  Forall (fun p => 0 ≤ p.2) l.

(** The percentage the loop computes for [count], as a binary64. *)
Definition pct_of (count total_usage : Z) : float :=
  (int_quotient count total_usage * float_of_small 100)%float.

(** The same share as an exact rational. *)
Definition exact_pct (count total_usage : Z) : Q :=
  (inject_Z count / inject_Z total_usage * 100)%Q.

Definition Qsum (l : list Q) : Q := foldr Qplus 0%Q l.

(** [sum(ps)] on floats: left to right, from the integer 0. *)
Definition float_sum (ps : list float) : float :=
  fold_left PrimFloat.add ps (float_of_small 0).

(** The percentages of the rows [rs], as the loop computes them. *)
Definition percentages (rs : list (string * Z)) : list float :=
  map (fun p => pct_of p.2 (divisor rs)) rs.

(** The percentages as the rationals they stand for, added up exactly. *)
Definition value_sum (ps : list float) : Q := Qsum (map float_value ps).

(** The percentage of the pair [p] is a finite binary64 within 2^-44 of
    the exact share. *)
Definition close_pct (total_usage : Z) (p : string * Z) : Prop :=
  is_plus_finite (pct_of p.2 total_usage)
  ∧ (Qabs (float_value (pct_of p.2 total_usage) - exact_pct p.2 total_usage)
     <= pow2 (-44))%Q.

(** The percentages of [rs] add up to the float 100 exactly. *)
Definition sums_to_100 (rs : list (string * Z)) : Prop :=
  float_sum (percentages rs) = float_of_small 100.

(** The percentage text and the filled width of a row at 0%. *)
Definition at_zero (r : option PyVal * option PyVal * option Attr) : Prop :=
  r.1.2 = Some (VStr "0.0%")
  ∧ r.2 = Some (APair (AFloat 0%float) (AInt 6)).

(** Three languages with one repository each. *)
Definition thirds : list (string * Z) := [("Go", 1); ("Rust", 1); ("C", 1)].

(** A row as it can be read off the document: the label, the percentage
    text, and the [size] of the filled bar. *)
Definition Row : Type := option PyVal * option PyVal * option Attr.

Fixpoint attr (k : string) (kw : list (string * Attr)) : option Attr :=
  match kw with
  | [] => None
  | (k', a) :: kw' => if String.eqb k k' then Some a else attr k kw'
  end.

Fixpoint rows_of (es : list Element) : list Row :=
  match es with
  | label :: percent :: track :: bar :: es' =>
      (body label, body percent, attr "size" (attrs bar)) :: rows_of es'
  | _ => []
  end.

(** The rows of a card: its elements after the background and the title. *)
Definition rows (d : Drawing) : list Row := rows_of (skipn 2 (elements d)).

(** The row expected for the pair [p] when the counts are divided by
    [total_usage]. *)
Definition row_for (total_usage : Z) (p : string * Z) : Row :=
  (Some (VStr p.1),
   Some (VStr (format_1f (pct_of p.2 total_usage) ++ "%")),
   Some (APair (AFloat (fill_width_of (pct_of p.2 total_usage) 260))
               (AInt 6))).

(** The placeholder row, at 0%. *)
Definition no_data_row : Row :=
  (Some (VStr "No Data"), Some (VStr "0.0%"),
   Some (APair (AFloat 0%float) (AInt 6))).

(** The style attributes the renderer reads. *)
Definition style_keys : list string :=
  ["bg_color"; "border_color"; "title_color"; "title_font_size";
   "font_family"; "text_color"; "text_font_size"].

Definition has_styles (theme : gmap string PyVal) : Prop :=
  Forall (fun k => is_Some (theme !! k)) style_keys.

(** Where the renderer uses the styles: the element, the attribute and
    the style attribute whose value it is given. *)
Definition style_uses : list (string * string * string) :=
  [("rect", "fill", "bg_color"); ("rect", "stroke", "border_color");
   ("text", "fill", "title_color"); ("text", "font-size", "title_font_size");
   ("text", "font-family", "font_family");
   ("text", "fill", "text_color"); ("text", "font-size", "text_font_size");
   ("rect", "fill", "border_color"); ("rect", "fill", "title_color")].

(** svgwrite accepts every value that [theme] gives to a style attribute,
    wherever the renderer uses it. *)
Definition accepted (check : Check) (theme : gmap string PyVal) : Prop :=
  Forall (fun u => ∀ v, theme !! u.2 = Some v → check u.1.1 u.1.2 v = Ok tt)
         style_uses.

(** A theme that gives every style attribute a value that svgwrite
    accepts. *)
Definition usable (check : Check) (theme : gmap string PyVal) : Prop :=
  has_styles theme ∧ accepted check theme.

(** The presets are usable: there is a "Default" one, and every preset
    is usable. *)
Definition themes_ok (check : Check)
    (THEMES : gmap string (gmap string PyVal)) : Prop :=
  is_Some (THEMES !! "Default") ∧
  ∀ n theme, THEMES !! n = Some theme → usable check theme.

(** The custom colours, when there are any, are values that svgwrite
    accepts. *)
Definition colors_ok (check : Check)
    (custom_colors : option (gmap string PyVal)) : Prop :=
  match custom_colors with
  | Some c => accepted check c
  | None => True
  end.

(** The names of the languages and the entries of the exclusion list are
    ASCII text, on which [lower] is [str.lower]. *)
Definition ascii_text (l : list (string * Z))
    (excluded_languages : option (list string)) : Prop :=
  Forall (fun p => is_ascii p.1 = true) l
  ∧ Forall (fun e => is_ascii e = true) (default [] excluded_languages).

(** A set of presets to run the renderer on. *)
Definition sample_preset : gmap string PyVal :=
  list_to_map
    [("bg_color", VStr "#0d1117"); ("border_color", VStr "#30363d");
     ("title_color", VStr "#58a6ff"); ("title_font_size", VInt 20);
     ("font_family", VStr "Segoe UI, Ubuntu, Sans-Serif");
     ("text_color", VStr "#c9d1d9"); ("text_font_size", VInt 14)].

Definition sample_THEMES : gmap string (gmap string PyVal) :=
  {[ "Default" := sample_preset ]}.

(** A check to run the renderer with. It accepts a colour written as [#]
    and six hexadecimal digits, a font size that is a natural number and
    a font family that is text, all of which svgwrite accepts, and
    refuses anything else with [TypeError]. *)
Definition is_hex (c : ascii) : bool :=
  has_char c "0123456789abcdefABCDEF".

Fixpoint all_hex (s : string) : bool :=
  match s with
  | EmptyString => true
  | String c s' => (is_hex c && all_hex s')%bool
  end.

Definition is_hex_color (v : PyVal) : bool :=
  match v with
  | VStr (String c digits) =>
      (Ascii.eqb c "#" && Nat.eqb (String.length digits) 6
       && all_hex digits)%bool
  | _ => false
  end.

Definition sample_check : Check := fun elementname attribute v =>
  let fine :=
    if (String.eqb attribute "fill" || String.eqb attribute "stroke")%bool
    then is_hex_color v
    else if String.eqb attribute "font-size"
    then match v with VInt z => 0 <=? z | _ => false end
    else if String.eqb attribute "font-family"
    then match v with VStr _ => true | _ => false end
    else false in
  if fine then Ok tt
  else raise TypeError "not a valid value for the attribute".

(** *** The document, element by element *)

Definition style (theme : gmap string PyVal) (k : string) : PyVal :=
  default VNone (theme !! k).

(** [dwg] with the elements [es] added in order. *)
Definition extend (dwg : Drawing) (es : list Element) : Drawing :=
  {| size := size dwg; viewBox := viewBox dwg;
     elements := (elements dwg ++ es)%list |}.

(** The four elements of row [i]. *)
Definition row_elements (theme : gmap string PyVal) (total_usage i : Z)
    (p : string * Z) : list Element :=
  let y := 60 + i * 35 in
  let pct := pct_of p.2 total_usage in
  [Text (VStr p.1)
     [("insert", APair (AInt 20) (AInt y));
      ("fill", AVal (style theme "text_color"));
      ("font_size", AVal (style theme "text_font_size"));
      ("font_family", AVal (style theme "font_family"))];
   Text (VStr (format_1f pct ++ "%"))
     [("insert", APair (AInt 280) (AInt y));
      ("fill", AVal (style theme "text_color"));
      ("font_size", AVal (style theme "text_font_size"));
      ("font_family", AVal (style theme "font_family"));
      ("text_anchor", AStr "end")];
   Rect
     [("insert", APair (AInt 20) (AInt (y + 5)));
      ("size", APair (AInt 260) (AInt 6));
      ("rx", AInt 3); ("ry", AInt 3);
      ("fill", AVal (style theme "border_color"));
      ("opacity", AFloat opacity_03)];
   Rect
     [("insert", APair (AInt 20) (AInt (y + 5)));
      ("size", APair (AFloat (fill_width_of pct 260)) (AInt 6));
      ("rx", AInt 3); ("ry", AInt 3);
      ("fill", AVal (style theme "title_color"))]].

Fixpoint rows_elements (theme : gmap string PyVal) (total_usage i : Z)
    (l : list (string * Z)) : list Element :=
  match l with
  | [] => []
  | p :: l' =>
      (row_elements theme total_usage i p
       ++ rows_elements theme total_usage (i + 1) l')%list
  end.

(** The two elements drawn before the rows. *)
Definition background (theme : gmap string PyVal) : Element :=
  Rect
    [("insert", APair (AInt 0) (AInt 0));
     ("size", APair (AStr "100%") (AStr "100%"));
     ("rx", AInt 10); ("ry", AInt 10);
     ("fill", AVal (style theme "bg_color"));
     ("stroke", AVal (style theme "border_color"));
     ("stroke_width", AInt 2)].

Definition title (theme : gmap string PyVal) : Element :=
  Text (VStr "Top Languages")
    [("insert", APair (AInt 20) (AInt 30));
     ("fill", AVal (style theme "title_color"));
     ("font_size", AVal (style theme "title_font_size"));
     ("font_family", AVal (style theme "font_family"));
     ("font_weight", AStr "bold")].

(** The card with the rows [rs] in the theme [theme]. *)
Definition card (theme : gmap string PyVal) (rs : list (string * Z))
  : Drawing :=
  {| size := APair (AStr "100%") (AStr "100%");
     viewBox := "0 0 300 " ++ str_of_Z (50 + 35 * Z.of_nat (length rs));
     elements :=
       background theme :: title theme
       :: rows_elements theme (divisor rs) 0 rs |}.

(** *** Where the elements are *)

(** The point an element is anchored at: its [insert]. *)
Definition anchor (e : Element) : option (Z * Z) :=
  match attr "insert" (attrs e) with
  | Some (APair (AInt x) (AInt y)) => Some (x, y)
  | _ => None
  end.

(** [e] is anchored in a canvas 300 wide and [H] high, 20 from the right
    and from the bottom edge at least. *)
Definition anchored_within (H : Z) (e : Element) : Prop :=
  ∃ x y, anchor e = Some (x, y) ∧ 0 ≤ x ≤ 280 ∧ 0 ≤ y ≤ H - 20.

(** The box of a rectangle lies inside a canvas 300 wide and [H] high:
    one that is 100% wide and high starts at the origin, and any other
    starts and ends inside. The width of a filled bar is a binary64. *)
Definition inside (H : Z) (e : Element) : Prop :=
  match attr "insert" (attrs e), attr "size" (attrs e) with
  | Some (APair (AInt x) (AInt y)), Some (APair (AStr w) (AStr h)) =>
      x = 0 ∧ y = 0 ∧ w = "100%" ∧ h = "100%"
  | Some (APair (AInt x) (AInt y)), Some (APair (AInt w) (AInt h)) =>
      0 ≤ x ∧ 0 ≤ w ∧ x + w ≤ 300 ∧ 0 ≤ y ∧ 0 ≤ h ∧ y + h ≤ H
  | Some (APair (AInt x) (AInt y)), Some (APair (AFloat w) (AInt h)) =>
      0 ≤ x ∧ is_plus_finite w
      ∧ (inject_Z x + float_value w <= 300)%Q
      ∧ 0 ≤ y ∧ 0 ≤ h ∧ y + h ≤ H
  | _, _ => False
  end.

(** Lines 23-30 of [draw_lang_card]: the exclusion step. *)
Definition exclusion_step (excluded_languages : option (list string))
    (langs : PyVal) : Result PyVal :=
  match excluded_languages with
  | Some (e :: es) =>
      if truthy langs then
        let excluded_lower := map lower (e :: es) in
        items ← iterate langs;
        kept ← filter_langs excluded_lower items;
        Ok (VList kept)
      else Ok langs
  | Some [] | None => Ok langs
  end.

End LangCard.

(** ** The stats fetcher: [src/utils/github_utils.py] *)
Module GithubUtils.
Import Py.

(** *** The GitHub API, as the fetcher sees it

    A call either raises inside [requests] (no response), or returns a
    response with a status code whose [json()] yields the parsed body or
    raises. Bodies are typed by the API's schema; a field is [None] when
    the key is absent or [null]. *)
Inductive Http (A : Type) :=
| Unreachable
| Response (status_code : Z) (json : Result A).
Arguments Unreachable {A}.
Arguments Response {A} status_code json.

(** [GET /users/{username}]. *)
Record UserJson := {
  login : option string;
  name : option string;
  bio : option string;
  public_repos : option Z;
  followers : option Z;
  following : option Z;
  avatar_url : option string;
  created_at : option string
}.

(** An entry of [GET /users/{username}/repos]; [size] is [None] when the
    key is absent. *)
Record RepoJson := {
  language : option string;
  fork : option bool;
  size : option Z
}.

(** The [user] object of the graph query's answer. *)
Record GqlRepo := { primaryLanguage : option string }.

Record GqlUser := {
  gql_login : string;
  gql_name : option string;
  gql_bio : option string;
  avatarUrl : string;
  totalCount : Z;
  nodes : list GqlRepo;
  totalCommitContributions : Z
}.

(** The answer of [POST /graphql]: whether it has an [errors] key, and
    [data.user] ([None] for [null]). *)
Record GqlJson := {
  has_errors : bool;
  data_user : option GqlUser
}.

Record GitHub := {
  get_user : string → Http UserJson;
  get_repos : string → Http (list RepoJson);
  post_graphql : string → string → Http GqlJson
}.

(** [requests.get] / [requests.post]: the response, or the exception. *)
Definition request {A} (h : Http A) : Result (Z * Result A) :=
  match h with
  | Unreachable => raise ConnectionError "connection failed"
  | Response status_code json => Ok (status_code, json)
  end.

(** *** [collections.Counter] over strings, in insertion order *)
Definition Counter := list (string * Z).

(** [c[k] += 1]. *)
Fixpoint incr (k : string) (c : Counter) : Counter :=
  match c with
  | [] => [(k, 1)]
  | (k', n) :: c' =>
      if String.eqb k k' then (k', n + 1) :: c' else (k', n) :: incr k c'
  end.

(** Stable insertion into a list ordered by decreasing count: [x], which
    comes first in the counter, goes before every entry that does not
    count more. *)
Fixpoint insert_desc (x : string * Z) (l : list (string * Z)) :=
  match l with
  | [] => [x]
  | y :: l' => if x.2 <? y.2 then y :: insert_desc x l' else x :: y :: l'
  end.

(** [sorted(c.items(), key=itemgetter(1), reverse=True)]. *)
Fixpoint sort_desc (l : list (string * Z)) : list (string * Z) :=
  match l with
  | [] => []
  | x :: l' => insert_desc x (sort_desc l')
  end.

(** [c.most_common(n)]: the [n] largest counts, ties in insertion order. *)
Definition most_common (n : nat) (c : Counter) : list (string * Z) :=
  firstn n (sort_desc c).

(** *** [fetch_github_stats] *)

Definition opt_str (o : option string) : PyVal :=
  match o with Some s => VStr s | None => VNone end.

(** [a or b]. *)
Definition py_or (a b : PyVal) : PyVal := if truthy a then a else b.

(** One iteration of the loop of lines 55-62 on the state
    [(language_counts, total_commits_estimate)]. *)
Definition scan_repo (st : Counter * Z) (repo : RepoJson) : Counter * Z :=
  let '(language_counts, total_commits_estimate) := st in
  let language_counts :=
    if truthy (opt_str (language repo))
    then incr (default "" (language repo)) language_counts
    else language_counts in
  let total_commits_estimate :=
    if negb (default false (fork repo))
    then total_commits_estimate + default 0 (size repo) / 10
    else total_commits_estimate in
  (language_counts, total_commits_estimate).

Definition lang_entry (p : string * Z) : PyVal :=
  VDict [("name", VStr p.1); ("count", VInt p.2)].

(** Lines 52-62: the loop over the 30 most recent repositories. *)
Definition language_stats (repos : list RepoJson) : Counter * Z :=
  fold_left scan_repo (firstn 30 repos) ([], 0).

(** Lines 64-82: the top languages and the record. *)
Definition profile_data (user_data : UserJson) (language_counts : Counter)
    (total_commits_estimate : Z) : PyVal :=
  (* Get top languages *)
  let top_languages := map lang_entry (most_common 5 language_counts) in
  (* Construct profile data *)
  VDict
    [("username", opt_str (login user_data));
     ("name", py_or (opt_str (name user_data)) (opt_str (login user_data)));
     ("bio", opt_str (bio user_data));
     ("public_repos", VInt (default 0 (public_repos user_data)));
     ("followers", VInt (default 0 (followers user_data)));
     ("following", VInt (default 0 (following user_data)));
     ("avatar_url", opt_str (avatar_url user_data));
     ("created_at", opt_str (created_at user_data));
     ("top_languages", VList top_languages);
     ("total_commits",
      VInt (Z.max total_commits_estimate
                  (default 0 (public_repos user_data) * 5)))].

(** The body of the [try] block, lines 23-84. *)
Definition fetch_github_stats_try (gh : GitHub) (username : string)
  : Result PyVal :=
  (* Fetch user profile *)
  '(status_code, json) ← request (get_user gh username);
  if negb (status_code =? 200) then Ok VNone else
  user_data ← json;
  (* Fetch user's repositories *)
  '(status_code, json) ← request (get_repos gh username);
  repos ← (if negb (status_code =? 200) then Ok [] else json);
  (* Calculate language statistics *)
  let '(language_counts, total_commits_estimate) := language_stats repos in
  Ok (profile_data user_data language_counts total_commits_estimate).

(** [try: ... except Exception: return None]. *)
Definition fetch_github_stats (gh : GitHub) (username : string) : PyVal :=
  match fetch_github_stats_try gh username with
  | Ok profile_data => profile_data
  | Raise _ => VNone
  end.

(** *** [fetch_github_stats_detailed] *)

(** The loop of lines 167-170. *)
Definition scan_node (language_counts : Counter) (repo : GqlRepo) : Counter :=
  match primaryLanguage repo with
  | Some lang => incr lang language_counts
  | None => language_counts
  end.

(** Lines 163-185: the language counts and the record. *)
Definition detailed_data (user : GqlUser) : PyVal :=
  let repos := nodes user in
  (* Calculate language stats *)
  let language_counts := fold_left scan_node repos [] in
  let top_languages := map lang_entry (most_common 5 language_counts) in
  VDict
    [("username", VStr (gql_login user));
     ("name", py_or (opt_str (gql_name user)) (VStr (gql_login user)));
     ("bio", opt_str (gql_bio user));
     ("avatar_url", VStr (avatarUrl user));
     ("public_repos", VInt (totalCount user));
     ("total_commits", VInt (totalCommitContributions user));
     ("top_languages", VList top_languages)].

(** The body of the [try] block, lines 140-185. *)
Definition fetch_github_stats_detailed_try (gh : GitHub)
    (username github_token : string) : Result PyVal :=
  '(status_code, json) ← request (post_graphql gh username github_token);
  if negb (status_code =? 200) then Ok (fetch_github_stats gh username) else
  data ← json;
  if has_errors data then Ok (fetch_github_stats gh username) else
  user ← match data_user data with
         | Some user => Ok user
         | None => raise TypeError "'NoneType' object is not subscriptable"
         end;
  Ok (detailed_data user).

Definition fetch_github_stats_detailed (gh : GitHub) (username : string)
    (github_token : option string) : PyVal :=
  match github_token with
  | None | Some "" => fetch_github_stats gh username
  | Some token =>
      match fetch_github_stats_detailed_try gh username token with
      | Ok r => r
      | Raise _ => fetch_github_stats gh username
      end
  end.

(** *** The vocabulary of the statements about the fetcher *)

(** The fields of a Profile Record. *)
Definition profile_fields : list string :=
  ["username"; "name"; "bio"; "public_repos"; "followers"; "following";
   "avatar_url"; "created_at"; "top_languages"; "total_commits"].

(** [r] is a dictionary with the key [k]. *)
Definition has_field (r : PyVal) (k : string) : Prop :=
  ∃ v, getitem r k = Ok v.

Definition is_non_fork (repo : RepoJson) : bool :=
  negb (default false (fork repo)).

(** The sum of [size // 10] over the repositories of [repos] that are
    not forks, a missing size counting as 0. *)
Definition size_tenths (repos : list RepoJson) : Z :=
  foldr Z.add 0
    (map (fun repo => default 0 (size repo) / 10)
       (List.filter is_non_fork repos)).

(** The repository list that the profile is built from: the parsed body,
    or the empty list when the status is not 200. *)
Definition listed_repos (h : Http (list RepoJson))
  : option (list RepoJson) :=
  match h with
  | Unreachable => None
  | Response status_code json =>
      if status_code =? 200
      then match json with Ok repos => Some repos | Raise _ => None end
      else Some []
  end.

(** The profile that the record is built from: the parsed body of a
    response with status 200. *)
Definition profile_body (h : Http UserJson) : option UserJson :=
  match h with
  | Unreachable => None
  | Response status_code json =>
      if status_code =? 200
      then match json with Ok user_data => Some user_data | Raise _ => None end
      else None
  end.

(** Every count is positive. *)
Definition positive_counts (c : list (string * Z)) : Prop :=
  Forall (fun p => 0 < p.2) c.




(** The counts of a list of entries are in non-increasing order. *)
Definition non_increasing (l : list (string * Z)) : Prop :=
  StronglySorted (fun a b => b.2 ≤ a.2) l.

(** Responses to run the fetcher on: the account of the example, with
    two Go repositories and a forked Python one. *)
Definition sample_user : UserJson :=
  {| login := Some "octocat"; name := Some "The Octocat"; bio := None;
     public_repos := Some 2; followers := Some 10; following := Some 3;
     avatar_url := Some "https://avatars.githubusercontent.com/u/583231";
     created_at := Some "2011-01-25T18:44:36Z" |}.

Definition sample_repos : list RepoJson :=
  [ {| language := Some "Go"; fork := Some false; size := Some 100 |};
    {| language := Some "Go"; fork := Some false; size := Some 50 |};
    {| language := Some "Python"; fork := Some true; size := Some 40 |} ].

Definition sample_gql_user : GqlUser :=
  {| gql_login := "octocat"; gql_name := Some "The Octocat";
     gql_bio := None;
     avatarUrl := "https://avatars.githubusercontent.com/u/583231";
     totalCount := 3;
     nodes := [ {| primaryLanguage := Some "Go" |};
                {| primaryLanguage := Some "Go" |};
                {| primaryLanguage := Some "Python" |} ];
     totalCommitContributions := 120 |}.

Definition sample_gh : GitHub :=
  {| get_user := fun _ => Response 200 (Ok sample_user);
     get_repos := fun _ => Response 200 (Ok sample_repos);
     post_graphql := fun _ _ =>
       Response 200 (Ok {| has_errors := false;
                           data_user := Some sample_gql_user |}) |}.

(** The same account when the repository listing is refused. *)
Definition limited_gh : GitHub :=
  {| get_user := fun _ => Response 200 (Ok sample_user);
     get_repos := fun _ => Response 403 (Ok []);
     post_graphql := fun _ _ => Unreachable |}.

(** An account that does not exist. *)
Definition not_found_gh : GitHub :=
  {| get_user := fun _ =>
       Response 404 (Ok {| login := None; name := None; bio := None;
                           public_repos := None; followers := None;
                           following := None; avatar_url := None;
                           created_at := None |});
     get_repos := fun _ => Response 404 (Ok []);
     post_graphql := fun _ _ => Unreachable |}.

(** *** What the fetcher prints, and the script of lines 192-209 *)

(** A computation that prints lines and then returns or raises. *)
Record Printing (A : Type) := Pr {
  printed : list string;
  outcome : Result A
}.
Arguments Pr {A} printed outcome.
Arguments printed {A} p.
Arguments outcome {A} p.

#[export] Instance Printing_ret : MRet Printing := fun _ a => Pr [] (Ok a).
#[export] Instance Printing_bind : MBind Printing := fun _ _ k m =>
  match outcome m with
  | Ok a => Pr (printed m ++ printed (k a))%list (outcome (k a))
  | Raise e => Pr (printed m) (Raise e)
  end.

(** [print(line)]. *)
Definition print (line : string) : Printing unit := Pr [line] (Ok tt).

(** A step that prints nothing. *)
Definition quiet {A} (r : Result A) : Printing A := Pr [] r.

(** The body of the [try] block, lines 23-84, with its [print]s. *)
Definition fetch_github_stats_try_out (gh : GitHub) (username : string)
  : Printing PyVal :=
  (* Fetch user profile *)
  '(status_code, json) ← quiet (request (get_user gh username));
  if negb (status_code =? 200) then
    _ ← print ("Failed to fetch user: " ++ str_of_Z status_code);
    mret VNone
  else
  user_data ← quiet json;
  (* Fetch user's repositories *)
  '(status_code, json) ← quiet (request (get_repos gh username));
  repos ← (if negb (status_code =? 200) then
             _ ← print ("Failed to fetch repos: " ++ str_of_Z status_code);
             mret []
           else quiet json);
  (* Calculate language statistics *)
  let '(language_counts, total_commits_estimate) := language_stats repos in
  mret (profile_data user_data language_counts total_commits_estimate).

(** [fetch_github_stats] with what it prints: the lines, and the value. *)
Definition fetch_github_stats_out (gh : GitHub) (username : string)
  : list string * PyVal :=
  let r := fetch_github_stats_try_out gh username in
  match outcome r with
  | Ok profile_data => (printed r, profile_data)
  | Raise e =>
      ((printed r
        ++ [("Error fetching GitHub stats: " ++ exc_msg e)%string])%list,
       VNone)
  end.

(** Lines 193-209, run with [sys.argv = argv]. *)
Definition main (gh : GitHub) (argv : list string) : Printing unit :=
  match argv with
  | _ :: username :: _ =>
      _ ← print ("Fetching stats for: " ++ username);
      stats ← (let '(lines, stats) := fetch_github_stats_out gh username in
               Pr lines (Ok stats));
      if truthy stats then
        v ← quiet (getitem stats "username");
        _ ← print (String newline ("Username: " ++ str v));
        v ← quiet (getitem stats "public_repos");
        _ ← print ("Public Repos: " ++ str v);
        v ← quiet (getitem stats "total_commits");
        _ ← print ("Estimated Commits: " ++ str v);
        langs ← quiet (getitem stats "top_languages");
        items ← quiet (iterate langs);
        names ← quiet (item_of_each "name" items);
        joined ← quiet (join ", " names);
        print ("Top Languages: " ++ joined)
      else print "Failed to fetch stats"
  | _ => print "Usage: python github_utils.py <username>"
  end.

(** *** More vocabulary: counting, and the graph query *)

(** The languages that the loop of the basic fetch counts, in order: the
    labels that are there and not empty. *)
Definition repo_languages (repos : list RepoJson) : list string :=
  flat_map (fun repo => match language repo with
                        | Some l => if String.eqb l "" then [] else [l]
                        | None => []
                        end) repos.

(** The languages that the loop of the detailed fetch counts. *)
Definition node_languages (repos : list GqlRepo) : list string :=
  flat_map (fun repo => match primaryLanguage repo with
                        | Some l => [l]
                        | None => []
                        end) repos.

(** How many times [name] is in [langs]. *)
Definition occurrences (name : string) (langs : list string) : Z :=
  Z.of_nat (length (List.filter (String.eqb name) langs)).

(** [c[k]] for a counter: 0 for a key that is not there. *)
Fixpoint count_of (k : string) (c : Counter) : Z :=
  match c with
  | [] => 0
  | (k', n) :: c' => if String.eqb k k' then n else count_of k c'
  end.

(** Counting a list of keys from the counter [c]. *)
Definition tally (keys : list string) (c : Counter) : Counter :=
  fold_left (fun c k => incr k c) keys c.

(** The user of a graph answer that the detailed fetch can use: status
    200, a body that parses, no [errors] key, a [user] that is not
    [null]. *)
Definition graph_user (h : Http GqlJson) : option GqlUser :=
  match h with
  | Unreachable => None
  | Response status_code json =>
      if status_code =? 200
      then match json with
           | Ok data => if has_errors data then None else data_user data
           | Raise _ => None
           end
      else None
  end.

(** The token is one the detailed fetch uses. *)
Definition usable_token (github_token : option string) : option string :=
  match github_token with
  | Some token => if String.eqb token "" then None else Some token
  | None => None
  end.

(** 31 repositories in Go, for a run past the limit of the basic fetch. *)
Definition many_repos : list RepoJson :=
  repeat {| language := Some "Go"; fork := Some false; size := Some 10 |} 31.

(** Six languages, the last with one repository only. *)
Definition polyglot_repos : list RepoJson :=
  map (fun l => {| language := Some l; fork := Some false; size := Some 10 |})
      ["Go"; "Rust"; "Go"; "C"; "Rust"; "Java"; "C"; "Ruby"; "Java"; "Ruby";
       "Zig"].

Definition polyglot_gh : GitHub :=
  {| get_user := fun _ => Response 200 (Ok sample_user);
     get_repos := fun _ => Response 200 (Ok polyglot_repos);
     post_graphql := fun _ _ => Unreachable |}.

Definition many_gh : GitHub :=
  {| get_user := fun _ => Response 200 (Ok sample_user);
     get_repos := fun _ => Response 200 (Ok many_repos);
     post_graphql := fun _ _ => Unreachable |}.

End GithubUtils.

(** ** The roast widget: [src/roast_widget_streamlit.py] *)
Module RoastWidget.
Import Py.

(** What a run of the script leaves behind: [st.session_state], and the
    messages passed to [st.error]. *)
Record UI := {
  session_state : gmap string PyVal;
  shown_errors : list string
}.

(** [st.error(msg)]. *)
Definition st_error (msg : string) (ui : UI) : UI :=
  {| session_state := session_state ui;
     shown_errors := (shown_errors ui ++ [msg])%list |}.

(** Lines 84-85. *)
Definition init_session (ui : UI) : UI :=
  match session_state ui !! "roast_data" with
  | Some _ => ui
  | None => {| session_state := <["roast_data" := VNone]> (session_state ui);
               shown_errors := shown_errors ui |}
  end.

Section Widget.

(** The two imported callables. Each returns or raises;
    [ai.ai_roast_service] is not among the sources. *)
Variable fetch_github_stats : string → Result PyVal.
Variable generate_profile_roast : PyVal → Result PyVal.

(** The body of the [try] block, lines 93-105. The session is assigned
    once the dictionary literal is built, after everything that can raise. *)
Definition generate_try (username : string) (ui : UI) : Result UI :=
  (* Fetch GitHub stats *)
  profile_data ← fetch_github_stats username;
  if truthy profile_data then
    (* Generate roast *)
    roast_result ← generate_profile_roast profile_data;
    roast ← getitem roast_result "roast";
    source ← getitem roast_result "source";
    Ok {| session_state :=
            <["roast_data" := VDict [("roast", roast);
                                     ("profile", profile_data);
                                     ("source", source)]]> (session_state ui);
          shown_errors := shown_errors ui |}
  else Ok (st_error "Failed to fetch GitHub profile data" ui).

(** The handler of the "Generate Roast" button, lines 91-107. *)
Definition generate_action (username : string) (ui : UI) : UI :=
  match generate_try username ui with
  | Ok ui' => ui'
  | Raise e => st_error ("Error generating roast: " ++ exc_msg e) ui
  end.

(** Lines 83-107 of [render_roast_widget]; [pressed] is what
    [st.button] returns in this run. *)
Definition render_generate (pressed : bool) (username : string) (ui : UI)
  : UI :=
  let ui := init_session ui in
  if pressed then generate_action username ui else ui.

End Widget.

(** The widget with the fetcher of [GithubUtils] behind it. *)
Definition generate_with (gh : GithubUtils.GitHub)
    (generate_profile_roast : PyVal → Result PyVal) :=
  generate_action (fun u => Ok (GithubUtils.fetch_github_stats gh u))
                  generate_profile_roast.

(** *** The vocabulary of the statements about the widget *)

(** A roast collaborator that always answers. *)
Definition sample_roast (profile_data : PyVal) : Result PyVal :=
  Ok (VDict [("roast", VStr "Two Go repositories and a fork.");
             ("source", VStr "fallback")]).

(** A session that already holds a roast. *)
Definition cached_ui : UI :=
  {| session_state :=
       {[ "roast_data" :=
            VDict [("roast", VStr "An older roast.");
                   ("profile", VDict [("username", VStr "octocat")]);
                   ("source", VStr "fallback")] ]};
     shown_errors := [] |}.

(** [ui'] is [ui] with one more error shown and the same session. *)
Definition error_shown (msg : string) (ui ui' : UI) : Prop :=
  session_state ui' = session_state ui
  ∧ shown_errors ui' = (shown_errors ui ++ [msg])%list.

(** *** The display, lines 109-162 *)

(** How a run of the script ends: at its last line, or at [st.rerun()],
    which stops the run and asks for another one. *)
Inductive Flow :=
| Continue (ui : UI)
| Rerun (ui : UI).

Definition flow_ui (f : Flow) : UI :=
  match f with Continue ui | Rerun ui => ui end.

(** What the display shows, by the call that shows it; the markup around
    the values is fixed text. *)
Inductive Item :=
| RoastText (roast_text : string)
| Written (s : string)
| Code (roast_text : PyVal)
| Download (data : PyVal) (file_name mime : string)
| Footer (langs_str total_commits : string)
| Caption (source : string).

(** [st.session_state.roast_data]. *)
Definition session_attr (ui : UI) (k : string) : Result PyVal :=
  match session_state ui !! k with
  | Some v => Ok v
  | None => raise AttributeError k
  end.

(** [st.download_button(..., data=data, ...)], lines 136-142. Streamlit
    takes text, bytes or an open file as the data and raises for any
    other value; of these, the values modelled here have text only. (The
    class of the exception has changed between versions of Streamlit; no
    statement depends on it.) *)
Definition download_button (data : PyVal) (file_name mime : string)
  : Result Item :=
  match data with
  | VStr _ => Ok (Download data file_name mime)
  | _ => raise RuntimeError "Invalid binary data format"
  end.

(** Lines 145-146 and the value of line 156. *)
Definition stats_footer (profile : PyVal) : Result (string * string) :=
  langs ← dict_get profile "top_languages" (VList []);
  langs ← slice_to 3 langs;
  items ← iterate langs;
  top_langs ← item_of_each "name" items;
  langs_str ← (if truthy (VList top_langs) then join ", " top_langs
               else Ok "N/A");
  total_commits ← dict_get profile "total_commits" (VStr "N/A");
  Ok (langs_str, str total_commits).

Section Display.

Variable fetch_github_stats : string → Result PyVal.
Variable generate_profile_roast : PyVal → Result PyVal.

(** The body of the [try] block of lines 123-125, up to [st.rerun()]. *)
Definition regenerate_try (profile : PyVal) (ui : UI) : Result UI :=
  roast_result ← generate_profile_roast profile;
  roast ← getitem roast_result "roast";
  roast_data ← session_attr ui "roast_data";
  roast_data ← setitem roast_data "roast" roast;
  Ok {| session_state := <["roast_data" := roast_data]> (session_state ui);
        shown_errors := shown_errors ui |}.

(** The handler of the "New Roast" button, lines 121-127. *)
Definition regenerate_action (profile : PyVal) (ui : UI) : Flow :=
  match regenerate_try profile ui with
  | Ok ui' => Rerun ui'
  | Raise e => Continue (st_error ("Error: " ++ exc_msg e) ui)
  end.

(** Lines 110-162. An exception here is caught by nothing. *)
Definition display (pressed_new pressed_copy : bool) (username : string)
    (ui : UI) : Result (Flow * list Item) :=
  roast_data ← session_attr ui "roast_data";
  if truthy roast_data then
    roast_text ← getitem roast_data "roast";
    profile ← getitem roast_data "profile";
    (* Roast display *)
    let items := [RoastText (str roast_text)] in
    (* Action buttons *)
    match (if pressed_new then regenerate_action profile ui
           else Continue ui) with
    | Rerun ui => Ok (Rerun ui, items)
    | Continue ui =>
        let items :=
          if pressed_copy
          then (items ++ [Written "Roast copied to clipboard!";
                          Code roast_text])%list
          else items in
        download ← download_button roast_text
                     (username ++ "_roast.txt")%string "text/plain";
        let items := (items ++ [download])%list in
        (* Profile stats *)
        '(langs_str, total_commits) ← stats_footer profile;
        let items := (items ++ [Footer langs_str total_commits])%list in
        (* Show source *)
        roast_data ← session_attr ui "roast_data";
        source ← getitem roast_data "source";
        Ok (Continue ui, (items ++ [Caption (str source)])%list)
    end
  else Ok (Continue ui, []).

(** Lines 83-162: one run of [render_roast_widget], given what the three
    buttons return. *)
Definition render_roast_widget
    (pressed_generate pressed_new pressed_copy : bool)
    (username : string) (ui : UI) : Result (Flow * list Item) :=
  display pressed_new pressed_copy username
    (render_generate fetch_github_stats generate_profile_roast
       pressed_generate username ui).

End Display.

(** *** More vocabulary: the cached record *)

(** [v] is a cached record: a roast that is text, a profile whose top
    languages are name/count mappings, and a source. *)
Definition cached_record (v : PyVal) : Prop :=
  ∃ roast profile source l,
    v = VDict [("roast", VStr roast); ("profile", profile);
               ("source", source)]
    ∧ dict_get profile "top_languages" (VList [])
      = Ok (VList (map GithubUtils.lang_entry l)).

(** The roast service gives its roasts as text: when it answers with a
    roast, the roast is a string. *)
Definition text_roasts (generate_profile_roast : PyVal → Result PyVal)
  : Prop :=
  ∀ profile result roast,
    generate_profile_roast profile = Ok result →
    getitem result "roast" = Ok roast → ∃ s, roast = VStr s.

(** The session is as the script leaves it: no [roast_data] yet, [None],
    or a cached record. *)
Definition session_ok (ui : UI) : Prop :=
  match session_state ui !! "roast_data" with
  | None | Some VNone => True
  | Some v => cached_record v
  end.

(** A session that holds the roast of the account of the example. *)
Definition roasted_ui : UI :=
  {| session_state :=
       {[ "roast_data" :=
            VDict [("roast", VStr "An older roast.");
                   ("profile",
                    GithubUtils.fetch_github_stats GithubUtils.sample_gh
                      "octocat");
                   ("source", VStr "fallback")] ]};
     shown_errors := [] |}.

(** A collaborator that answers from another source. *)
Definition other_roast (profile_data : PyVal) : Result PyVal :=
  Ok (VDict [("roast", VStr "A newer roast."); ("source", VStr "model")]).

End RoastWidget.

(** * Properties *)

Import Py.

(** ** The error monad *)

Lemma ret_bind {A B} (a : A) (k : A → Result B) : (Ok a ≫= k) = k a.
Proof. reflexivity. Qed.

Lemma bind_Ok_inv {A B} (m : Result A) (k : A → Result B) (b : B) :
  (m ≫= k) = Ok b → ∃ a, m = Ok a ∧ k a = Ok b.
Proof. destruct m as [a|e]; [eauto | discriminate]. Qed.

(** Splits a successful bind in the hypotheses into its two steps. *)
Ltac inv_bind H :=
  let a := fresh "a" in
  let Ha := fresh "Hstep" in
  apply bind_Ok_inv in H; destruct H as (a & Ha & H).

(** ** Floats *)

Lemma overflow_threshold_big : 2 ≤ overflow_threshold.
Proof. vm_compute. discriminate. Qed.

(** A quotient of magnitude at most one is in range. *)
Lemma int_truediv_share (a b : Z) :
  0 ≤ a ≤ b → 0 < b → int_truediv a b = Ok (int_quotient a b).
Proof.
  intros Hab Hb. unfold int_truediv.
  pose proof overflow_threshold_big as Hbig.
  destruct (Z.eqb_spec b 0) as [->|_]; [lia|].
  destruct (Z.leb_spec (overflow_threshold * Z.abs b) (Z.abs a)) as [Hle|_];
    [|reflexivity].
  nia.
Qed.

Lemma percentage_share (a b : Z) :
  0 ≤ a ≤ b → 0 < b →
  LangCard.percentage (VInt a) (VInt b) = Ok (LangCard.pct_of a b).
Proof.
  intros Hab Hb. unfold LangCard.percentage. simpl.
  rewrite (int_truediv_share a b Hab Hb). reflexivity.
Qed.

(** ** Rounding

    [SFdiv] and [SFmul] of [SpecFloat], which the kernel's division and
    multiplication are specified by, round to nearest: on the values met
    here the result is a valid binary64 within half a unit in the last
    place of the exact result. *)

Lemma inject_xO (p : positive) :
  (inject_Z (Zpos p~0) == 2 * inject_Z (Zpos p))%Q.
Proof. rewrite Pos2Z.inj_xO, inject_Z_mult. reflexivity. Qed.

Lemma inject_xI (p : positive) :
  (inject_Z (Zpos p~1) == 2 * inject_Z (Zpos p) + 1)%Q.
Proof. rewrite Pos2Z.inj_xI, inject_Z_plus, inject_Z_mult. reflexivity. Qed.

Ltac inb_cases :=
  match goal with
  | r : bool, s : bool |- _ =>
      destruct r, s; cbn in *; unfold inb in *; cbn in *;
      change (inject_Z 0) with 0%Q in *; change (inject_Z 1) with 1%Q in *;
      lra
  end.

Lemma shr_1_inb (mrs : shr_record) (v : Q) :
  0 ≤ shr_m mrs →
  inb v (shr_m mrs) (loc_of_shr_record mrs) →
  inb (v * (1 # 2)) (shr_m (shr_1 mrs)) (loc_of_shr_record (shr_1 mrs))
  ∧ shr_m (shr_1 mrs) = shr_m mrs / 2.
Proof.
  destruct mrs as [m r s]. cbn [shr_m]. intros Hm H.
  destruct m as [|p|p]; [| |lia].
  - split; [|reflexivity]. inb_cases.
  - destruct p as [p|p|].
    + split.
      * pose proof (inject_xI p) as E. inb_cases.
      * destruct r, s; cbn [shr_1 shr_m orb];
          apply Z.div_unique with 1; lia.
    + split.
      * pose proof (inject_xO p) as E. inb_cases.
      * destruct r, s; cbn [shr_1 shr_m orb];
          apply Z.div_unique with 0; lia.
    + split; [|by destruct r, s]. inb_cases.
Qed.

Lemma pow2_pos (e : Z) : (0 < pow2 e)%Q.
Proof. apply Qpower_0_lt. reflexivity. Qed.

Lemma pow2_add (a b : Z) : (pow2 (a + b) == pow2 a * pow2 b)%Q.
Proof. apply Qpower_plus. discriminate. Qed.

Lemma pow2_le (a b : Z) : a ≤ b → (pow2 a <= pow2 b)%Q.
Proof. intros H. apply Qpower_le_compat_l; [exact H|]. unfold Qle. simpl. lia. Qed.

Lemma pow2_0 : (pow2 0 == 1)%Q.
Proof. reflexivity. Qed.

Lemma pow2_m1 : (pow2 (-1) == 1 # 2)%Q.
Proof. reflexivity. Qed.

Lemma pow2_Z (n : Z) : 0 ≤ n → (pow2 n == inject_Z (2 ^ n))%Q.
Proof. intros H. unfold pow2. rewrite (Zpower_Qpower 2 n H). reflexivity. Qed.

Lemma pow2_succ (a : Z) : (pow2 (a + 1) == 2 * pow2 a)%Q.
Proof. rewrite pow2_add. change (pow2 1) with 2%Q. ring. Qed.

Lemma pow2_pred (a : Z) : (pow2 (a - 1) == pow2 a * (1 # 2))%Q.
Proof.
  replace (a - 1) with (a + -1) by lia. rewrite pow2_add, pow2_m1. reflexivity.
Qed.

Lemma inb_eq (v' v : Q) (m : Z) (l : location) :
  inb v' m l → (v == v')%Q → inb v m l.
Proof.
  intros H Hv. unfold inb in *.
  destruct l as [|[| |]]; rewrite Hv; exact H.
Qed.

Lemma pow2_xI (n : positive) : 2 ^ Zpos n~1 = 2 * (2 ^ Zpos n * 2 ^ Zpos n).
Proof.
  assert (Zpos n~1 = 1 + Zpos n + Zpos n) as -> by lia.
  rewrite !Z.pow_add_r by lia. rewrite Z.pow_1_r. ring.
Qed.

Lemma pow2_xO (n : positive) : 2 ^ Zpos n~0 = 2 ^ Zpos n * 2 ^ Zpos n.
Proof.
  assert (Zpos n~0 = Zpos n + Zpos n) as -> by lia.
  rewrite !Z.pow_add_r by lia. ring.
Qed.

Lemma iter_shr_1_inb (n : positive) :
  ∀ (mrs : shr_record) (v : Q),
    0 ≤ shr_m mrs →
    inb v (shr_m mrs) (loc_of_shr_record mrs) →
    inb (v * pow2 (- Zpos n)) (shr_m (SpecFloat.iter_pos shr_1 n mrs))
        (loc_of_shr_record (SpecFloat.iter_pos shr_1 n mrs))
    ∧ shr_m (SpecFloat.iter_pos shr_1 n mrs) = shr_m mrs / 2 ^ Zpos n.
Proof.
  induction n as [n IH|n IH|]; intros mrs v Hm H; cbn [SpecFloat.iter_pos].
  - destruct (shr_1_inb mrs v Hm H) as [H1 E1].
    assert (0 ≤ shr_m (shr_1 mrs)) as Hm1
        by (rewrite E1; apply Z.div_pos; lia).
    destruct (IH _ _ Hm1 H1) as [H2 E2].
    assert (0 ≤ shr_m (SpecFloat.iter_pos shr_1 n (shr_1 mrs))) as Hm2
        by (rewrite E2; apply Z.div_pos; lia).
    destruct (IH _ _ Hm2 H2) as [H3 E3].
    split.
    + apply (inb_eq _ _ _ _ H3).
      replace (- Z.pos n~1) with (-1 + (- Z.pos n + - Z.pos n)) by lia.
      rewrite !pow2_add, pow2_m1. ring.
    + pose proof (Z.pow_pos_nonneg 2 (Zpos n) ltac:(lia) ltac:(lia)) as Hp.
      rewrite E3, E2, E1. rewrite !Z.div_div by lia. f_equal.
      rewrite pow2_xI. ring.
  - destruct (IH _ _ Hm H) as [H2 E2].
    assert (0 ≤ shr_m (SpecFloat.iter_pos shr_1 n mrs)) as Hm2
        by (rewrite E2; apply Z.div_pos; lia).
    destruct (IH _ _ Hm2 H2) as [H3 E3].
    split.
    + apply (inb_eq _ _ _ _ H3).
      replace (- Z.pos n~0) with (- Z.pos n + - Z.pos n) by lia.
      rewrite !pow2_add. ring.
    + pose proof (Z.pow_pos_nonneg 2 (Zpos n) ltac:(lia) ltac:(lia)) as Hp.
      rewrite E3, E2. rewrite !Z.div_div by lia. f_equal.
      rewrite pow2_xO. ring.
  - destruct (shr_1_inb mrs v Hm H) as [H1 E1]. split; [|exact E1].
    apply (inb_eq _ _ _ _ H1).
    rewrite pow2_m1. reflexivity.
Qed.

Lemma loc_of_record (m : Z) (l : location) :
  loc_of_shr_record (shr_record_of_loc m l) = l
  ∧ shr_m (shr_record_of_loc m l) = m.
Proof. by destruct l as [|[| |]]. Qed.

(** [shr]: a right shift by [n] places keeps the position of the value. *)
Lemma shr_inb (m e n : Z) (l : location) (v : Q) :
  0 ≤ m → inb v m l → 0 ≤ n →
  let r := shr (shr_record_of_loc m l) e n in
  r.2 = e + n
  ∧ shr_m r.1 = m / 2 ^ n
  ∧ inb (v * pow2 (- n)) (shr_m r.1) (loc_of_shr_record r.1).
Proof.
  intros Hm H Hn r. subst r. destruct (loc_of_record m l) as [El Em].
  destruct n as [|n|n]; [| |lia]; cbn [shr fst snd].
  - split; [lia|]. rewrite Em, El. split; [by rewrite Z.div_1_r|].
    apply (inb_eq _ _ _ _ H).
    change (pow2 (-0)) with 1%Q. ring.
  - split; [reflexivity|].
    destruct (iter_shr_1_inb n (shr_record_of_loc m l) v) as [H1 E1].
    + by rewrite Em.
    + by rewrite Em, El.
    + rewrite Em in E1. split; [exact E1|exact H1].
Qed.

Lemma digits2_succ (d : positive) (x : Z) :
  2 ^ (Zpos d - 1) ≤ x < 2 ^ Zpos d →
  2 ^ (Zpos (Pos.succ d) - 1) ≤ 2 * x
  ∧ 2 * x + 1 < 2 ^ Zpos (Pos.succ d).
Proof.
  intros H. rewrite Pos2Z.inj_succ.
  replace (Z.succ (Zpos d) - 1) with (Zpos d - 1 + 1) by lia.
  unfold Z.succ. rewrite !Z.pow_add_r by lia. rewrite Z.pow_1_r. lia.
Qed.

Lemma digits2_spec (p : positive) :
  2 ^ (Zpos (digits2_pos p) - 1) ≤ Zpos p < 2 ^ Zpos (digits2_pos p).
Proof.
  induction p as [p IH|p IH|]; cbn [digits2_pos].
  - apply digits2_succ in IH. destruct IH as [H1 H2]. rewrite Pos2Z.inj_xI.
    split; [eapply Z.le_trans; [exact H1|lia]|exact H2].
  - apply digits2_succ in IH. destruct IH as [H1 H2]. rewrite Pos2Z.inj_xO.
    split; [exact H1|eapply Z.lt_trans; [|exact H2]; lia].
  - simpl. lia.
Qed.

Lemma Zdigits2_spec (m : Z) :
  0 < m → 0 < Zdigits2 m ∧ 2 ^ (Zdigits2 m - 1) ≤ m < 2 ^ Zdigits2 m.
Proof.
  destruct m as [|p|p]; try lia. intros _. cbn [Zdigits2].
  split; [lia|apply digits2_spec].
Qed.

Lemma Zdigits2_nonneg (m : Z) : 0 ≤ Zdigits2 m.
Proof. destruct m; simpl; lia. Qed.

Lemma Zdigits2_ge (m t : Z) : 0 < m → 2 ^ (t - 1) ≤ m → t ≤ Zdigits2 m.
Proof.
  intros Hm Ht. destruct (Zdigits2_spec m Hm) as (Hd & _ & Hlt).
  destruct (Z_lt_le_dec (Zdigits2 m) t) as [Hc|]; [|lia]. exfalso.
  assert (2 ^ Zdigits2 m ≤ 2 ^ (t - 1)) by (apply Z.pow_le_mono_r; lia).
  lia.
Qed.

Lemma Zdigits2_le (m t : Z) : 0 ≤ m → 0 ≤ t → m < 2 ^ t → Zdigits2 m ≤ t.
Proof.
  intros Hm Ht Hlt. destruct (Z.eq_dec m 0) as [->|Hne]; [simpl; lia|].
  destruct (Zdigits2_spec m ltac:(lia)) as (Hd & Hle & _).
  destruct (Z_lt_le_dec t (Zdigits2 m)) as [Hc|]; [|lia]. exfalso.
  assert (2 ^ t ≤ 2 ^ (Zdigits2 m - 1)) by (apply Z.pow_le_mono_r; lia).
  lia.
Qed.

Lemma fexp_eq (e : Z) : fexp prec emax e = Z.max (e - 53) (-1074).
Proof. reflexivity. Qed.

(** Rounding to nearest, ties to even, moves by half a unit at most. *)
Lemma rne_spec (v : Q) (m : Z) (l : location) :
  inb v m l →
  m ≤ round_nearest_even m l ≤ m + 1
  ∧ (Qabs (inject_Z (round_nearest_even m l) - v) <= 1 # 2)%Q.
Proof.
  intros H. unfold round_nearest_even.
  assert (inject_Z (m + 1) == inject_Z m + 1)%Q as E
      by (rewrite inject_Z_plus; reflexivity).
  destruct l as [|[| |]]; unfold inb in H.
  - split; [lia|]. apply Qabs_Qle_condition. lra.
  - destruct (Z.even m); (split; [lia|]); apply Qabs_Qle_condition; lra.
  - split; [lia|]. apply Qabs_Qle_condition. lra.
  - split; [lia|]. apply Qabs_Qle_condition. lra.
Qed.

Lemma inb_ge (v : Q) (m : Z) (l : location) :
  inb v m l → (inject_Z m <= v)%Q.
Proof. destruct l as [|[| |]]; unfold inb; lra. Qed.

Lemma pow2_le_inv (a b : Z) : (pow2 a <= pow2 b)%Q → a ≤ b.
Proof.
  intros H. apply (Qpower_le_compat_l_inv 2); [exact H|].
  unfold Qlt. simpl. lia.
Qed.

Lemma pow_le_pow2 (d : Z) (m : Z) :
  0 ≤ d → 2 ^ d ≤ m → (pow2 d <= inject_Z m)%Q.
Proof.
  intros Hd H. rewrite (pow2_Z d Hd). unfold Qle. simpl. lia.
Qed.

(** The exponent that rounding chooses, from the size of the value. *)
Lemma exponent_bound (mx ex K : Z) (lx : location) (v : Q) :
  0 ≤ mx → inb v mx lx → ex ≤ fexp prec emax (Zdigits2 mx + ex) →
  (v * pow2 ex <= pow2 K)%Q → -1022 ≤ K →
  fexp prec emax (Zdigits2 mx + ex) ≤ K - 52.
Proof.
  intros Hmx Hinb Hex HK HKlo. rewrite fexp_eq in *.
  destruct (Z.eq_dec mx 0) as [->|Hne].
  - cbn [Zdigits2] in *. lia.
  - destruct (Zdigits2_spec mx ltac:(lia)) as (Hd & Hle & _).
    apply inb_ge in Hinb.
    pose proof (pow_le_pow2 (Zdigits2 mx - 1) mx ltac:(lia) Hle) as H2.
    assert (pow2 (Zdigits2 mx - 1 + ex) <= pow2 K)%Q as H3.
    { rewrite pow2_add. pose proof (pow2_pos ex).
      apply Qle_trans with (v * pow2 ex)%Q; [|exact HK].
      apply Qmult_le_compat_r; [lra|lra]. }
    apply pow2_le_inv in H3. lia.
Qed.

Lemma shr_nonpos (mrs : shr_record) (e n : Z) : n ≤ 0 → shr mrs e n = (mrs, e).
Proof. destruct n; [reflexivity|lia|reflexivity]. Qed.

Lemma scaled_error (m : Z) (v A T : Q) :
  (0 < T)%Q → (Qabs (inject_Z m - v * A) <= 1 # 2)%Q →
  (Qabs (inject_Z m * T - v * (A * T)) <= (1 # 2) * T)%Q.
Proof.
  intros HT H.
  assert (inject_Z m * T - v * (A * T) == (inject_Z m - v * A) * T)%Q as ->
      by ring.
  rewrite Qabs_Qmult. rewrite (Qabs_pos T) by lra.
  apply Qmult_le_compat_r; [exact H|lra].
Qed.

(** [binary_round_aux] on a bracketed value: the result is a valid
    binary64 within half a unit in the last place of the value. *)
Lemma round_aux_spec (mx ex : Z) (lx : location) (v : Q) (K : Z) :
  0 ≤ mx → inb v mx lx → ex ≤ fexp prec emax (Zdigits2 mx + ex) →
  (v * pow2 ex <= pow2 K)%Q → -1022 ≤ K ≤ 1022 →
  let F := binary_round_aux prec emax false mx ex lx in
  valid_binary F = true ∧ plus_finite F
  ∧ (Qabs (SF2Q F - v * pow2 ex) <= pow2 (K - 53))%Q.
Proof.
  intros Hmx Hinb Hex HK [HKlo HKhi] F. subst F.
  pose proof (exponent_bound mx ex K lx v Hmx Hinb Hex HK HKlo) as He1.
  set (d := Zdigits2 mx) in *. set (e1 := fexp prec emax (d + ex)) in *.
  assert (e1 = Z.max (d + ex - 53) (-1074)) as He1eq by apply fexp_eq.
  assert (0 ≤ d) as Hd by apply Zdigits2_nonneg.
  unfold binary_round_aux.
  change (shr_fexp prec emax mx ex lx)
    with (shr (shr_record_of_loc mx lx) ex (e1 - ex)).
  destruct (shr_inb mx ex (e1 - ex) lx v Hmx Hinb ltac:(lia))
    as (E1 & M1 & I1).
  destruct (shr (shr_record_of_loc mx lx) ex (e1 - ex)) as [mrs1 e'].
  cbn [fst snd] in E1, M1, I1.
  assert (e' = e1) as -> by lia. clear E1.
  destruct (rne_spec _ _ _ I1) as [Hm1 Habs].
  set (m' := shr_m mrs1) in *.
  set (m1 := round_nearest_even m' (loc_of_shr_record mrs1)) in *.
  assert (0 ≤ m') as Hm'0 by (rewrite M1; apply Z.div_pos; lia).
  assert (0 < 2 ^ (e1 - ex)) as Hpn by (apply Z.pow_pos_nonneg; lia).
  assert (m' < 2 ^ 53) as Hm'lt.
  { rewrite M1. apply Z.div_lt_upper_bound; [lia|].
    destruct (Z.eq_dec mx 0) as [->|Hne]; [lia|].
    destruct (Zdigits2_spec mx ltac:(lia)) as (_ & _ & Hlt). fold d in Hlt.
    eapply Z.lt_le_trans; [exact Hlt|].
    rewrite <- Z.pow_add_r by lia. apply Z.pow_le_mono_r; lia. }
  assert (-1074 ≤ d + ex - 53 → 2 ^ 52 ≤ m') as Hm'ge.
  { intros HA. rewrite M1.
    assert (0 < mx) as Hpos.
    { destruct (Z.eq_dec mx 0) as [E|]; [|lia]. subst mx d.
      cbn [Zdigits2] in *. lia. }
    destruct (Zdigits2_spec mx Hpos) as (_ & Hle & _). fold d in Hle.
    apply Z.div_le_lower_bound; [lia|].
    rewrite <- Z.pow_add_r by lia.
    replace (e1 - ex + 52) with (d - 1) by lia. exact Hle. }
  (* the value, before the last normalisation *)
  assert (Qabs (inject_Z m1 * pow2 e1 - v * pow2 ex) <= pow2 (K - 53))%Q as Herr.
  { assert (pow2 ex == pow2 (- (e1 - ex)) * pow2 e1)%Q as ->.
    { rewrite <- pow2_add. by replace (- (e1 - ex) + e1) with ex by lia. }
    eapply Qle_trans; [apply scaled_error; [apply pow2_pos|exact Habs]|].
    assert ((1 # 2) * pow2 e1 == pow2 (e1 - 1))%Q as ->
        by (rewrite pow2_pred; ring).
    apply pow2_le. lia. }
  unfold shr_fexp.
  destruct (Z.eq_dec m1 (2 ^ 53)) as [Hcarry|Hnc].
  - (* the rounding carried to the next binade *)
    assert (-1074 ≤ d + ex - 53) as HA.
    { destruct (Z_le_gt_dec (-1074) (d + ex - 53)); [assumption|]. exfalso.
      assert (m' < 2 ^ 52); [|lia].
      rewrite M1. apply Z.div_lt_upper_bound; [lia|].
      destruct (Z.eq_dec mx 0) as [->|Hne]; [lia|].
      destruct (Zdigits2_spec mx ltac:(lia)) as (_ & _ & Hlt). fold d in Hlt.
      eapply Z.lt_le_trans; [exact Hlt|].
      rewrite <- Z.pow_add_r by lia. apply Z.pow_le_mono_r; lia. }
    rewrite Hcarry in *.
    change (Zdigits2 (2 ^ 53)) with 54.
    rewrite (fexp_eq (54 + e1)).
    replace (Z.max (54 + e1 - 53) (-1074) - e1) with 1 by lia.
    change (2 ^ 53) with 9007199254740992 in *.
    cbn [shr_record_of_loc shr SpecFloat.iter_pos shr_1 orb fst snd shr_m].
    destruct (Z.leb_spec (e1 + 1) (emax - prec)) as [_|Hov];
      [|change (emax - prec) with 971 in Hov; lia].
    split; [|split; [exact I|]].
    + cbn [SpecFloat.valid_binary].
      unfold SpecFloat.bounded, SpecFloat.canonical_mantissa.
      change (Z.pos (digits2_pos 4503599627370496)) with 53.
      rewrite (fexp_eq (53 + (e1 + 1))).
      apply andb_true_intro. split; [apply Z.eqb_eq; lia|].
      apply Z.leb_le. change (emax - prec) with 971. lia.
    + cbn [SF2Q].
      assert ((1 * (inject_Z 4503599627370496 * pow2 (e1 + 1)))
              == inject_Z (2 ^ 53) * pow2 e1)%Q as ->; [|exact Herr].
      rewrite pow2_succ.
      assert (inject_Z 9007199254740992 == 2 * inject_Z 4503599627370496)%Q as ->
          by reflexivity.
      ring.
  - assert (m1 < 2 ^ 53) as Hm1lt by lia.
    assert (Zdigits2 m1 ≤ 53) as Hdig by (apply Zdigits2_le; lia).
    rewrite shr_nonpos by (rewrite fexp_eq; lia).
    cbn [shr_record_of_loc shr_m].
    destruct m1 as [|p|p] eqn:Hm1eq; [| |lia].
    + split; [reflexivity|]. split; [exact I|]. cbn [SF2Q].
      assert (0 == inject_Z 0 * pow2 e1)%Q as -> by ring. exact Herr.
    + destruct (Z.leb_spec e1 (emax - prec)) as [_|Hov];
        [|change (emax - prec) with 971 in Hov; lia].
      split; [|split; [exact I|]].
      * cbn [SpecFloat.valid_binary].
        unfold SpecFloat.bounded, SpecFloat.canonical_mantissa.
        change (Z.pos (digits2_pos p)) with (Zdigits2 (Zpos p)).
        rewrite (fexp_eq (Zdigits2 (Zpos p) + e1)).
        apply andb_true_intro. split.
        -- apply Z.eqb_eq.
           destruct (Z_le_gt_dec (-1074) (d + ex - 53)) as [HA|HB]; [|lia].
           assert (53 ≤ Zdigits2 (Zpos p)); [|lia].
           apply Zdigits2_ge; [lia|]. specialize (Hm'ge HA). lia.
        -- apply Z.leb_le. change (emax - prec) with 971. lia.
      * cbn [SF2Q].
        assert (1 * (inject_Z (Z.pos p) * pow2 e1)
                == inject_Z (Z.pos p) * pow2 e1)%Q as -> by ring.
        exact Herr.
Qed.

Lemma inject_Z_lt (a b : Z) : a < b → (inject_Z a < inject_Z b)%Q.
Proof. intros H. unfold Qlt. simpl. lia. Qed.

Lemma inject_Z_le (a b : Z) : a ≤ b → (inject_Z a <= inject_Z b)%Q.
Proof. intros H. unfold Qle. simpl. lia. Qed.

(** The definitions of [SpecFloat] use the operations of [IntDef]; this
    states them with those of [BinInt], which are the same. *)
Ltac with_BinInt :=
  change IntDef.Z.eqb with Z.eqb in *;
  change IntDef.Z.compare with Z.compare in *;
  change IntDef.Z.even with Z.even in *;
  change IntDef.Z.mul with Z.mul in *;
  change IntDef.Z.add with Z.add in *;
  change IntDef.Z.sub with Z.sub in *;
  change IntDef.Z.min with Z.min in *;
  change IntDef.Z.max with Z.max in *;
  change IntDef.Z.shiftl with Z.shiftl in *;
  change IntDef.Z.div_eucl with Z.div_eucl in *;
  change IntDef.Z.leb with Z.leb in *.

(** The position of a remainder [k] of a division by [nb]. *)
Lemma new_location_inb (nb k q : Z) :
  0 ≤ k < nb →
  inb (inject_Z q + inject_Z k / inject_Z nb) q (new_location nb k).
Proof.
  intros [Hk Hnb].
  assert (0 < inject_Z nb)%Q as Hnb' by (apply (inject_Z_lt 0); lia).
  set (x := (inject_Z k / inject_Z nb)%Q).
  assert (x * inject_Z nb == inject_Z k)%Q as Hx.
  { unfold x. field. lra. }
  clearbody x.
  assert (∀ a b : Z, a * k < b * nb → (inject_Z a * x < inject_Z b)%Q) as Hlt.
  { intros a b H. apply Qmult_lt_r with (inject_Z nb); [exact Hnb'|].
    rewrite <- Qmult_assoc, Hx, <- !inject_Z_mult. by apply inject_Z_lt. }
  assert (∀ a b : Z, b * nb < a * k → (inject_Z b < inject_Z a * x)%Q) as Hgt.
  { intros a b H. apply Qmult_lt_r with (inject_Z nb); [exact Hnb'|].
    rewrite <- Qmult_assoc, Hx, <- !inject_Z_mult. by apply inject_Z_lt. }
  assert (∀ a b : Z, a * k = b * nb → (inject_Z a * x == inject_Z b)%Q) as Heq.
  { intros a b H. apply Qmult_inj_r with (inject_Z nb); [lra|].
    rewrite <- Qmult_assoc, Hx, <- !inject_Z_mult. by rewrite H. }
  pose proof (Hlt 1 1 ltac:(lia)) as Hx1.
  change (inject_Z 1) with 1%Q in Hx1.
  assert (k = 0 → (x == 0)%Q) as Hzero.
  { intros ->. pose proof (Heq 1 0 ltac:(lia)) as E.
    change (inject_Z 1) with 1%Q in E. change (inject_Z 0) with 0%Q in E.
    lra. }
  assert (k ≠ 0 → (0 < x)%Q) as Hpos.
  { intros Hk0. pose proof (Hgt 1 0 ltac:(lia)) as Hx0.
    change (inject_Z 1) with 1%Q in Hx0. change (inject_Z 0) with 0%Q in Hx0.
    lra. }
  assert (2 * k < nb → (x < 1 # 2)%Q) as Hlow.
  { intros H. pose proof (Hlt 2 1 ltac:(lia)) as E'.
    change (inject_Z 2) with 2%Q in E'. change (inject_Z 1) with 1%Q in E'.
    lra. }
  assert (nb < 2 * k → (1 # 2 < x)%Q) as Hhigh.
  { intros H. pose proof (Hgt 2 1 ltac:(lia)) as E'.
    change (inject_Z 2) with 2%Q in E'. change (inject_Z 1) with 1%Q in E'.
    lra. }
  assert (2 * k = nb → (x == 1 # 2)%Q) as Hhalf.
  { intros H. pose proof (Heq 2 1 ltac:(lia)) as E'.
    change (inject_Z 2) with 2%Q in E'. change (inject_Z 1) with 1%Q in E'.
    lra. }
  clear Hlt Hgt Heq Hx.
  unfold new_location. with_BinInt.
  destruct (Z.even nb) eqn:Hev;
    unfold new_location_even, new_location_odd; with_BinInt;
    (destruct (Z.eqb_spec k 0) as [Hk0|Hk0];
     [specialize (Hzero Hk0); unfold inb; lra|specialize (Hpos Hk0)]).
  - destruct (Z.compare_spec (2 * k) nb) as [E|L|G]; unfold inb.
    + specialize (Hhalf E). lra.
    + specialize (Hlow L). lra.
    + specialize (Hhigh G). lra.
  - assert (2 * k ≠ nb) as Hodd.
    { intros E. rewrite <- E, Z.even_mul in Hev. discriminate. }
    destruct (Z.compare_spec (2 * k + 1) nb) as [E|L|G]; unfold inb.
    + specialize (Hlow ltac:(lia)). lra.
    + specialize (Hlow ltac:(lia)). lra.
    + specialize (Hhigh ltac:(lia)). lra.
Qed.

Lemma fexp_mono (a b : Z) : a ≤ b → fexp prec emax a ≤ fexp prec emax b.
Proof. intros H. rewrite !fexp_eq. lia. Qed.

(** The quotient that [SFdiv] rounds: its mantissa has digits enough,
    and brackets the exact quotient. *)
Lemma div_core_spec (m1 m2 : positive) (e1 e2 : Z) :
  ∃ q e' l v,
    SFdiv_core_binary prec emax (Zpos m1) e1 (Zpos m2) e2 = (q, e', l)
    ∧ 0 ≤ q ∧ e' ≤ fexp prec emax (Zdigits2 q + e')
    ∧ inb v q l
    ∧ (v * pow2 e'
       == inject_Z (Zpos m1) * pow2 e1 / (inject_Z (Zpos m2) * pow2 e2))%Q.
Proof.
  unfold SFdiv_core_binary. with_BinInt.
  set (d1 := Zdigits2 (Zpos m1)). set (d2 := Zdigits2 (Zpos m2)).
  set (X := d1 + e1 - (d2 + e2)).
  set (e' := Z.min (fexp prec emax X) (e1 - e2)).
  set (s := e1 - e2 - e').
  assert (0 ≤ s) as Hs by (subst s e'; lia).
  set (m' := match s with
             | 0 => Zpos m1
             | Zpos _ => Z.shiftl (Zpos m1) s
             | Zneg _ => 0
             end).
  assert (m' = Zpos m1 * 2 ^ s) as Hm'.
  { subst m'. destruct s as [|p|p]; [lia| |lia].
    by rewrite Z.shiftl_mul_pow2. }
  pose proof (Z_div_mod m' (Zpos m2) ltac:(lia)) as Hdm.
  destruct (Z.div_eucl m' (Zpos m2)) as [q r]. destruct Hdm as [Hdm Hr].
  assert (0 < 2 ^ s) as Hps by (apply Z.pow_pos_nonneg; lia).
  assert (0 ≤ q) as Hq by nia.
  exists q, e', (new_location (Zpos m2) r),
    (inject_Z q + inject_Z r / inject_Z (Zpos m2))%Q.
  split; [reflexivity|]. split; [exact Hq|]. split; [|split].
  - (* digits enough *)
    apply Z.le_trans with (fexp prec emax X); [subst e'; lia|].
    apply fexp_mono.
    destruct (Zdigits2_spec (Zpos m1) ltac:(lia)) as (Hd1 & Hle1 & _).
    destruct (Zdigits2_spec (Zpos m2) ltac:(lia)) as (Hd2 & _ & Hlt2).
    fold d1 in Hd1, Hle1. fold d2 in Hd2, Hlt2.
    pose proof (Zdigits2_nonneg q) as Hdq.
    destruct (Z_le_gt_dec (d1 + s - d2) 0) as [Hsmall|Hbig];
      [subst X s; lia|].
    assert (d1 + s - d2 ≤ Zdigits2 q); [|subst X s; lia].
    assert (2 ^ (d1 + s - d2 - 1) * 2 ^ d2 = 2 ^ (d1 - 1) * 2 ^ s) as Hpow.
    { rewrite <- !Z.pow_add_r by lia. f_equal. lia. }
    assert (0 < 2 ^ (d1 + s - d2 - 1)) as Hpt
        by (apply Z.pow_pos_nonneg; lia).
    assert (2 ^ (d1 + s - d2 - 1) ≤ q) as Hqge by nia.
    apply Zdigits2_ge; [lia|exact Hqge].
  - apply new_location_inb. lia.
  - assert (0 < inject_Z (Zpos m2))%Q as Hm2 by (apply (inject_Z_lt 0); lia).
    pose proof (pow2_pos e2) as Hp2. pose proof (pow2_pos e') as Hpe.
    assert (inject_Z q + inject_Z r / inject_Z (Zpos m2)
            == inject_Z (Zpos m1) * pow2 s / inject_Z (Zpos m2))%Q as ->.
    { rewrite (pow2_Z s Hs), <- inject_Z_mult, <- Hm', Hdm.
      rewrite inject_Z_plus, inject_Z_mult. field. lra. }
    assert (pow2 e1 == pow2 s * pow2 e' * pow2 e2)%Q as ->.
    { rewrite <- !pow2_add. by replace (s + e' + e2) with e1 by (subst s; lia). }
    field. lra.
Qed.

Lemma SF2Q_nonneg (x : spec_float) : plus_finite x → (0 <= SF2Q x)%Q.
Proof.
  destruct x as [[|]|[|]| |[|] m e]; cbn; try tauto; try lra.
  intros _. pose proof (pow2_pos e).
  assert (0 < inject_Z (Z.pos m))%Q by (apply (inject_Z_lt 0); lia). nra.
Qed.

Lemma SF2Q_finite (m : positive) (e : Z) :
  (SF2Q (S754_finite false m e) == inject_Z (Zpos m) * pow2 e)%Q.
Proof. cbn. ring. Qed.

Lemma SF2Q_finite_pos (m : positive) (e : Z) :
  (0 < SF2Q (S754_finite false m e))%Q.
Proof.
  rewrite SF2Q_finite. pose proof (pow2_pos e).
  assert (0 < inject_Z (Z.pos m))%Q by (apply (inject_Z_lt 0); lia). nra.
Qed.

(** The quotient of a non-negative binary64 by a positive one. *)
Lemma SFdiv_close (x : spec_float) (m2 : positive) (e2 K : Z) :
  plus_finite x →
  (SF2Q x / SF2Q (S754_finite false m2 e2) <= pow2 K)%Q →
  -1022 ≤ K ≤ 1022 →
  let F := SFdiv prec emax x (S754_finite false m2 e2) in
  valid_binary F = true ∧ plus_finite F
  ∧ (Qabs (SF2Q F - SF2Q x / SF2Q (S754_finite false m2 e2))
     <= pow2 (K - 53))%Q.
Proof.
  intros Hx HK HKr F. subst F.
  pose proof (SF2Q_finite_pos m2 e2) as Hy.
  destruct x as [[|]|[|]| |[|] m1 e1]; cbn in Hx; try tauto.
  - cbn [SFdiv xorb]. split; [reflexivity|]. split; [exact I|].
    cbn [SF2Q]. pose proof (pow2_pos (K - 53)).
    assert (0 - 0 / SF2Q (S754_finite false m2 e2) == 0)%Q as ->
        by (field; lra).
    change (Qabs 0) with 0%Q. lra.
  - cbn [SFdiv xorb].
    destruct (div_core_spec m1 m2 e1 e2)
      as (q & e' & l & v & -> & Hq & Hex & Hin & Hv).
    assert (v * pow2 e'
            == SF2Q (S754_finite false m1 e1) / SF2Q (S754_finite false m2 e2))%Q
      as Hv'.
    { rewrite Hv, !SF2Q_finite. reflexivity. }
    rewrite <- Hv' in HK |- *.
    exact (round_aux_spec q e' l v K Hq Hin Hex HK HKr).
Qed.

(** The product of a non-negative binary64 by a positive normal one. *)
Lemma SFmul_close (x : spec_float) (m2 : positive) (e2 K : Z) :
  plus_finite x → Zpos (digits2_pos m2) = 53 →
  (SF2Q x * SF2Q (S754_finite false m2 e2) <= pow2 K)%Q →
  -1022 ≤ K ≤ 1022 →
  let F := SFmul prec emax x (S754_finite false m2 e2) in
  valid_binary F = true ∧ plus_finite F
  ∧ (Qabs (SF2Q F - SF2Q x * SF2Q (S754_finite false m2 e2))
     <= pow2 (K - 53))%Q.
Proof.
  intros Hx Hd HK HKr F. subst F.
  destruct x as [[|]|[|]| |[|] m1 e1]; cbn in Hx; try tauto.
  - cbn [SFmul xorb]. split; [reflexivity|]. split; [exact I|].
    cbn [SF2Q]. pose proof (pow2_pos (K - 53)).
    assert (0 - 0 * (1 * (inject_Z (Z.pos m2) * pow2 e2)) == 0)%Q as ->
        by ring.
    change (Qabs 0) with 0%Q. lra.
  - cbn [SFmul xorb]. with_BinInt.
    assert (inject_Z (Z.pos (m1 * m2)) * pow2 (e1 + e2)
            == SF2Q (S754_finite false m1 e1) * SF2Q (S754_finite false m2 e2))%Q
      as Hv.
    { rewrite !SF2Q_finite, pow2_add, Pos2Z.inj_mul, inject_Z_mult. ring. }
    rewrite <- Hv in HK |- *.
    apply round_aux_spec; [lia|reflexivity| |exact HK|exact HKr].
    rewrite fexp_eq.
    assert (53 ≤ Zdigits2 (Z.pos (m1 * m2))); [|lia].
    apply Zdigits2_ge; [lia|].
    pose proof (digits2_spec m2) as [Hle _]. rewrite Hd in Hle.
    change (53 - 1) with 52 in *. nia.
Qed.

Lemma mul_close (x c : float) (mc : positive) (ec K : Z) :
  is_plus_finite x → Prim2SF c = S754_finite false mc ec →
  Zpos (digits2_pos mc) = 53 →
  (float_value x * float_value c <= pow2 K)%Q → -1022 ≤ K ≤ 1022 →
  is_plus_finite (x * c)
  ∧ (Qabs (float_value (x * c) - float_value x * float_value c)
     <= pow2 (K - 53))%Q.
Proof.
  unfold is_plus_finite, float_value. intros Hx Hc Hd HK HKr.
  rewrite mul_spec, Hc in *.
  destruct (SFmul_close (Prim2SF x) mc ec K Hx Hd HK HKr) as (_ & H1 & H2).
  split; assumption.
Qed.

Lemma div_close (x c : float) (mc : positive) (ec K : Z) :
  is_plus_finite x → Prim2SF c = S754_finite false mc ec →
  (float_value x / float_value c <= pow2 K)%Q → -1022 ≤ K ≤ 1022 →
  is_plus_finite (x / c)
  ∧ (Qabs (float_value (x / c) - float_value x / float_value c)
     <= pow2 (K - 53))%Q.
Proof.
  unfold is_plus_finite, float_value. intros Hx Hc HK HKr.
  rewrite div_spec, Hc in *.
  destruct (SFdiv_close (Prim2SF x) mc ec K Hx HK HKr) as (_ & H1 & H2).
  split; assumption.
Qed.

Lemma Z2SF_value (a : Z) :
  0 ≤ a → plus_finite (Z2SF a) ∧ (SF2Q (Z2SF a) == inject_Z a)%Q.
Proof.
  destruct a as [|p|p]; [| |lia]; intros _; (split; [exact I|]).
  - reflexivity.
  - cbn [Z2SF]. rewrite SF2Q_finite. change (pow2 0) with 1%Q. ring.
Qed.

Lemma share_le_1 (a b : Z) :
  0 ≤ a ≤ b → 0 < b → (0 <= inject_Z a / inject_Z b <= 1)%Q.
Proof.
  intros Hab Hb.
  assert (0 < inject_Z b)%Q as Hb' by (apply (inject_Z_lt 0); lia).
  assert (0 <= inject_Z a)%Q as Ha by (apply (inject_Z_le 0); lia).
  assert (inject_Z a <= inject_Z b)%Q as Hle by (apply inject_Z_le; lia).
  split.
  - apply Qle_shift_div_l; [exact Hb'|]. lra.
  - apply Qle_shift_div_r; [exact Hb'|]. lra.
Qed.

(** [int / int] on a share: within 2^-53 of the exact quotient. *)
Lemma int_quotient_close (a b : Z) :
  0 ≤ a ≤ b → 0 < b →
  is_plus_finite (int_quotient a b)
  ∧ (Qabs (float_value (int_quotient a b) - inject_Z a / inject_Z b)
     <= pow2 (-53))%Q.
Proof.
  intros Hab Hb. destruct (Z2SF_value a ltac:(lia)) as [Hpa Hva].
  destruct b as [|pb|pb]; try lia.
  assert (SF2Q (Z2SF (Zpos pb)) == inject_Z (Zpos pb))%Q as Hvb
      by (apply Z2SF_value; lia).
  cbn [Z2SF] in Hvb.
  destruct (SFdiv_close (Z2SF a) pb 0 0 Hpa) as (Hvalid & Hplus & Herr).
  { rewrite Hva, Hvb. change (pow2 0) with 1%Q.
    apply (share_le_1 a (Zpos pb)); lia. }
  { lia. }
  unfold is_plus_finite, float_value, int_quotient. cbn [Z2SF].
  rewrite (Prim2SF_SF2Prim _ Hvalid). split; [exact Hplus|].
  rewrite Hva, Hvb in Herr. exact Herr.
Qed.

Lemma hundred_SF :
  Prim2SF (float_of_small 100) = S754_finite false 7036874417766400 (-46).
Proof. vm_compute. reflexivity. Qed.

Lemma hundred_value : (float_value (float_of_small 100) == 100)%Q.
Proof. unfold float_value. rewrite hundred_SF. vm_compute. reflexivity. Qed.

Lemma bar_SF :
  Prim2SF (float_of_small 260) = S754_finite false 4573968371548160 (-44).
Proof. vm_compute. reflexivity. Qed.

Lemma bar_value : (float_value (float_of_small 260) == 260)%Q.
Proof. unfold float_value. rewrite bar_SF. vm_compute. reflexivity. Qed.

Lemma pow2_m53 : (pow2 (-53) == 1 # 9007199254740992)%Q.
Proof. vm_compute. reflexivity. Qed.
Lemma pow2_m52 : (pow2 (-52) == 1 # 4503599627370496)%Q.
Proof. vm_compute. reflexivity. Qed.
Lemma pow2_m45 : (pow2 (-45) == 1 # 35184372088832)%Q.
Proof. vm_compute. reflexivity. Qed.
Lemma pow2_m44 : (pow2 (-44) == 1 # 17592186044416)%Q.
Proof. vm_compute. reflexivity. Qed.
Lemma pow2_m41 : (pow2 (-41) == 1 # 2199023255552)%Q.
Proof. vm_compute. reflexivity. Qed.
Lemma pow2_1 : (pow2 1 == 2)%Q.
Proof. vm_compute. reflexivity. Qed.
Lemma pow2_8 : (pow2 8 == 256)%Q.
Proof. vm_compute. reflexivity. Qed.
Lemma pow2_9 : (pow2 9 == 512)%Q.
Proof. vm_compute. reflexivity. Qed.

Lemma Qabs_bound (x y e : Q) :
  (Qabs (x - y) <= e)%Q ↔ (y - e <= x ∧ x <= y + e)%Q.
Proof.
  split.
  - intros H. apply Qabs_Qle_condition in H. lra.
  - intros H. apply Qabs_Qle_condition. lra.
Qed.

(** The percentage of a share: a finite binary64 within 2^-44 of the
    exact percentage. *)
Lemma pct_close (c T : Z) :
  0 ≤ c ≤ T → 0 < T →
  is_plus_finite (LangCard.pct_of c T)
  ∧ (Qabs (float_value (LangCard.pct_of c T) - LangCard.exact_pct c T) <= pow2 (-44))%Q.
Proof.
  intros Hc HT. destruct (int_quotient_close c T Hc HT) as [Hq Hqe].
  pose proof (share_le_1 c T Hc HT) as Hshare.
  apply Qabs_bound in Hqe. rewrite pow2_m53 in Hqe.
  destruct (mul_close (int_quotient c T) (float_of_small 100) _ _ 8 Hq
              hundred_SF eq_refl) as [Hp Hpe].
  { rewrite hundred_value, pow2_8. lra. }
  { lia. }
  split; [exact Hp|]. unfold LangCard.pct_of, LangCard.exact_pct.
  rewrite hundred_value in Hpe. change (8 - 53) with (-45) in Hpe.
  apply Qabs_bound in Hpe. rewrite pow2_m45 in Hpe.
  apply Qabs_bound. rewrite pow2_m44. lra.
Qed.

(** The filled width of a share of a bar 260 wide: a finite binary64
    within 2^-41 of the exact width. *)
Lemma fill_close (c T : Z) :
  0 ≤ c ≤ T → 0 < T →
  is_plus_finite (LangCard.fill_width_of (LangCard.pct_of c T) 260)
  ∧ (Qabs (float_value (LangCard.fill_width_of (LangCard.pct_of c T) 260)
           - inject_Z c / inject_Z T * 260) <= pow2 (-41))%Q.
Proof.
  intros Hc HT. destruct (pct_close c T Hc HT) as [Hp Hpe].
  pose proof (share_le_1 c T Hc HT) as Hshare.
  unfold LangCard.exact_pct in Hpe. apply Qabs_bound in Hpe. rewrite pow2_m44 in Hpe.
  destruct (div_close (LangCard.pct_of c T) (float_of_small 100) _ _ 1 Hp hundred_SF)
    as [Hr Hre].
  { rewrite hundred_value, pow2_1. apply Qle_shift_div_r; lra. }
  { lia. }
  rewrite hundred_value in Hre. change (1 - 53) with (-52) in Hre.
  apply Qabs_bound in Hre. rewrite pow2_m52 in Hre.
  assert (float_value (LangCard.pct_of c T) / 100
          == float_value (LangCard.pct_of c T) * (1 # 100))%Q as E by (field; lra).
  rewrite E in Hre. clear E.
  destruct (mul_close (LangCard.pct_of c T / float_of_small 100) (float_of_small 260)
              _ _ 9 Hr bar_SF eq_refl) as [Hw Hwe].
  { rewrite bar_value, pow2_9. lra. }
  { lia. }
  split; [exact Hw|]. unfold LangCard.fill_width_of.
  rewrite bar_value in Hwe. change (9 - 53) with (-44) in Hwe.
  apply Qabs_bound in Hwe. rewrite pow2_m44 in Hwe.
  apply Qabs_bound. rewrite pow2_m41. lra.
Qed.

(** ** Case-insensitive exclusion *)

Lemma str_in_lower (n : string) (es : list string) :
  str_in (lower n) (map lower es) = existsb (LangCard.matches_ci n) es.
Proof.
  unfold str_in. induction es as [|e es IH]; simpl; [reflexivity|].
  rewrite IH. reflexivity.
Qed.

Lemma unpack2_pair (p : string * Z) :
  unpack2 (LangCard.pair_val p) = Ok (VStr p.1, VInt p.2).
Proof. reflexivity. Qed.

Lemma filter_langs_pairs (ex : list string) (l : list (string * Z)) :
  LangCard.filter_langs ex (map LangCard.pair_val l)
  = Ok (map LangCard.pair_val
          (List.filter (fun p => negb (str_in (lower p.1) ex)) l)).
Proof.
  induction l as [|p l IH]; [reflexivity|].
  cbn [map LangCard.filter_langs List.filter].
  rewrite unpack2_pair, ret_bind. cbn [LangCard.str_lower].
  rewrite ret_bind, IH, ret_bind.
  destruct (str_in (lower p.1) ex); reflexivity.
Qed.

Lemma sum_counts_pairs (acc : Z) (l : list (string * Z)) :
  LangCard.sum_counts (VInt acc) (map LangCard.pair_val l)
  = Ok (VInt (acc + LangCard.total l)).
Proof.
  revert acc. induction l as [|p l IH]; intros acc.
  - simpl. f_equal. f_equal. lia.
  - cbn [map LangCard.sum_counts].
    rewrite unpack2_pair, ret_bind. cbn [Py.add].
    rewrite ret_bind, IH. f_equal. f_equal.
    unfold LangCard.total. cbn [foldr]. lia.
Qed.

(** ** Themes *)

Lemma theme_item_style (theme : gmap string PyVal) (k : string) :
  LangCard.has_styles theme → In k LangCard.style_keys →
  LangCard.theme_item theme k = Ok (LangCard.style theme k).
Proof.
  intros Hs Hk. unfold LangCard.has_styles in Hs.
  rewrite Forall_forall in Hs.
  destruct (Hs k) as [v Hv]; [by apply list_elem_of_In|].
  unfold LangCard.theme_item, LangCard.style. rewrite Hv. reflexivity.
Qed.

Lemma has_styles_union (c theme : gmap string PyVal) :
  LangCard.has_styles theme → LangCard.has_styles (c ∪ theme).
Proof.
  unfold LangCard.has_styles. intros Hs.
  eapply Forall_impl; [exact Hs|].
  intros k Hk. apply lookup_union_is_Some. by right.
Qed.

Lemma accepted_union (check : LangCard.Check) (c theme : gmap string PyVal) :
  LangCard.accepted check c → LangCard.accepted check theme →
  LangCard.accepted check (c ∪ theme).
Proof.
  unfold LangCard.accepted. rewrite !Forall_forall. intros Hc Ht u Hu v Hv.
  apply lookup_union_Some_raw in Hv as [Hv|[_ Hv]]; eauto.
Qed.

Lemma accepted_use (check : LangCard.Check) (theme : gmap string PyVal)
    (elementname attribute k : string) :
  LangCard.usable check theme →
  In (elementname, attribute, k) LangCard.style_uses →
  check elementname attribute (LangCard.style theme k) = Ok tt.
Proof.
  intros [Hs Ha] Hin.
  assert (In k LangCard.style_keys) as Hk.
  { simpl in Hin. simpl.
    repeat (destruct Hin as [Hin|Hin]; [inversion Hin; tauto|]). done. }
  unfold LangCard.accepted in Ha. rewrite Forall_forall in Ha.
  apply list_elem_of_In in Hin. specialize (Ha _ Hin). cbn [fst snd] in Ha.
  unfold LangCard.has_styles in Hs. rewrite Forall_forall in Hs.
  destruct (Hs k) as [v Hv]; [by apply list_elem_of_In|].
  unfold LangCard.style. rewrite Hv. by apply Ha.
Qed.

Lemma resolve_theme_ok (check : LangCard.Check)
    (THEMES : gmap string (gmap string PyVal))
    (theme_name : string) (custom_colors : option (gmap string PyVal)) :
  LangCard.themes_ok check THEMES → LangCard.colors_ok check custom_colors →
  ∃ theme, LangCard.resolve_theme THEMES theme_name custom_colors = Ok theme
           ∧ LangCard.usable check theme.
Proof.
  intros [[d Hd] Hall] Hc.
  unfold LangCard.resolve_theme, LangCard.theme_item.
  rewrite Hd, ret_bind.
  assert (LangCard.usable check (default d (THEMES !! theme_name))) as Hbase.
  { destruct (THEMES !! theme_name) as [t|] eqn:Ht; simpl; eauto. }
  destruct custom_colors as [c|]; [|eauto].
  destruct (Nat.eqb (base.size c) 0); [eauto|].
  eexists. split; [reflexivity|]. destruct Hbase as [Hs Ha].
  split; [by apply has_styles_union|by apply accepted_union].
Qed.

(** ** The elements *)

Lemma check_attrs_ok (check : LangCard.Check) (elementname : string)
    (kw : list (string * LangCard.Attr)) :
  Forall (fun ka => match ka.2 with
                    | LangCard.AVal v =>
                        check elementname (LangCard.attribute_name ka.1) v
                        = Ok tt
                    | _ => True
                    end) kw →
  LangCard.check_attrs check elementname kw = Ok tt.
Proof.
  induction 1 as [|[k a] kw Hka _ IH]; [reflexivity|].
  cbn [LangCard.check_attrs]. cbn [fst snd] in Hka.
  destruct a; try exact IH. by rewrite Hka, ret_bind.
Qed.

Lemma text_inv (check : LangCard.Check) (t : PyVal)
    (kw : list (string * LangCard.Attr)) (e : LangCard.Element) :
  LangCard.text check t kw = Ok e → e = LangCard.Text t kw.
Proof.
  unfold LangCard.text.
  destruct (LangCard.check_attrs check "text" kw); [|discriminate].
  by inversion 1.
Qed.

Lemma rect_inv (check : LangCard.Check)
    (kw : list (string * LangCard.Attr)) (e : LangCard.Element) :
  LangCard.rect check kw = Ok e → e = LangCard.Rect kw.
Proof.
  unfold LangCard.rect.
  destruct (LangCard.check_attrs check "rect" kw); [|discriminate].
  by inversion 1.
Qed.

(** The check of an element whose styles come from a usable theme. *)
Ltac styles_accepted Hu :=
  apply check_attrs_ok;
  repeat (apply Forall_cons_2;
          [cbn [fst snd LangCard.attribute_name Ascii.eqb Bool.eqb];
           first [exact I | apply (accepted_use _ _ _ _ _ Hu); simpl; tauto]
          |]);
  apply Forall_nil_2.

(** ** The loop over the rows *)

Lemma extend_add (dwg : LangCard.Drawing) (es : list LangCard.Element)
    (e : LangCard.Element) :
  LangCard.add (LangCard.extend dwg es) e
  = LangCard.extend dwg (es ++ [e])%list.
Proof. unfold LangCard.add, LangCard.extend. simpl. by rewrite app_assoc. Qed.

Lemma extend_nil (dwg : LangCard.Drawing) : LangCard.extend dwg [] = dwg.
Proof. destruct dwg. unfold LangCard.extend. simpl. by rewrite app_nil_r. Qed.

Lemma extend_extend (dwg : LangCard.Drawing) (es fs : list LangCard.Element) :
  LangCard.extend (LangCard.extend dwg es) fs
  = LangCard.extend dwg (es ++ fs)%list.
Proof. unfold LangCard.extend. simpl. by rewrite app_assoc. Qed.

(** The four elements of a row and the two before the rows are built
    when the theme is usable. *)
Lemma row_built (check : LangCard.Check) (theme : gmap string PyVal)
    (lang pct_text : PyVal) (y : Z) (w : float) :
  LangCard.usable check theme →
  LangCard.text check lang
    [("insert", LangCard.APair (LangCard.AInt 20) (LangCard.AInt y));
     ("fill", LangCard.AVal (LangCard.style theme "text_color"));
     ("font_size", LangCard.AVal (LangCard.style theme "text_font_size"));
     ("font_family", LangCard.AVal (LangCard.style theme "font_family"))]
  = Ok (LangCard.Text lang
          [("insert", LangCard.APair (LangCard.AInt 20) (LangCard.AInt y));
           ("fill", LangCard.AVal (LangCard.style theme "text_color"));
           ("font_size",
            LangCard.AVal (LangCard.style theme "text_font_size"));
           ("font_family",
            LangCard.AVal (LangCard.style theme "font_family"))])
  ∧ LangCard.text check pct_text
      [("insert", LangCard.APair (LangCard.AInt (300 - 20)) (LangCard.AInt y));
       ("fill", LangCard.AVal (LangCard.style theme "text_color"));
       ("font_size", LangCard.AVal (LangCard.style theme "text_font_size"));
       ("font_family", LangCard.AVal (LangCard.style theme "font_family"));
       ("text_anchor", LangCard.AStr "end")]
    = Ok (LangCard.Text pct_text
            [("insert",
              LangCard.APair (LangCard.AInt (300 - 20)) (LangCard.AInt y));
             ("fill", LangCard.AVal (LangCard.style theme "text_color"));
             ("font_size",
              LangCard.AVal (LangCard.style theme "text_font_size"));
             ("font_family",
              LangCard.AVal (LangCard.style theme "font_family"));
             ("text_anchor", LangCard.AStr "end")])
  ∧ LangCard.rect check
      [("insert", LangCard.APair (LangCard.AInt 20) (LangCard.AInt (y + 5)));
       ("size", LangCard.APair (LangCard.AInt (300 - 40)) (LangCard.AInt 6));
       ("rx", LangCard.AInt 3); ("ry", LangCard.AInt 3);
       ("fill", LangCard.AVal (LangCard.style theme "border_color"));
       ("opacity", LangCard.AFloat LangCard.opacity_03)]
    = Ok (LangCard.Rect
            [("insert",
              LangCard.APair (LangCard.AInt 20) (LangCard.AInt (y + 5)));
             ("size",
              LangCard.APair (LangCard.AInt (300 - 40)) (LangCard.AInt 6));
             ("rx", LangCard.AInt 3); ("ry", LangCard.AInt 3);
             ("fill", LangCard.AVal (LangCard.style theme "border_color"));
             ("opacity", LangCard.AFloat LangCard.opacity_03)])
  ∧ LangCard.rect check
      [("insert", LangCard.APair (LangCard.AInt 20) (LangCard.AInt (y + 5)));
       ("size", LangCard.APair (LangCard.AFloat w) (LangCard.AInt 6));
       ("rx", LangCard.AInt 3); ("ry", LangCard.AInt 3);
       ("fill", LangCard.AVal (LangCard.style theme "title_color"))]
    = Ok (LangCard.Rect
            [("insert",
              LangCard.APair (LangCard.AInt 20) (LangCard.AInt (y + 5)));
             ("size", LangCard.APair (LangCard.AFloat w) (LangCard.AInt 6));
             ("rx", LangCard.AInt 3); ("ry", LangCard.AInt 3);
             ("fill", LangCard.AVal (LangCard.style theme "title_color"))]).
Proof.
  intros Hu. unfold LangCard.text, LangCard.rect.
  repeat apply conj;
    (match goal with
     | |- (?m ≫= _) = _ => replace m with (Ok (A := unit) tt); [reflexivity|]
     end; symmetry; styles_accepted Hu).
Qed.

Lemma frame_built (check : LangCard.Check) (theme : gmap string PyVal) :
  LangCard.usable check theme →
  LangCard.rect check
    [("insert", LangCard.APair (LangCard.AInt 0) (LangCard.AInt 0));
     ("size", LangCard.APair (LangCard.AStr "100%") (LangCard.AStr "100%"));
     ("rx", LangCard.AInt 10); ("ry", LangCard.AInt 10);
     ("fill", LangCard.AVal (LangCard.style theme "bg_color"));
     ("stroke", LangCard.AVal (LangCard.style theme "border_color"));
     ("stroke_width", LangCard.AInt 2)]
  = Ok (LangCard.background theme)
  ∧ LangCard.text check (VStr "Top Languages")
      [("insert", LangCard.APair (LangCard.AInt 20) (LangCard.AInt 30));
       ("fill", LangCard.AVal (LangCard.style theme "title_color"));
       ("font_size", LangCard.AVal (LangCard.style theme "title_font_size"));
       ("font_family", LangCard.AVal (LangCard.style theme "font_family"));
       ("font_weight", LangCard.AStr "bold")]
    = Ok (LangCard.title theme).
Proof.
  intros Hu. unfold LangCard.text, LangCard.rect.
  repeat apply conj;
    (match goal with
     | |- (?m ≫= _) = _ => replace m with (Ok (A := unit) tt); [reflexivity|]
     end; symmetry; styles_accepted Hu).
Qed.

Lemma draw_rows_pairs (check : LangCard.Check) (theme : gmap string PyVal)
    (T : Z) (l : list (string * Z)) :
  LangCard.usable check theme → 0 < T → Forall (LangCard.share_of T) l →
  ∀ i dwg,
    LangCard.draw_rows check theme 300 35 60 (VInt T) i
      (map LangCard.pair_val l) dwg
    = Ok (LangCard.extend dwg (LangCard.rows_elements theme T i l)).
Proof.
  intros Hu HT Hl. pose proof (proj1 Hu) as Hs.
  induction Hl as [|p l Hp Hl IH]; intros i dwg.
  - simpl. by rewrite extend_nil.
  - cbn [map LangCard.draw_rows LangCard.rows_elements].
    rewrite unpack2_pair, ret_bind.
    rewrite (percentage_share _ _ Hp HT), ret_bind.
    rewrite !(theme_item_style theme _ Hs) by (simpl; tauto).
    rewrite !ret_bind.
    destruct (row_built check theme (VStr p.1)
                (VStr (format_1f (LangCard.pct_of p.2 T) ++ "%"))
                (60 + i * 35)
                (LangCard.fill_width_of (LangCard.pct_of p.2 T) (300 - 40)) Hu)
      as (Hlabel & Hpercent & Htrack & Hbar).
    rewrite ?ret_bind, Hlabel, ?ret_bind, Hpercent, ?ret_bind, Htrack,
      ?ret_bind, Hbar, ?ret_bind. rewrite IH.
    rewrite <- (extend_nil dwg) at 1. rewrite !extend_add, extend_extend.
    reflexivity.
Qed.

(** ** From the record to the rows *)

Lemma kept_no_exclusion (l : list (string * Z)) :
  LangCard.kept None l = l ∧ LangCard.kept (Some []) l = l.
Proof.
  unfold LangCard.kept, LangCard.excluded. simpl.
  induction l as [|p l [IH1 IH2]]; simpl; [done|].
  by rewrite IH1.
Qed.

(** The exclusion step of lines 23-30 on a list of pairs. *)
Lemma filter_stage (ex : option (list string)) (l : list (string * Z)) :
  match ex with
  | Some (e :: es) =>
      if truthy (VList (map LangCard.pair_val l)) then
        iterate (VList (map LangCard.pair_val l)) ≫= λ items,
        LangCard.filter_langs (map lower (e :: es)) items ≫= λ kept,
        Ok (VList kept)
      else Ok (VList (map LangCard.pair_val l))
  | _ => Ok (VList (map LangCard.pair_val l))
  end = Ok (VList (map LangCard.pair_val (LangCard.kept ex l))).
Proof.
  destruct ex as [[|e es]|].
  - by rewrite (proj2 (kept_no_exclusion l)).
  - destruct l as [|p l]; [reflexivity|].
    cbn [truthy map length Nat.eqb negb iterate].
    rewrite ret_bind. change (LangCard.pair_val p :: map LangCard.pair_val l)
      with (map LangCard.pair_val (p :: l)).
    rewrite filter_langs_pairs, ret_bind. do 3 f_equal.
    unfold LangCard.kept. apply List.filter_ext. intros q.
    unfold LangCard.excluded. cbn [default].
    rewrite <- str_in_lower. reflexivity.
  - by rewrite (proj1 (kept_no_exclusion l)).
Qed.

(** The placeholder step of lines 33-34. *)
Lemma placeholder_stage (ex : option (list string)) (l : list (string * Z)) :
  (if negb (truthy (VList (map LangCard.pair_val (LangCard.kept ex l))))
   then VList [VTuple [VStr "No Data"; VInt 0]]
   else VList (map LangCard.pair_val (LangCard.kept ex l)))
  = VList (map LangCard.pair_val (LangCard.post_filter ex l)).
Proof.
  unfold LangCard.post_filter.
  destruct (LangCard.kept ex l) as [|p k]; reflexivity.
Qed.

Lemma nonneg_kept (ex : option (list string)) (l : list (string * Z)) :
  LangCard.nonneg l → LangCard.nonneg (LangCard.kept ex l).
Proof.
  unfold LangCard.nonneg, LangCard.kept. rewrite !Forall_forall.
  intros H p Hp. apply H. apply list_elem_of_In.
  apply list_elem_of_In in Hp. apply filter_In in Hp. tauto.
Qed.

Lemma nonneg_post_filter (ex : option (list string)) (l : list (string * Z)) :
  LangCard.nonneg l → LangCard.nonneg (LangCard.post_filter ex l).
Proof.
  intros H. apply (nonneg_kept ex) in H. unfold LangCard.post_filter.
  destruct (LangCard.kept ex l); [|exact H].
  repeat constructor. simpl. lia.
Qed.

Lemma total_nonneg (l : list (string * Z)) :
  LangCard.nonneg l → 0 ≤ LangCard.total l.
Proof.
  induction 1 as [|p l Hp _ IH]; unfold LangCard.total in *; simpl; lia.
Qed.

Lemma nonneg_le_total (l : list (string * Z)) :
  LangCard.nonneg l → Forall (LangCard.share_of (LangCard.total l)) l.
Proof.
  induction 1 as [|p l Hp Hl IH]; [constructor|].
  pose proof (total_nonneg l Hl) as Ht.
  unfold LangCard.total in *. cbn [foldr]. constructor.
  - unfold LangCard.share_of. lia.
  - eapply Forall_impl; [exact IH|]. unfold LangCard.share_of. intros q. lia.
Qed.

Lemma divisor_pos (l : list (string * Z)) :
  LangCard.nonneg l → 0 < LangCard.divisor l.
Proof.
  intros H. pose proof (total_nonneg l H). unfold LangCard.divisor.
  destruct (Z.eqb_spec (LangCard.total l) 0); lia.
Qed.

Lemma nonneg_le_divisor (l : list (string * Z)) :
  LangCard.nonneg l → Forall (LangCard.share_of (LangCard.divisor l)) l.
Proof.
  intros H. pose proof (nonneg_le_total l H) as Hle.
  eapply Forall_impl; [exact Hle|].
  unfold LangCard.share_of, LangCard.divisor. intros p.
  destruct (Z.eqb_spec (LangCard.total l) 0); lia.
Qed.

(** On a record whose languages are pairs with no negative count, the
    renderer returns the card of the rows that exclusion leaves. *)
Lemma draw_pairs (check : LangCard.Check)
    (THEMES : gmap string (gmap string PyVal)) (data : PyVal)
    (l : list (string * Z)) (theme_name : string)
    (custom_colors : option (gmap string PyVal))
    (ex : option (list string)) :
  LangCard.themes_ok check THEMES → LangCard.colors_ok check custom_colors →
  LangCard.has_languages data l → LangCard.nonneg l →
  ∃ theme,
    LangCard.resolve_theme THEMES theme_name custom_colors = Ok theme
    ∧ LangCard.draw_lang_card check THEMES data theme_name custom_colors ex
      = Ok (LangCard.card theme (LangCard.post_filter ex l)).
Proof.
  intros Hth Hcol Hdata Hl.
  destruct (resolve_theme_ok check THEMES theme_name custom_colors Hth Hcol)
    as (theme & Hres & Hu).
  pose proof (proj1 Hu) as Hs.
  exists theme. split; [exact Hres|].
  unfold LangCard.draw_lang_card. rewrite Hres, ret_bind.
  red in Hdata. rewrite Hdata, ret_bind.
  rewrite (filter_stage ex l), ret_bind, placeholder_stage.
  set (rs := LangCard.post_filter ex l).
  assert (LangCard.nonneg rs) as Hrs by by apply nonneg_post_filter.
  cbn [len]. rewrite ret_bind.
  rewrite !(theme_item_style theme _ Hs) by (simpl; tauto).
  destruct (frame_built check theme Hu) as [Hbg Htitle].
  rewrite ?ret_bind, Hbg, ?ret_bind, Htitle, ?ret_bind.
  cbn [iterate]. rewrite ?ret_bind.
  rewrite sum_counts_pairs, ret_bind.
  replace (if LangCard.is_zero (VInt (0 + LangCard.total rs))
           then VInt 1 else VInt (0 + LangCard.total rs))
    with (VInt (LangCard.divisor rs)).
  2:{ unfold LangCard.is_zero, LangCard.divisor. rewrite Z.add_0_l.
      by destruct (LangCard.total rs =? 0). }
  rewrite draw_rows_pairs
    by eauto using divisor_pos, nonneg_le_divisor.
  f_equal. unfold LangCard.card, LangCard.extend, LangCard.add. cbn [LangCard.size LangCard.viewBox LangCard.elements app].
  f_equal. rewrite length_map.
  replace (40 + Z.of_nat (length rs) * 35 + 10)
    with (50 + 35 * Z.of_nat (length rs)) by lia.
  reflexivity.
Qed.

Lemma rows_of_rows_elements (theme : gmap string PyVal) (T : Z)
    (l : list (string * Z)) (i : Z) :
  LangCard.rows_of (LangCard.rows_elements theme T i l)
  = map (LangCard.row_for T) l.
Proof.
  revert i. induction l as [|p l IH]; intros i; [reflexivity|].
  cbn [LangCard.rows_elements LangCard.row_elements app LangCard.rows_of map].
  rewrite IH. reflexivity.
Qed.

Lemma rows_card (theme : gmap string PyVal) (rs : list (string * Z)) :
  LangCard.rows (LangCard.card theme rs)
  = map (LangCard.row_for (LangCard.divisor rs)) rs.
Proof. unfold LangCard.rows, LangCard.card. simpl. apply rows_of_rows_elements. Qed.

Lemma theme_item_inv (theme : gmap string PyVal) (k : string) (v : PyVal) :
  LangCard.theme_item theme k = Ok v → v = LangCard.style theme k.
Proof.
  unfold LangCard.theme_item, LangCard.style.
  destruct (theme !! k); [|discriminate]. by inversion 1.
Qed.

Lemma percentage_inv (c T : Z) (q : float) :
  LangCard.percentage (VInt c) (VInt T) = Ok q → q = LangCard.pct_of c T.
Proof.
  unfold LangCard.percentage, truediv, int_truediv, LangCard.pct_of.
  destruct (T =? 0); [discriminate|].
  destruct (overflow_threshold * Z.abs T <=? Z.abs c); [discriminate|].
  rewrite ret_bind. by inversion 1.
Qed.

(** What a step that succeeded has given. *)
Ltac built :=
  match goal with
  | Hs : LangCard.theme_item _ _ = Ok _ |- _ =>
      apply theme_item_inv in Hs; subst
  | Hs : LangCard.text _ _ _ = Ok _ |- _ => apply text_inv in Hs; subst
  | Hs : LangCard.rect _ _ = Ok _ |- _ => apply rect_inv in Hs; subst
  end.

(** Whatever the counts, a loop that ends has added the four elements of
    each row. *)
Lemma draw_rows_inv (check : LangCard.Check) (theme : gmap string PyVal)
    (T : Z) (l : list (string * Z)) :
  ∀ i dwg d,
    LangCard.draw_rows check theme 300 35 60 (VInt T) i
      (map LangCard.pair_val l) dwg = Ok d →
    d = LangCard.extend dwg (LangCard.rows_elements theme T i l).
Proof.
  induction l as [|p l IH]; intros i dwg d H.
  - simpl in H. inversion H. by rewrite extend_nil.
  - cbn [map LangCard.draw_rows] in H.
    rewrite unpack2_pair, ret_bind in H.
    inv_bind H. apply percentage_inv in Hstep. subst a.
    repeat (inv_bind H; built).
    apply IH in H. subst d.
    rewrite <- (extend_nil dwg) at 1. rewrite !extend_add, extend_extend.
    reflexivity.
Qed.

(** Whatever the counts, a document that is returned is the card of the
    rows that exclusion leaves. *)
Lemma draw_inv (check : LangCard.Check)
    (THEMES : gmap string (gmap string PyVal)) (data : PyVal)
    (l : list (string * Z)) (theme_name : string)
    (custom_colors : option (gmap string PyVal))
    (ex : option (list string)) (doc : LangCard.Drawing) :
  LangCard.has_languages data l →
  LangCard.draw_lang_card check THEMES data theme_name custom_colors ex = Ok doc →
  ∃ theme,
    LangCard.resolve_theme THEMES theme_name custom_colors = Ok theme
    ∧ doc = LangCard.card theme (LangCard.post_filter ex l).
Proof.
  intros Hdata H. unfold LangCard.draw_lang_card in H.
  inv_bind H. rename a into theme. exists theme. split; [exact Hstep|].
  red in Hdata. rewrite Hdata, ret_bind in H.
  rewrite (filter_stage ex l), ret_bind, placeholder_stage in H.
  set (rs := LangCard.post_filter ex l) in *.
  cbn [len] in H. rewrite ret_bind in H.
  do 7 (inv_bind H; built).
  cbn [iterate] in H. rewrite ret_bind, sum_counts_pairs, ret_bind in H.
  replace (if LangCard.is_zero (VInt (0 + LangCard.total rs))
           then VInt 1 else VInt (0 + LangCard.total rs))
    with (VInt (LangCard.divisor rs)) in H.
  2:{ unfold LangCard.is_zero, LangCard.divisor. rewrite Z.add_0_l.
      by destruct (LangCard.total rs =? 0). }
  apply draw_rows_inv in H. subst doc.
  unfold LangCard.card, LangCard.extend, LangCard.add.
  cbn [LangCard.size LangCard.viewBox LangCard.elements app].
  f_equal. rewrite length_map.
  replace (40 + Z.of_nat (length rs) * 35 + 10)
    with (50 + 35 * Z.of_nat (length rs)) by lia.
  reflexivity.
Qed.

Lemma sample_preset_usable :
  LangCard.usable LangCard.sample_check LangCard.sample_preset.
Proof.
  split; [repeat constructor; by eexists|].
  repeat constructor; cbn [fst snd]; intros v Hv; vm_compute in Hv;
    by inversion Hv.
Qed.

Lemma sample_THEMES_ok :
  LangCard.themes_ok LangCard.sample_check LangCard.sample_THEMES.
Proof.
  split; [by eexists|].
  intros n theme H. unfold LangCard.sample_THEMES in H.
  apply lookup_singleton_Some in H as [_ <-].
  exact sample_preset_usable.
Qed.

Lemma row_for_zero (n : string) :
  LangCard.row_for 1 (n, 0)
  = (Some (VStr n), Some (VStr "0.0%"),
     Some (LangCard.APair (LangCard.AFloat 0%float) (LangCard.AInt 6))).
Proof. vm_compute. reflexivity. Qed.

Lemma kept_spec (ex : option (list string)) (l : list (string * Z))
    (p : string * Z) :
  In p (LangCard.kept ex l)
  ↔ In p l ∧ ∀ e, In e (default [] ex) → lower p.1 ≠ lower e.
Proof.
  unfold LangCard.kept. rewrite filter_In, negb_true_iff.
  apply and_iff_compat_l. unfold LangCard.excluded. split.
  - intros Hnone e He Heq.
    assert (existsb (LangCard.matches_ci p.1) (default [] ex) = true) as Hex.
    { apply existsb_exists. exists e. split; [exact He|].
      unfold LangCard.matches_ci. by apply String.eqb_eq. }
    congruence.
  - intros Hall.
    destruct (existsb (LangCard.matches_ci p.1) (default [] ex)) eqn:Hex;
      [|reflexivity].
    apply existsb_exists in Hex as (e & He & Hm).
    unfold LangCard.matches_ci in Hm. apply String.eqb_eq in Hm.
    by destruct (Hall e He).
Qed.

(** ** The card: height, exclusion, placeholder *)

(** C5. The [viewBox] that [draw_lang_card] emits is 300 wide and
    [50 + 35 * rowCount] high, where [rowCount] is the number of rows left
    by exclusion and placeholder substitution, and the card has that many
    rows: whenever a document is returned, for any integer counts; and
    one is returned when the presets are usable, the custom colours are
    values that svgwrite accepts and no count is negative. The names and
    the excluded entries are ASCII text. *)
Theorem card_height (check : LangCard.Check)
    (THEMES : gmap string (gmap string PyVal))
    (data : PyVal) (l : list (string * Z)) (theme_name : string)
    (custom_colors : option (gmap string PyVal))
    (ex : option (list string)) :
  LangCard.has_languages data l → LangCard.ascii_text l ex →
  let rowCount := Z.of_nat (length (LangCard.post_filter ex l)) in
  (∀ doc,
     LangCard.draw_lang_card check THEMES data theme_name custom_colors ex
     = Ok doc →
     LangCard.viewBox doc = "0 0 300 " ++ str_of_Z (50 + 35 * rowCount)
     ∧ Z.of_nat (length (LangCard.rows doc)) = rowCount)
  ∧ (LangCard.themes_ok check THEMES →
     LangCard.colors_ok check custom_colors → LangCard.nonneg l →
     succeeds
       (LangCard.draw_lang_card check THEMES data theme_name custom_colors
          ex)).
Proof.
  intros Hdata _ rowCount. split.
  - intros doc Hdoc.
    destruct (draw_inv _ _ _ _ _ _ _ _ Hdata Hdoc) as (theme & _ & ->).
    split; [reflexivity|]. by rewrite rows_card, length_map.
  - intros Hth Hcol Hl.
    destruct (draw_pairs check THEMES data l theme_name custom_colors ex
                Hth Hcol Hdata Hl) as (theme & _ & Hdoc).
    eexists. exact Hdoc.
Qed.

Lemma card_height_witness :
  ∃ doc,
    LangCard.draw_lang_card LangCard.sample_check LangCard.sample_THEMES
      (LangCard.lang_data [("Go", 2); ("python", 1)])
      "Default" (Some {[ "bg_color" := VStr "#ffffff" ]}) (Some ["Python"])
    = Ok doc
    ∧ LangCard.viewBox doc = "0 0 300 85".
Proof.
  destruct (card_height LangCard.sample_check LangCard.sample_THEMES
              (LangCard.lang_data [("Go", 2); ("python", 1)])
              [("Go", 2); ("python", 1)] "Default"
              (Some {[ "bg_color" := VStr "#ffffff" ]}) (Some ["Python"])
              eq_refl) as [Hheight Hok].
  { split; repeat constructor. }
  destruct (Hok sample_THEMES_ok) as (doc & Hdoc).
  { repeat constructor; cbn [fst snd]; intros v Hv; vm_compute in Hv;
      by inversion Hv. }
  { repeat constructor; simpl; lia. }
  exists doc. split; [exact Hdoc|].
  rewrite (proj1 (Hheight doc Hdoc)). reflexivity.
Defined.

(** C6. Exclusion removes exactly the pairs whose name equals an excluded
    entry up to case, keeping the others in order: a card that is
    returned has the single row "No Data" at 0.0% when nothing is left,
    and otherwise one row per pair that is left; and a card is returned
    when the presets are usable, the custom colours are values that
    svgwrite accepts and no count is negative. The names and the excluded
    entries are ASCII text. *)
Theorem exclusion_case_insensitive (check : LangCard.Check)
    (THEMES : gmap string (gmap string PyVal))
    (data : PyVal) (l : list (string * Z)) (theme_name : string)
    (custom_colors : option (gmap string PyVal))
    (ex : option (list string)) :
  LangCard.has_languages data l → LangCard.ascii_text l ex →
  (∀ p, In p (LangCard.kept ex l)
        ↔ In p l ∧ ∀ e, In e (default [] ex) → lower p.1 ≠ lower e)
  ∧ (∀ doc,
       LangCard.draw_lang_card check THEMES data theme_name custom_colors ex
       = Ok doc →
       match LangCard.kept ex l with
       | [] => LangCard.rows doc = [LangCard.no_data_row]
       | k => LangCard.rows doc
              = map (LangCard.row_for (LangCard.divisor k)) k
       end)
  ∧ (LangCard.themes_ok check THEMES →
     LangCard.colors_ok check custom_colors → LangCard.nonneg l →
     succeeds
       (LangCard.draw_lang_card check THEMES data theme_name custom_colors
          ex)).
Proof.
  intros Hdata _. split; [apply kept_spec|]. split.
  - intros doc Hdoc.
    destruct (draw_inv _ _ _ _ _ _ _ _ Hdata Hdoc) as (theme & _ & ->).
    rewrite rows_card. unfold LangCard.post_filter.
    destruct (LangCard.kept ex l) as [|p k]; [|reflexivity].
    vm_compute. reflexivity.
  - intros Hth Hcol Hl.
    destruct (draw_pairs check THEMES data l theme_name custom_colors ex
                Hth Hcol Hdata Hl) as (theme & _ & Hdoc).
    eexists. exact Hdoc.
Qed.

Lemma exclusion_case_insensitive_witness :
  LangCard.kept (Some ["Python"]) [("python", 3); ("Go", 1)] = [("Go", 1)]
  ∧ ∃ doc,
      LangCard.draw_lang_card LangCard.sample_check LangCard.sample_THEMES
        (LangCard.lang_data [("python", 3)]) "Default" None (Some ["Python"])
      = Ok doc
      ∧ LangCard.rows doc = [LangCard.no_data_row].
Proof.
  split; [reflexivity|].
  destruct (exclusion_case_insensitive LangCard.sample_check
              LangCard.sample_THEMES
              (LangCard.lang_data [("python", 3)]) [("python", 3)]
              "Default" None (Some ["Python"]) eq_refl)
    as (_ & Hrows & Hok).
  { split; repeat constructor. }
  destruct (Hok sample_THEMES_ok I) as (doc & Hdoc).
  { repeat constructor; simpl; lia. }
  exists doc. split; [exact Hdoc|]. exact (Hrows doc Hdoc).
Defined.

(** C10. An empty language list, with or without an exclusion list, is
    rendered as the single row "No Data" at 0.0%, in a card 85 high, when
    the presets are usable and the custom colours are values that
    svgwrite accepts. *)
Theorem empty_list_placeholder (check : LangCard.Check)
    (THEMES : gmap string (gmap string PyVal))
    (data : PyVal) (theme_name : string)
    (custom_colors : option (gmap string PyVal))
    (ex : option (list string)) :
  LangCard.themes_ok check THEMES → LangCard.colors_ok check custom_colors →
  LangCard.has_languages data [] →
  ∃ doc,
    LangCard.draw_lang_card check THEMES data theme_name custom_colors ex
    = Ok doc
    ∧ LangCard.rows doc = [LangCard.no_data_row]
    ∧ LangCard.viewBox doc = "0 0 300 85".
Proof.
  intros Hth Hcol Hdata.
  destruct (draw_pairs check THEMES data [] theme_name custom_colors ex
              Hth Hcol Hdata) as (theme & _ & Hdoc); [constructor|].
  eexists. split; [exact Hdoc|]. split.
  - rewrite rows_card. vm_compute. reflexivity.
  - reflexivity.
Qed.

Lemma empty_list_placeholder_witness :
  ∃ doc,
    LangCard.draw_lang_card LangCard.sample_check LangCard.sample_THEMES
      (VDict []) "Default" None None = Ok doc
    ∧ LangCard.rows doc = [LangCard.no_data_row]
    ∧ LangCard.viewBox doc = "0 0 300 85".
Proof.
  exact (empty_list_placeholder LangCard.sample_check LangCard.sample_THEMES
           (VDict []) "Default" None None sample_THEMES_ok I eq_refl).
Defined.

(** ** Percentages *)

Lemma Qsum_exact_pct (T : Z) (rs : list (string * Z)) :
  T ≠ 0 →
  (LangCard.Qsum (map (fun p => LangCard.exact_pct p.2 T) rs)
   == inject_Z (LangCard.total rs) / inject_Z T * 100)%Q.
Proof.
  intros HT.
  assert (~ (inject_Z T == 0)%Q) as HT'.
  { unfold Qeq. simpl. lia. }
  induction rs as [|p rs IH].
  - unfold LangCard.total. simpl. field. exact HT'.
  - cbn [map LangCard.Qsum foldr].
    change (foldr Qplus 0%Q (map (λ p0, LangCard.exact_pct p0.2 T) rs))
      with (LangCard.Qsum (map (λ p0, LangCard.exact_pct p0.2 T) rs)).
    rewrite IH. unfold LangCard.total. cbn [foldr].
    rewrite inject_Z_plus. unfold LangCard.exact_pct. field. exact HT'.
Qed.

Lemma exact_percentages_sum (rs : list (string * Z)) :
  0 < LangCard.total rs →
  (LangCard.Qsum (map (fun p => LangCard.exact_pct p.2 (LangCard.total rs)) rs)
   == 100)%Q.
Proof.
  intros Hpos. rewrite Qsum_exact_pct by lia.
  field. unfold Qeq. simpl. lia.
Qed.

Lemma zero_total_rows (rs : list (string * Z)) :
  LangCard.nonneg rs → LangCard.total rs = 0 →
  Forall LangCard.at_zero (map (LangCard.row_for 1) rs).
Proof.
  intros Hnn Hz. pose proof (nonneg_le_total rs Hnn) as Hle.
  rewrite Hz in Hle. apply Forall_map.
  eapply Forall_impl; [exact Hle|].
  intros [n c] Hc. unfold LangCard.share_of in Hc. simpl in Hc.
  assert (c = 0) as -> by lia.
  rewrite row_for_zero. split; reflexivity.
Qed.

(** C7, as stated, fails: with three languages of one repository each,
    every row is rendered as 33.3%, and the three binary64 percentages add
    up to 99.99999999999999, not to 100. *)
Lemma percentages_not_exact :
  LangCard.nonneg LangCard.thirds
  ∧ 0 < LangCard.total LangCard.thirds
  ∧ (∃ doc,
       LangCard.draw_lang_card LangCard.sample_check LangCard.sample_THEMES
         (LangCard.lang_data LangCard.thirds) "Default" None None = Ok doc
       ∧ map (fun r => r.1.2) (LangCard.rows doc)
         = [Some (VStr "33.3%"); Some (VStr "33.3%"); Some (VStr "33.3%")])
  ∧ PrimFloat.eqb (LangCard.float_sum (LangCard.percentages LangCard.thirds))
                  (float_of_small 100) = false
  ∧ ¬ LangCard.sums_to_100 LangCard.thirds.
Proof.
  split; [repeat constructor; simpl; lia|].
  split; [reflexivity|].
  split.
  { eexists. split; [vm_compute; reflexivity|]. vm_compute. reflexivity. }
  assert (PrimFloat.eqb
            (LangCard.float_sum (LangCard.percentages LangCard.thirds))
            (float_of_small 100) = false) as Hneq
    by (vm_compute; reflexivity).
  split; [exact Hneq|].
  unfold LangCard.sums_to_100. intros Heq. rewrite Heq in Hneq.
  vm_compute in Hneq. discriminate.
Qed.

Lemma percentages_close (T : Z) (rs : list (string * Z)) :
  0 < T → Forall (LangCard.share_of T) rs →
  Forall (LangCard.close_pct T) rs.
Proof.
  intros HT Hrs. eapply Forall_impl; [exact Hrs|].
  intros p Hp. exact (pct_close p.2 T Hp HT).
Qed.

Lemma value_sum_close (T : Z) (rs : list (string * Z)) :
  Forall (LangCard.close_pct T) rs →
  (Qabs (LangCard.value_sum (map (fun p => LangCard.pct_of p.2 T) rs)
         - LangCard.Qsum (map (fun p => LangCard.exact_pct p.2 T) rs))
   <= inject_Z (Z.of_nat (length rs)) * pow2 (-44))%Q.
Proof.
  unfold LangCard.value_sum, LangCard.Qsum.
  induction 1 as [|p rs [_ Hp] _ IH]; cbn [map foldr length].
  - change (Qabs (0 - 0)) with 0%Q. change (inject_Z (Z.of_nat 0)) with 0%Q.
    lra.
  - rewrite Nat2Z.inj_succ. unfold Z.succ. rewrite inject_Z_plus.
    change (inject_Z 1) with 1%Q.
    apply Qabs_bound in Hp. apply Qabs_bound in IH. apply Qabs_bound. lra.
Qed.

(** C7, amended. With no negative count the card is drawn (no division
    fails), and each row shows the binary64 percentage
    [count / divisor * 100] to one decimal, where the divisor is the sum of
    the counts of the rows, or 1 when that sum is 0. Each of these
    percentages is a finite binary64 within 2^-44 of the exact share
    [count / divisor * 100]. When the sum is positive the exact shares add
    up to 100, and so the percentages, added up as the numbers they stand
    for, are within 2^-44 per row of 100; when it is 0, every row is at
    0.0%. The presets are usable, the custom colours are values that
    svgwrite accepts, and the names and the excluded entries are ASCII
    text. *)
Theorem percentages_of_rows (check : LangCard.Check)
    (THEMES : gmap string (gmap string PyVal))
    (data : PyVal) (l : list (string * Z)) (theme_name : string)
    (custom_colors : option (gmap string PyVal))
    (ex : option (list string)) :
  LangCard.themes_ok check THEMES → LangCard.colors_ok check custom_colors →
  LangCard.has_languages data l → LangCard.ascii_text l ex →
  LangCard.nonneg l →
  let rs := LangCard.post_filter ex l in
  ∃ doc,
    LangCard.draw_lang_card check THEMES data theme_name custom_colors ex
    = Ok doc
    ∧ LangCard.rows doc = map (LangCard.row_for (LangCard.divisor rs)) rs
    ∧ Forall (LangCard.close_pct (LangCard.divisor rs)) rs
    ∧ (0 < LangCard.total rs →
       LangCard.divisor rs = LangCard.total rs
       ∧ (LangCard.Qsum
            (map (fun p => LangCard.exact_pct p.2 (LangCard.total rs)) rs)
          == 100)%Q
       ∧ (Qabs (LangCard.value_sum (LangCard.percentages rs) - 100)
          <= inject_Z (Z.of_nat (length rs)) * pow2 (-44))%Q)
    ∧ (LangCard.total rs = 0 →
       LangCard.divisor rs = 1 ∧ Forall LangCard.at_zero (LangCard.rows doc)).
Proof.
  intros Hth Hcol Hdata _ Hl rs.
  destruct (draw_pairs check THEMES data l theme_name custom_colors ex
              Hth Hcol Hdata Hl) as (theme & _ & Hdoc).
  assert (LangCard.nonneg rs) as Hrs by by apply nonneg_post_filter.
  assert (Forall (LangCard.close_pct (LangCard.divisor rs)) rs) as Hclose.
  { apply percentages_close; [by apply divisor_pos|].
    by apply nonneg_le_divisor. }
  eexists. split; [exact Hdoc|]. fold rs. rewrite rows_card.
  split; [reflexivity|]. split; [exact Hclose|]. split.
  - intros Hpos.
    assert (LangCard.divisor rs = LangCard.total rs) as Hd.
    { unfold LangCard.divisor.
      destruct (Z.eqb_spec (LangCard.total rs) 0); lia. }
    split; [exact Hd|].
    pose proof (exact_percentages_sum rs Hpos) as Hsum.
    split; [exact Hsum|].
    pose proof (value_sum_close _ _ Hclose) as Hv.
    unfold LangCard.percentages. rewrite Hd in Hv |- *.
    rewrite Hsum in Hv. exact Hv.
  - intros Hz.
    assert (LangCard.divisor rs = 1) as Hd.
    { unfold LangCard.divisor. by rewrite Hz. }
    split; [exact Hd|]. rewrite Hd.
    apply zero_total_rows; [exact Hrs|exact Hz].
Qed.

Lemma percentages_of_rows_witness :
  ∃ doc,
    LangCard.draw_lang_card LangCard.sample_check LangCard.sample_THEMES
      (LangCard.lang_data LangCard.thirds) "Default" None None = Ok doc
    ∧ LangCard.rows doc = map (LangCard.row_for 3) LangCard.thirds
    ∧ (Qabs (LangCard.value_sum (LangCard.percentages LangCard.thirds) - 100)
       <= 3 * pow2 (-44))%Q.
Proof.
  destruct (percentages_of_rows LangCard.sample_check LangCard.sample_THEMES
              (LangCard.lang_data LangCard.thirds) LangCard.thirds
              "Default" None None sample_THEMES_ok I eq_refl)
    as (doc & Hdoc & Hrows & _ & Hpos & _).
  { split; repeat constructor. }
  { repeat constructor; simpl; lia. }
  exists doc. split; [exact Hdoc|]. split; [exact Hrows|].
  apply Hpos. reflexivity.
Defined.

(** ** The counter and its most common entries *)

Lemma Forall_insert_desc (P : string * Z → Prop) (x : string * Z)
    (l : list (string * Z)) :
  Forall P (GithubUtils.insert_desc x l) ↔ P x ∧ Forall P l.
Proof.
  induction l as [|y l IH]; simpl.
  - rewrite !Forall_cons_iff. tauto.
  - destruct (x.2 <? y.2); rewrite !Forall_cons_iff; [rewrite IH|]; tauto.
Qed.

Lemma Forall_sort_desc (P : string * Z → Prop) (l : list (string * Z)) :
  Forall P l → Forall P (GithubUtils.sort_desc l).
Proof.
  induction 1 as [|x l Hx Hl IH]; simpl; [constructor|].
  apply Forall_insert_desc. tauto.
Qed.

Lemma insert_desc_sorted (x : string * Z) (l : list (string * Z)) :
  GithubUtils.non_increasing l →
  GithubUtils.non_increasing (GithubUtils.insert_desc x l).
Proof.
  unfold GithubUtils.non_increasing.
  induction 1 as [|y l Hl IH Hy]; simpl.
  - repeat constructor.
  - destruct (Z.ltb_spec x.2 y.2) as [Hlt|Hge].
    + constructor; [exact IH|]. apply Forall_insert_desc. split; [lia|exact Hy].
    + constructor; [by constructor|]. constructor; [exact Hge|].
      eapply Forall_impl; [exact Hy|]. intros z Hz. simpl in Hz. lia.
Qed.

Lemma sort_desc_sorted (l : list (string * Z)) :
  GithubUtils.non_increasing (GithubUtils.sort_desc l).
Proof.
  induction l as [|x l IH]; simpl; [constructor|].
  by apply insert_desc_sorted.
Qed.

Lemma insert_desc_perm (x : string * Z) (l : list (string * Z)) :
  GithubUtils.insert_desc x l ≡ₚ x :: l.
Proof.
  induction l as [|y l IH]; simpl; [done|].
  destruct (x.2 <? y.2); [|done].
  rewrite IH. apply Permutation_swap.
Qed.

(** Sorting keeps the entries: the most common ones are entries of the
    counter. *)
Lemma sort_desc_perm (l : list (string * Z)) : GithubUtils.sort_desc l ≡ₚ l.
Proof.
  induction l as [|x l IH]; simpl; [done|].
  by rewrite insert_desc_perm, IH.
Qed.

Lemma firstn_sorted (n : nat) (l : list (string * Z)) :
  GithubUtils.non_increasing l → GithubUtils.non_increasing (firstn n l).
Proof.
  unfold GithubUtils.non_increasing. intros H. revert n.
  induction H as [|y l Hl IH Hy]; intros [|n]; simpl; try constructor.
  - apply IH.
  - by apply Forall_take.
Qed.

Lemma most_common_spec (n : nat) (c : GithubUtils.Counter) :
  (length (GithubUtils.most_common n c) ≤ n)%nat
  ∧ GithubUtils.non_increasing (GithubUtils.most_common n c).
Proof.
  unfold GithubUtils.most_common. split.
  - rewrite length_firstn. lia.
  - apply firstn_sorted, sort_desc_sorted.
Qed.

Lemma incr_positive (k : string) (c : GithubUtils.Counter) :
  GithubUtils.positive_counts c →
  GithubUtils.positive_counts (GithubUtils.incr k c).
Proof.
  unfold GithubUtils.positive_counts.
  induction 1 as [|[k' n] c Hn Hc IH]; simpl.
  - by repeat constructor.
  - destruct (String.eqb k k'); constructor; simpl in *; try lia; assumption.
Qed.

Lemma most_common_positive (n : nat) (c : GithubUtils.Counter) :
  GithubUtils.positive_counts c →
  GithubUtils.positive_counts (GithubUtils.most_common n c).
Proof.
  unfold GithubUtils.positive_counts, GithubUtils.most_common. intros H.
  by apply Forall_take, Forall_sort_desc.
Qed.

(** ** The loop of the basic fetch *)

Lemma scan_repos_fold (repos : list GithubUtils.RepoJson)
    (c : GithubUtils.Counter) (e : Z) :
  (fold_left GithubUtils.scan_repo repos (c, e)).2
  = e + GithubUtils.size_tenths repos
  ∧ (GithubUtils.positive_counts c →
     GithubUtils.positive_counts
       (fold_left GithubUtils.scan_repo repos (c, e)).1).
Proof.
  revert c e. induction repos as [|repo repos IH]; intros c e.
  - unfold GithubUtils.size_tenths. simpl. split; [lia|tauto].
  - cbn [fold_left]. unfold GithubUtils.scan_repo at 2.
    destruct (IH (if truthy (GithubUtils.opt_str (GithubUtils.language repo))
                  then GithubUtils.incr
                         (default "" (GithubUtils.language repo)) c
                  else c)
                 (if negb (default false (GithubUtils.fork repo))
                  then e + default 0 (GithubUtils.size repo) / 10
                  else e)) as [IHe IHc].
    split.
    + rewrite IHe. unfold GithubUtils.size_tenths. cbn [List.filter].
      unfold GithubUtils.is_non_fork at 2.
      destruct (negb (default false (GithubUtils.fork repo)));
        cbn [map foldr]; lia.
    + intros Hc. apply IHc.
      destruct (truthy _); [by apply incr_positive|exact Hc].
Qed.

Lemma language_stats_spec (repos : list GithubUtils.RepoJson) :
  (GithubUtils.language_stats repos).2
  = GithubUtils.size_tenths (firstn 30 repos)
  ∧ GithubUtils.positive_counts (GithubUtils.language_stats repos).1.
Proof.
  unfold GithubUtils.language_stats.
  destruct (scan_repos_fold (firstn 30 repos) [] 0) as [He Hc].
  split.
  - etransitivity; [exact He|lia].
  - apply Hc. constructor.
Qed.

Lemma scan_nodes_positive (repos : list GithubUtils.GqlRepo)
    (c : GithubUtils.Counter) :
  GithubUtils.positive_counts c →
  GithubUtils.positive_counts (fold_left GithubUtils.scan_node repos c).
Proof.
  revert c. induction repos as [|repo repos IH]; intros c Hc; [exact Hc|].
  cbn [fold_left]. apply IH. unfold GithubUtils.scan_node.
  destruct (GithubUtils.primaryLanguage repo); [by apply incr_positive|exact Hc].
Qed.

(** ** What the fetchers return *)

Lemma fetch_github_stats_eq (gh : GithubUtils.GitHub) (username : string) :
  GithubUtils.fetch_github_stats gh username
  = match GithubUtils.profile_body (GithubUtils.get_user gh username),
          GithubUtils.listed_repos (GithubUtils.get_repos gh username) with
    | Some user_data, Some repos =>
        GithubUtils.profile_data user_data
          (GithubUtils.language_stats repos).1
          (GithubUtils.language_stats repos).2
    | _, _ => VNone
    end.
Proof.
  unfold GithubUtils.fetch_github_stats, GithubUtils.fetch_github_stats_try,
    GithubUtils.profile_body, GithubUtils.listed_repos.
  destruct (GithubUtils.get_user gh username) as [|s [user_data|e]];
    cbn [GithubUtils.request]; [reflexivity| |].
  - rewrite ret_bind. destruct (s =? 200); cbn [negb]; [|reflexivity].
    rewrite ret_bind.
    destruct (GithubUtils.get_repos gh username) as [|s' [repos|e]];
      cbn [GithubUtils.request]; [reflexivity| |].
    + rewrite ret_bind. destruct (s' =? 200); cbn [negb]; rewrite ret_bind;
        by destruct (GithubUtils.language_stats _).
    + rewrite ret_bind. destruct (s' =? 200); cbn [negb]; [reflexivity|].
      rewrite ret_bind. by destruct (GithubUtils.language_stats _).
  - rewrite ret_bind. by destruct (s =? 200).
Qed.

Lemma fetch_github_stats_cases (gh : GithubUtils.GitHub) (username : string) :
  GithubUtils.fetch_github_stats gh username = VNone
  ∨ ∃ user_data repos,
      GithubUtils.fetch_github_stats gh username
      = GithubUtils.profile_data user_data
          (GithubUtils.language_stats repos).1
          (GithubUtils.language_stats repos).2.
Proof.
  rewrite fetch_github_stats_eq.
  destruct (GithubUtils.profile_body _) as [user_data|]; [|by left].
  destruct (GithubUtils.listed_repos _) as [repos|]; [|by left].
  right. by exists user_data, repos.
Qed.

Lemma fetch_detailed_success (gh : GithubUtils.GitHub)
    (username token : string) (user : GithubUtils.GqlUser) :
  token ≠ "" →
  GithubUtils.post_graphql gh username token
  = GithubUtils.Response 200
      (Ok {| GithubUtils.has_errors := false;
             GithubUtils.data_user := Some user |}) →
  GithubUtils.fetch_github_stats_detailed gh username (Some token)
  = GithubUtils.detailed_data user.
Proof.
  intros Htok Hpost. unfold GithubUtils.fetch_github_stats_detailed.
  destruct token as [|c t]; [done|].
  unfold GithubUtils.fetch_github_stats_detailed_try. rewrite Hpost.
  reflexivity.
Qed.

Lemma fetch_detailed_cases (gh : GithubUtils.GitHub) (username : string)
    (github_token : option string) :
  GithubUtils.fetch_github_stats_detailed gh username github_token
  = GithubUtils.fetch_github_stats gh username
  ∨ ∃ user,
      GithubUtils.fetch_github_stats_detailed gh username github_token
      = GithubUtils.detailed_data user.
Proof.
  unfold GithubUtils.fetch_github_stats_detailed.
  destruct github_token as [[|c t]|]; [by left| |by left].
  unfold GithubUtils.fetch_github_stats_detailed_try.
  destruct (GithubUtils.post_graphql gh username (String c t))
    as [|s [data|e]]; cbn [GithubUtils.request]; [by left| |].
  - rewrite ret_bind. destruct (s =? 200); cbn [negb]; [|by left].
    rewrite ret_bind. destruct (GithubUtils.has_errors data); [by left|].
    destruct (GithubUtils.data_user data) as [user|]; [|by left].
    right. by exists user.
  - rewrite ret_bind. by destruct (s =? 200); left.
Qed.

(** ** The basic fetch: commit estimate, top languages, failures *)

(** C3. When the profile call and the repository listing give [user_data]
    and [repos], [total_commits] is the larger of the sum of [size // 10]
    over the non-fork repositories among the first 30 (a missing size
    counting as 0) and of [public_repos * 5]. *)
Theorem total_commits_estimate (gh : GithubUtils.GitHub) (username : string)
    (user_data : GithubUtils.UserJson) (repos : list GithubUtils.RepoJson) :
  GithubUtils.profile_body (GithubUtils.get_user gh username)
  = Some user_data →
  GithubUtils.listed_repos (GithubUtils.get_repos gh username) = Some repos →
  getitem (GithubUtils.fetch_github_stats gh username) "total_commits"
  = Ok (VInt (Z.max (GithubUtils.size_tenths (firstn 30 repos))
                    (default 0 (GithubUtils.public_repos user_data) * 5))).
Proof.
  intros Huser Hrepos. rewrite fetch_github_stats_eq, Huser, Hrepos.
  rewrite (proj1 (language_stats_spec repos)). reflexivity.
Qed.

(** The example of the specification: two Go repositories of sizes 100
    and 50, a forked Python one, [public_repos = 2]. *)
Lemma total_commits_estimate_witness :
  getitem (GithubUtils.fetch_github_stats GithubUtils.sample_gh "octocat")
          "total_commits" = Ok (VInt 15)
  ∧ getitem (GithubUtils.fetch_github_stats GithubUtils.sample_gh "octocat")
            "top_languages"
    = Ok (VList [GithubUtils.lang_entry ("Go", 2);
                 GithubUtils.lang_entry ("Python", 1)]).
Proof.
  split; [|reflexivity].
  exact (total_commits_estimate GithubUtils.sample_gh "octocat"
           GithubUtils.sample_user GithubUtils.sample_repos eq_refl eq_refl).
Defined.

(** C4. A record returned by the basic fetch or by the detailed fetch has
    at most 5 top languages, in non-increasing order of count. *)
Theorem top_languages_bounded_sorted (gh : GithubUtils.GitHub)
    (username : string) (github_token : option string) (r : PyVal) :
  r = GithubUtils.fetch_github_stats gh username
  ∨ r = GithubUtils.fetch_github_stats_detailed gh username github_token →
  r ≠ VNone →
  ∃ l, getitem r "top_languages" = Ok (VList (map GithubUtils.lang_entry l))
       ∧ (length l ≤ 5)%nat
       ∧ GithubUtils.non_increasing l.
Proof.
  intros Hr Hsome.
  assert (r = VNone
          ∨ (∃ user_data repos,
               r = GithubUtils.profile_data user_data
                     (GithubUtils.language_stats repos).1
                     (GithubUtils.language_stats repos).2)
          ∨ ∃ user, r = GithubUtils.detailed_data user) as Hshape.
  { destruct Hr as [->| ->].
    - destruct (fetch_github_stats_cases gh username) as [H|H]; tauto.
    - destruct (fetch_detailed_cases gh username github_token) as [->|H];
        [|tauto].
      destruct (fetch_github_stats_cases gh username) as [H|H]; tauto. }
  destruct Hshape as [H|[(user_data & repos & ->)|(user & ->)]]; [done| |].
  - eexists. split; [reflexivity|]. apply most_common_spec.
  - eexists. split; [reflexivity|]. apply most_common_spec.
Qed.

Lemma top_languages_bounded_sorted_witness :
  ∃ l, getitem (GithubUtils.fetch_github_stats_detailed GithubUtils.sample_gh
                  "octocat" (Some "token")) "top_languages"
       = Ok (VList (map GithubUtils.lang_entry l))
       ∧ (length l ≤ 5)%nat
       ∧ GithubUtils.non_increasing l.
Proof.
  apply (top_languages_bounded_sorted GithubUtils.sample_gh "octocat"
           (Some "token")).
  - right. reflexivity.
  - vm_compute. discriminate.
Defined.







(** ** The detailed fetch *)

(** C2, on the code. When the graph query succeeds, the record that
    [fetch_github_stats_detailed] returns has seven keys: [followers],
    [following] and [created_at] are not among them, so the fields of a
    Profile Record are not all there. *)
Theorem detailed_record_lacks_fields (gh : GithubUtils.GitHub)
    (username token : string) (user : GithubUtils.GqlUser) :
  token ≠ "" →
  GithubUtils.post_graphql gh username token
  = GithubUtils.Response 200
      (Ok {| GithubUtils.has_errors := false;
             GithubUtils.data_user := Some user |}) →
  let r := GithubUtils.fetch_github_stats_detailed gh username (Some token) in
  r = GithubUtils.detailed_data user
  ∧ getitem r "followers" = raise KeyError (repr_str "followers")
  ∧ getitem r "following" = raise KeyError (repr_str "following")
  ∧ getitem r "created_at" = raise KeyError (repr_str "created_at")
  ∧ ¬ Forall (GithubUtils.has_field r) GithubUtils.profile_fields.
Proof.
  intros Htok Hpost r. subst r.
  rewrite (fetch_detailed_success gh username token user Htok Hpost).
  repeat (split; [reflexivity|]).
  intros Hall. rewrite Forall_forall in Hall.
  destruct (Hall "followers") as [v Hv]; [|discriminate].
  unfold GithubUtils.profile_fields. set_solver.
Qed.

Lemma detailed_record_lacks_fields_witness :
  getitem (GithubUtils.fetch_github_stats_detailed GithubUtils.sample_gh
             "octocat" (Some "token")) "followers"
  = raise KeyError (repr_str "followers")
  ∧ getitem (GithubUtils.fetch_github_stats GithubUtils.sample_gh "octocat")
            "followers" = Ok (VInt 10).
Proof.
  split; [|reflexivity].
  apply (detailed_record_lacks_fields GithubUtils.sample_gh "octocat" "token"
           GithubUtils.sample_gql_user); [discriminate|reflexivity].
Defined.

(** ** The roast widget *)

(** Closes a case in which the session did not change. *)
Ltac same_session :=
  let H := fresh "Hne" in intros H; exfalso; apply H; reflexivity.

Lemma init_session_keeps (ui : RoastWidget.UI) (v : PyVal) :
  RoastWidget.session_state ui !! "roast_data" = Some v →
  RoastWidget.init_session ui = ui.
Proof. intros H. unfold RoastWidget.init_session. by rewrite H. Qed.

(** A run in which the button is not pressed only initialises the
    session. *)
Lemma render_generate_idle (fetch_github_stats : string → Result PyVal)
    (generate_profile_roast : PyVal → Result PyVal)
    (username : string) (ui : RoastWidget.UI) :
  RoastWidget.render_generate fetch_github_stats generate_profile_roast
    false username ui = RoastWidget.init_session ui.
Proof. reflexivity. Qed.

(** C9. In the generate action, when the fetch returns [None] (or any
    falsy value), when it raises, or when the roast generation raises, one
    error is shown and the session is left as it was; the session changes
    only when the fetch returned a record and the roast generation
    returned a result with a roast and a source, and then [roast_data] is
    the new record. *)
Theorem generate_failure_keeps_cache
    (fetch_github_stats : string → Result PyVal)
    (generate_profile_roast : PyVal → Result PyVal)
    (username : string) (ui : RoastWidget.UI) :
  let ui' := RoastWidget.generate_action fetch_github_stats
               generate_profile_roast username ui in
  (∀ p, fetch_github_stats username = Ok p → truthy p = false →
        RoastWidget.error_shown "Failed to fetch GitHub profile data" ui ui')
  ∧ (∀ e, fetch_github_stats username = Raise e →
          RoastWidget.error_shown ("Error generating roast: " ++ exc_msg e)
            ui ui')
  ∧ (∀ p e, fetch_github_stats username = Ok p → truthy p = true →
            generate_profile_roast p = Raise e →
            RoastWidget.error_shown ("Error generating roast: " ++ exc_msg e)
              ui ui')
  ∧ (RoastWidget.session_state ui' ≠ RoastWidget.session_state ui →
     ∃ p r roast source,
       fetch_github_stats username = Ok p ∧ truthy p = true
       ∧ generate_profile_roast p = Ok r
       ∧ getitem r "roast" = Ok roast ∧ getitem r "source" = Ok source
       ∧ RoastWidget.session_state ui'
         = <["roast_data" := VDict [("roast", roast); ("profile", p);
                                    ("source", source)]]>
             (RoastWidget.session_state ui)
       ∧ RoastWidget.shown_errors ui' = RoastWidget.shown_errors ui).
Proof.
  intros ui'. subst ui'.
  unfold RoastWidget.generate_action, RoastWidget.generate_try,
    RoastWidget.error_shown.
  split; [|split; [|split]].
  - intros p Hp Hfalsy. rewrite Hp, ret_bind, Hfalsy. done.
  - intros e He. rewrite He. done.
  - intros p e Hp Htruthy He. rewrite Hp, ret_bind, Htruthy, He. done.
  - destruct (fetch_github_stats username) as [p|e]; [|same_session].
    rewrite ret_bind. destruct (truthy p) eqn:Htruthy; [|same_session].
    destruct (generate_profile_roast p) as [r|e] eqn:Hgen; [|same_session].
    rewrite ret_bind.
    destruct (getitem r "roast") as [roast|e] eqn:Hroast; [|same_session].
    rewrite ret_bind.
    destruct (getitem r "source") as [source|e] eqn:Hsource; [|same_session].
    rewrite ret_bind.
    intros _. exists p, r, roast, source. repeat split; assumption.
Qed.

(** The account does not exist (404): the fetcher returns [None], the
    widget shows the error and keeps the roast it had. *)
Lemma generate_failure_keeps_cache_witness :
  RoastWidget.error_shown "Failed to fetch GitHub profile data"
    RoastWidget.cached_ui
    (RoastWidget.generate_with GithubUtils.not_found_gh
       RoastWidget.sample_roast "ghost" RoastWidget.cached_ui).
Proof.
  apply (proj1 (generate_failure_keeps_cache
                  (fun u => Ok (GithubUtils.fetch_github_stats
                                  GithubUtils.not_found_gh u))
                  RoastWidget.sample_roast "ghost" RoastWidget.cached_ui)
               VNone); reflexivity.
Defined.

(** ** From the fetcher to the card *)

(** The renderer on a record whose languages are name/count mappings:
    unpacking a mapping yields its two keys, and the sum of the "counts"
    stops at the first one, the string "count". *)
Lemma draw_mappings (check : LangCard.Check)
    (THEMES : gmap string (gmap string PyVal)) (data : PyVal)
    (l : list (string * Z)) (theme_name : string)
    (custom_colors : option (gmap string PyVal)) :
  LangCard.themes_ok check THEMES → LangCard.colors_ok check custom_colors →
  l ≠ [] →
  dict_get data "top_languages" (VList [])
  = Ok (VList (map GithubUtils.lang_entry l)) →
  LangCard.draw_lang_card check THEMES data theme_name custom_colors None
  = raise TypeError "unsupported operand type(s) for +".
Proof.
  intros Hth Hcol Hl Hdata.
  destruct (resolve_theme_ok check THEMES theme_name custom_colors Hth Hcol)
    as (theme & Hres & Hu).
  pose proof (proj1 Hu) as Hs.
  unfold LangCard.draw_lang_card. rewrite Hres, ret_bind, Hdata, !ret_bind.
  destruct l as [|p l]; [done|].
  cbn [map truthy length Nat.eqb negb len]. rewrite ret_bind.
  rewrite !(theme_item_style theme _ Hs) by (simpl; tauto).
  destruct (frame_built check theme Hu) as [Hbg Htitle].
  rewrite ?ret_bind, Hbg, ?ret_bind, Htitle, ?ret_bind. reflexivity.
Qed.

(** C1, as stated, fails: the record fetched for the account of the
    example has two top languages, and the renderer, with its default
    options, raises [TypeError] on it. *)
Lemma record_not_consumable :
  GithubUtils.fetch_github_stats GithubUtils.sample_gh "octocat" ≠ VNone
  ∧ LangCard.draw_lang_card LangCard.sample_check LangCard.sample_THEMES
      (GithubUtils.fetch_github_stats GithubUtils.sample_gh "octocat")
      "Default" None None
    = raise TypeError "unsupported operand type(s) for +"
  ∧ ¬ succeeds
        (LangCard.draw_lang_card LangCard.sample_check LangCard.sample_THEMES
           (GithubUtils.fetch_github_stats GithubUtils.sample_gh "octocat")
           "Default" None None).
Proof.
  assert (LangCard.draw_lang_card LangCard.sample_check LangCard.sample_THEMES
            (GithubUtils.fetch_github_stats GithubUtils.sample_gh "octocat")
            "Default" None None
          = raise TypeError "unsupported operand type(s) for +") as Hraise
    by (vm_compute; reflexivity).
  split; [vm_compute; discriminate|]. split; [exact Hraise|].
  intros [doc Hdoc]. rewrite Hraise in Hdoc. discriminate.
Qed.

(** C1, amended. A record returned by [fetch_github_stats] lists its top
    languages as name/count mappings [l], with positive counts. With the
    default options the renderer accepts the record as it is only when
    [l] is empty, and then draws the "No Data" row; when [l] is not empty
    it raises [TypeError]. Given the same languages as (name, count)
    pairs, it succeeds and draws one row per language. *)
Theorem record_needs_pairs (check : LangCard.Check)
    (THEMES : gmap string (gmap string PyVal))
    (gh : GithubUtils.GitHub) (username : string) (r : PyVal) :
  LangCard.themes_ok check THEMES →
  r = GithubUtils.fetch_github_stats gh username → r ≠ VNone →
  ∃ l,
    getitem r "top_languages" = Ok (VList (map GithubUtils.lang_entry l))
    ∧ GithubUtils.positive_counts l
    ∧ (l = [] →
       ∃ doc, LangCard.draw_lang_card check THEMES r "Default" None None = Ok doc
              ∧ LangCard.rows doc = [LangCard.no_data_row])
    ∧ (l ≠ [] →
       LangCard.draw_lang_card check THEMES r "Default" None None
       = raise TypeError "unsupported operand type(s) for +")
    ∧ ∃ doc,
        LangCard.draw_lang_card check THEMES (LangCard.lang_data l)
          "Default" None None = Ok doc
        ∧ (l ≠ [] →
           LangCard.rows doc = map (LangCard.row_for (LangCard.total l)) l).
Proof.
  intros Hth Hr Hsome.
  destruct (fetch_github_stats_cases gh username)
    as [H|(user_data & repos & H)]; [congruence|].
  rewrite H in Hr. clear H. subst r.
  set (c := (GithubUtils.language_stats repos).1).
  set (e := (GithubUtils.language_stats repos).2).
  exists (GithubUtils.most_common 5 c).
  assert (GithubUtils.positive_counts (GithubUtils.most_common 5 c)) as Hpos.
  { apply most_common_positive, language_stats_spec. }
  assert (LangCard.nonneg (GithubUtils.most_common 5 c)) as Hnn.
  { eapply Forall_impl; [exact Hpos|]. intros p Hp. simpl in Hp. lia. }
  split; [reflexivity|]. split; [exact Hpos|]. split; [|split].
  - intros Hnil.
    destruct (draw_pairs check THEMES
                (GithubUtils.profile_data user_data c e) []
                "Default" None None Hth I) as (theme & _ & Hdoc).
    { unfold LangCard.has_languages, GithubUtils.profile_data.
      rewrite Hnil. reflexivity. }
    { constructor. }
    eexists. split; [exact Hdoc|]. rewrite rows_card. vm_compute. reflexivity.
  - intros Hne.
    by apply (draw_mappings check THEMES _ (GithubUtils.most_common 5 c)).
  - destruct (draw_pairs check THEMES
                (LangCard.lang_data (GithubUtils.most_common 5 c))
                (GithubUtils.most_common 5 c) "Default" None None
                Hth I eq_refl Hnn)
      as (theme & _ & Hdoc).
    eexists. split; [exact Hdoc|]. intros Hne. rewrite rows_card.
    unfold LangCard.post_filter.
    rewrite (proj1 (kept_no_exclusion (GithubUtils.most_common 5 c))).
    destruct (GithubUtils.most_common 5 c) as [|p k] eqn:Hmc; [done|].
    unfold LangCard.divisor.
    assert (0 < LangCard.total (p :: k)) as Htot.
    { inversion Hpos as [|? ? Hp Hk]; subst.
      assert (LangCard.nonneg k) as Hk'.
      { eapply Forall_impl; [exact Hk|]. intros q Hq. simpl in Hq. lia. }
      pose proof (total_nonneg k Hk'). unfold LangCard.total in *.
      cbn [foldr]. lia. }
    destruct (Z.eqb_spec (LangCard.total (p :: k)) 0); [lia|reflexivity].
Qed.

Lemma record_needs_pairs_witness :
  ∃ l,
    getitem (GithubUtils.fetch_github_stats GithubUtils.sample_gh "octocat")
            "top_languages" = Ok (VList (map GithubUtils.lang_entry l))
    ∧ ∃ doc,
        LangCard.draw_lang_card LangCard.sample_check LangCard.sample_THEMES (LangCard.lang_data l)
          "Default" None None = Ok doc.
Proof.
  destruct (record_needs_pairs LangCard.sample_check LangCard.sample_THEMES
              GithubUtils.sample_gh "octocat" _ sample_THEMES_ok eq_refl)
    as (l & Hl & _ & _ & _ & doc & Hdoc & _).
  { vm_compute. discriminate. }
  exists l. split; [exact Hl|]. exists doc. exact Hdoc.
Defined.

(** * More of the card *)

(** [draw_lang_card] is its three steps in a row. *)
Lemma draw_steps (check : LangCard.Check)
    (THEMES : gmap string (gmap string PyVal)) (data : PyVal)
    (theme_name : string) (custom_colors : option (gmap string PyVal))
    (ex : option (list string)) :
  LangCard.draw_lang_card check THEMES data theme_name custom_colors ex
  = (LangCard.resolve_theme THEMES theme_name custom_colors ≫= λ theme,
     dict_get data "top_languages" (VList []) ≫= λ langs,
     LangCard.exclusion_step ex langs ≫= λ langs,
     LangCard.finish_card check theme langs).
Proof. reflexivity. Qed.

Lemma exclusion_step_pairs (ex : option (list string))
    (l : list (string * Z)) :
  LangCard.exclusion_step ex (VList (map LangCard.pair_val l))
  = Ok (VList (map LangCard.pair_val (LangCard.kept ex l))).
Proof. exact (filter_stage ex l). Qed.

(** The result depends on the record and on the exclusion list only
    through the pairs that are left. *)
Lemma draw_kept (check : LangCard.Check)
    (THEMES : gmap string (gmap string PyVal))
    (data data' : PyVal) (l l' : list (string * Z)) (theme_name : string)
    (custom_colors : option (gmap string PyVal))
    (ex ex' : option (list string)) :
  LangCard.has_languages data l → LangCard.has_languages data' l' →
  LangCard.kept ex l = LangCard.kept ex' l' →
  LangCard.draw_lang_card check THEMES data theme_name custom_colors ex
  = LangCard.draw_lang_card check THEMES data' theme_name custom_colors ex'.
Proof.
  intros Hd Hd' Hk. rewrite !draw_steps. red in Hd, Hd'.
  rewrite Hd, Hd'.
  destruct (LangCard.resolve_theme THEMES theme_name custom_colors)
    as [theme|e]; [|reflexivity].
  rewrite !ret_bind, !exclusion_step_pairs, Hk. reflexivity.
Qed.

(** X1. Excluding languages gives the same result, error or document, as
    a call with no exclusion list on a record from which the pairs with
    an excluded name were removed beforehand; the fields of the record
    other than [top_languages] play no part. The names and the excluded
    entries are ASCII text. *)
Theorem exclusion_is_removal (check : LangCard.Check)
    (THEMES : gmap string (gmap string PyVal))
    (data : PyVal) (l : list (string * Z)) (theme_name : string)
    (custom_colors : option (gmap string PyVal))
    (ex : option (list string)) :
  LangCard.has_languages data l → LangCard.ascii_text l ex →
  LangCard.draw_lang_card check THEMES data theme_name custom_colors ex
  = LangCard.draw_lang_card check THEMES
      (LangCard.lang_data (LangCard.kept ex l)) theme_name custom_colors None.
Proof.
  intros Hd _.
  apply (draw_kept check THEMES data _ l (LangCard.kept ex l));
    [exact Hd|reflexivity|].
  by rewrite (proj1 (kept_no_exclusion _)).
Qed.

Lemma exclusion_is_removal_witness :
  LangCard.draw_lang_card LangCard.sample_check LangCard.sample_THEMES
    (VDict [("username", VStr "octocat");
            ("top_languages",
             VList (map LangCard.pair_val [("Go", 2); ("PYTHON", 1)]))])
    "Default" None (Some ["python"])
  = LangCard.draw_lang_card LangCard.sample_check LangCard.sample_THEMES
      (LangCard.lang_data [("Go", 2)]) "Default" None None.
Proof.
  apply (exclusion_is_removal LangCard.sample_check LangCard.sample_THEMES
           (VDict [("username", VStr "octocat");
                   ("top_languages",
                    VList (map LangCard.pair_val [("Go", 2); ("PYTHON", 1)]))])
           [("Go", 2); ("PYTHON", 1)] "Default" None (Some ["python"])).
  - reflexivity.
  - split; repeat constructor.
Defined.

(** X2. Without a "Default" preset the renderer raises [KeyError], even
    for a theme name that is a preset; with one, a theme name that is not
    a preset gives what "Default" gives. *)
Theorem theme_fallback (check : LangCard.Check)
    (THEMES : gmap string (gmap string PyVal))
    (data : PyVal) (theme_name : string)
    (custom_colors : option (gmap string PyVal))
    (ex : option (list string)) :
  (THEMES !! "Default" = None →
   LangCard.draw_lang_card check THEMES data theme_name custom_colors ex
   = raise KeyError (repr_str "Default"))
  ∧ (THEMES !! theme_name = None →
     LangCard.draw_lang_card check THEMES data theme_name custom_colors ex
     = LangCard.draw_lang_card check THEMES data "Default" custom_colors ex).
Proof.
  split; intros H; rewrite !draw_steps;
    unfold LangCard.resolve_theme, LangCard.theme_item.
  - rewrite H. reflexivity.
  - rewrite H. destruct (THEMES !! "Default") as [d|]; reflexivity.
Qed.

Lemma theme_fallback_witness :
  LangCard.draw_lang_card LangCard.sample_check LangCard.sample_THEMES
    (LangCard.lang_data [("Go", 2)]) "Neon" None None
  = LangCard.draw_lang_card LangCard.sample_check LangCard.sample_THEMES
      (LangCard.lang_data [("Go", 2)]) "Default" None None
  ∧ LangCard.draw_lang_card LangCard.sample_check {[ "Neon" := LangCard.sample_preset ]}
      (LangCard.lang_data [("Go", 2)]) "Neon" None None
    = raise KeyError (repr_str "Default").
Proof.
  split.
  - apply (proj2 (theme_fallback LangCard.sample_check LangCard.sample_THEMES
                    (LangCard.lang_data [("Go", 2)]) "Neon" None None)).
    reflexivity.
  - apply (proj1 (theme_fallback LangCard.sample_check
                    {[ "Neon" := LangCard.sample_preset ]}
                    (LangCard.lang_data [("Go", 2)]) "Neon" None None)).
    reflexivity.
Defined.

Lemma resolve_theme_custom (THEMES : gmap string (gmap string PyVal))
    (theme_name : string) (c theme : gmap string PyVal) :
  LangCard.resolve_theme THEMES theme_name (Some c) = Ok theme →
  ∃ d, THEMES !! "Default" = Some d
       ∧ theme = c ∪ default d (THEMES !! theme_name).
Proof.
  unfold LangCard.resolve_theme, LangCard.theme_item.
  destruct (THEMES !! "Default") as [d|]; [|discriminate].
  rewrite ret_bind. intros H. exists d. split; [reflexivity|].
  destruct (Nat.eqb_spec (base.size c) 0) as [Hz|_].
  - apply map_size_empty_iff in Hz. subst c. rewrite (left_id_L ∅ (∪)).
    by inversion H.
  - by inversion H.
Qed.

(** X3. When custom colours are given, a card that is returned is drawn
    in the preset (the named one, or "Default") overlaid with them: an
    attribute that the custom colours give has their value, and any other
    has the value of the preset. *)
Theorem custom_colors_override (check : LangCard.Check)
    (THEMES : gmap string (gmap string PyVal))
    (data : PyVal) (l : list (string * Z)) (theme_name : string)
    (c : gmap string PyVal) (ex : option (list string))
    (doc : LangCard.Drawing) :
  LangCard.has_languages data l →
  LangCard.draw_lang_card check THEMES data theme_name (Some c) ex = Ok doc →
  ∃ d theme,
    THEMES !! "Default" = Some d
    ∧ doc = LangCard.card theme (LangCard.post_filter ex l)
    ∧ (∀ k v, c !! k = Some v → LangCard.style theme k = v)
    ∧ (∀ k, c !! k = None →
            LangCard.style theme k
            = LangCard.style (default d (THEMES !! theme_name)) k).
Proof.
  intros Hdata Hdoc.
  destruct (draw_inv _ _ _ _ _ _ _ _ Hdata Hdoc) as (theme & Hres & ->).
  destruct (resolve_theme_custom _ _ _ _ Hres) as (d & Hd & ->).
  exists d, (c ∪ default d (THEMES !! theme_name)).
  split; [exact Hd|]. split; [reflexivity|]. unfold LangCard.style. split.
  - intros k v Hk. by rewrite (lookup_union_Some_l _ _ _ _ Hk).
  - intros k Hk. by rewrite (lookup_union_r _ _ _ Hk).
Qed.

Lemma custom_colors_override_witness :
  ∃ doc theme,
    LangCard.draw_lang_card LangCard.sample_check LangCard.sample_THEMES
      (LangCard.lang_data [("Go", 2)]) "Default"
      (Some {[ "title_color" := VStr "#ff0000" ]}) None = Ok doc
    ∧ doc = LangCard.card theme [("Go", 2)]
    ∧ LangCard.style theme "title_color" = VStr "#ff0000"
    ∧ LangCard.style theme "bg_color" = VStr "#0d1117".
Proof.
  destruct (LangCard.draw_lang_card LangCard.sample_check LangCard.sample_THEMES
              (LangCard.lang_data [("Go", 2)]) "Default"
              (Some {[ "title_color" := VStr "#ff0000" ]}) None)
    as [doc|e] eqn:Hdoc; [|vm_compute in Hdoc; discriminate].
  destruct (custom_colors_override LangCard.sample_check
              LangCard.sample_THEMES
              (LangCard.lang_data [("Go", 2)]) [("Go", 2)] "Default"
              {[ "title_color" := VStr "#ff0000" ]} None doc eq_refl Hdoc)
    as (d & theme & Hd & Hcard & Hgiven & Hother).
  exists doc, theme. split; [reflexivity|]. split; [exact Hcard|]. split.
  - apply Hgiven. reflexivity.
  - rewrite Hother by reflexivity. vm_compute in Hd. inversion Hd. reflexivity.
Defined.

Lemma rows_elements_anchored (theme : gmap string PyVal) (T : Z)
    (rs : list (string * Z)) :
  ∀ i, 0 ≤ i →
    Forall (LangCard.anchored_within (50 + 35 * (i + Z.of_nat (length rs))))
           (LangCard.rows_elements theme T i rs).
Proof.
  induction rs as [|p rs IH]; intros i Hi; [constructor|].
  cbn [LangCard.rows_elements LangCard.row_elements app].
  assert (i + Z.of_nat (length (p :: rs))
          = (i + 1) + Z.of_nat (length rs)) as -> by (cbn [length]; lia).
  pose proof (IH (i + 1) ltac:(lia)) as Hrest.
  repeat (constructor;
          [eexists _, _; split; [reflexivity|lia]|]).
  exact Hrest.
Qed.

Lemma rows_elements_length (theme : gmap string PyVal) (T : Z)
    (rs : list (string * Z)) (i : Z) :
  length (LangCard.rows_elements theme T i rs) = (4 * length rs)%nat.
Proof.
  revert i. induction rs as [|p rs IH]; intros i; [reflexivity|].
  cbn [LangCard.rows_elements LangCard.row_elements app length].
  rewrite IH. lia.
Qed.

Lemma fill_inside (c T : Z) :
  0 ≤ c ≤ T → 0 < T →
  is_plus_finite (LangCard.fill_width_of (LangCard.pct_of c T) 260)
  ∧ (inject_Z 20
     + float_value (LangCard.fill_width_of (LangCard.pct_of c T) 260)
     <= 300)%Q.
Proof.
  intros Hc HT. destruct (fill_close c T Hc HT) as [Hw Hwe].
  split; [exact Hw|]. pose proof (share_le_1 c T Hc HT) as Hshare.
  apply Qabs_bound in Hwe. rewrite pow2_m41 in Hwe.
  change (inject_Z 20) with 20%Q. lra.
Qed.

Lemma rows_elements_inside (theme : gmap string PyVal) (T : Z)
    (rs : list (string * Z)) :
  0 < T → Forall (LangCard.share_of T) rs →
  ∀ i, 0 ≤ i →
    Forall (fun e => LangCard.tag e = "rect" →
                     LangCard.inside (50 + 35 * (i + Z.of_nat (length rs))) e)
           (LangCard.rows_elements theme T i rs).
Proof.
  intros HT. induction 1 as [|p rs Hp _ IH]; intros i Hi; [constructor|].
  cbn [LangCard.rows_elements LangCard.row_elements app].
  assert (i + Z.of_nat (length (p :: rs))
          = (i + 1) + Z.of_nat (length rs)) as -> by (cbn [length]; lia).
  pose proof (IH (i + 1) ltac:(lia)) as Hrest.
  destruct (fill_inside p.2 T Hp HT) as [Hfin Hend].
  apply Forall_cons_2; [discriminate|].
  apply Forall_cons_2; [discriminate|].
  apply Forall_cons_2.
  { intros _. unfold LangCard.inside.
    change (LangCard.attr "insert" _)
      with (Some (LangCard.APair (LangCard.AInt 20)
                    (LangCard.AInt (60 + i * 35 + 5)))).
    change (LangCard.attr "size" _)
      with (Some (LangCard.APair (LangCard.AInt 260) (LangCard.AInt 6))).
    cbv beta iota. lia. }
  apply Forall_cons_2; [|exact Hrest].
  intros _. unfold LangCard.inside.
  change (LangCard.attr "insert" _)
    with (Some (LangCard.APair (LangCard.AInt 20)
                  (LangCard.AInt (60 + i * 35 + 5)))).
  change (LangCard.attr "size" _)
    with (Some (LangCard.APair
                  (LangCard.AFloat
                     (LangCard.fill_width_of (LangCard.pct_of p.2 T) 260))
                  (LangCard.AInt 6))).
  cbv beta iota. repeat split; try lia; assumption.
Qed.

(** X4. Every element of a card that is returned is anchored inside the
    canvas: between 0 and 280 across, and between 0 and the height less
    20 down. With no negative count, no rectangle is drawn outside the
    [viewBox]: the background fills it, and every bar, its track and its
    filled part (whose width is a finite binary64, zero or more), starts
    and ends inside the 300 across and the height down. The names and
    the excluded entries are ASCII text. *)
Theorem rows_inside_canvas (check : LangCard.Check)
    (THEMES : gmap string (gmap string PyVal))
    (data : PyVal) (l : list (string * Z)) (theme_name : string)
    (custom_colors : option (gmap string PyVal))
    (ex : option (list string)) (doc : LangCard.Drawing) :
  LangCard.has_languages data l → LangCard.ascii_text l ex →
  LangCard.draw_lang_card check THEMES data theme_name custom_colors ex
  = Ok doc →
  let height := 50 + 35 * Z.of_nat (length (LangCard.post_filter ex l)) in
  LangCard.viewBox doc = "0 0 300 " ++ str_of_Z height
  ∧ Z.of_nat (length (LangCard.elements doc))
    = 2 + 4 * Z.of_nat (length (LangCard.post_filter ex l))
  ∧ Forall (LangCard.anchored_within height) (LangCard.elements doc)
  ∧ (LangCard.nonneg l →
     Forall (fun e => LangCard.tag e = "rect" → LangCard.inside height e)
            (LangCard.elements doc)).
Proof.
  intros Hdata _ Hdoc height.
  destruct (draw_inv _ _ _ _ _ _ _ _ Hdata Hdoc) as (theme & _ & ->).
  set (rs := LangCard.post_filter ex l) in *.
  split; [reflexivity|]. unfold LangCard.card. cbn [LangCard.elements].
  split; [|split].
  - cbn [length]. rewrite rows_elements_length. lia.
  - pose proof (rows_elements_anchored theme (LangCard.divisor rs) rs 0
                  ltac:(lia)) as Hrows.
    rewrite Z.add_0_l in Hrows. subst height.
    repeat (constructor; [eexists _, _; split; [reflexivity|lia]|]).
    exact Hrows.
  - intros Hl.
    assert (LangCard.nonneg rs) as Hrs by by apply nonneg_post_filter.
    pose proof (rows_elements_inside theme (LangCard.divisor rs) rs
                  (divisor_pos rs Hrs) (nonneg_le_divisor rs Hrs) 0
                  ltac:(lia)) as Hrows.
    rewrite Z.add_0_l in Hrows. subst height.
    apply Forall_cons_2; [intros _; by vm_compute|].
    apply Forall_cons_2; [discriminate|]. exact Hrows.
Qed.

Lemma rows_inside_canvas_witness :
  ∃ doc,
    LangCard.draw_lang_card LangCard.sample_check LangCard.sample_THEMES
      (LangCard.lang_data LangCard.thirds) "Default" None None = Ok doc
    ∧ Z.of_nat (length (LangCard.elements doc)) = 14
    ∧ Forall (LangCard.anchored_within 155) (LangCard.elements doc)
    ∧ Forall (fun e => LangCard.tag e = "rect" → LangCard.inside 155 e)
             (LangCard.elements doc).
Proof.
  destruct (LangCard.draw_lang_card LangCard.sample_check
              LangCard.sample_THEMES
              (LangCard.lang_data LangCard.thirds) "Default" None None)
    as [doc|e] eqn:Hdoc; [|vm_compute in Hdoc; discriminate].
  exists doc. split; [reflexivity|].
  destruct (rows_inside_canvas LangCard.sample_check LangCard.sample_THEMES
              (LangCard.lang_data LangCard.thirds) LangCard.thirds
              "Default" None None doc eq_refl) as (_ & Hn & Han & Hin).
  { split; repeat constructor. }
  { exact Hdoc. }
  split; [exact Hn|]. split; [exact Han|].
  apply Hin. repeat constructor; simpl; lia.
Defined.

Lemma finish_card_empty (check : LangCard.Check)
    (theme : gmap string PyVal) :
  LangCard.usable check theme →
  LangCard.finish_card check theme (VList [])
  = Ok (LangCard.card theme [("No Data", 0)]).
Proof.
  intros Hu.
  assert (LangCard.themes_ok check {[ "Default" := theme ]}) as Hok.
  { split; [by eexists|]. intros n t H.
    by apply lookup_singleton_Some in H as [_ <-]. }
  destruct (draw_pairs check {[ "Default" := theme ]} (LangCard.lang_data [])
              [] "Default" None None Hok I eq_refl ltac:(constructor))
    as (theme' & Hres & Hdoc).
  rewrite draw_steps, Hres in Hdoc.
  assert (theme' = theme) as ->.
  { unfold LangCard.resolve_theme, LangCard.theme_item in Hres.
    rewrite lookup_singleton_eq in Hres. simpl in Hres. by inversion Hres. }
  exact Hdoc.
Qed.

Lemma filter_langs_mappings (ex : list string) (l : list (string * Z)) :
  LangCard.filter_langs ex (map GithubUtils.lang_entry l)
  = Ok (if str_in "name" ex then []
        else map (fun _ => VTuple [VStr "name"; VStr "count"]) l).
Proof.
  induction l as [|p l IH]; [by destruct (str_in "name" ex)|].
  cbn [map LangCard.filter_langs].
  change (unpack2 (GithubUtils.lang_entry p))
    with (Ok (A := PyVal * PyVal) (VStr "name", VStr "count")).
  rewrite ret_bind.
  change (LangCard.str_lower (VStr "name")) with (Ok (A := string) "name").
  rewrite ret_bind, IH, ret_bind.
  destruct (str_in "name" ex); reflexivity.
Qed.

(** The steps of [finish_card] before the sum, in a usable theme. *)
Lemma finish_card_sum (check : LangCard.Check) (theme : gmap string PyVal)
    (items : list PyVal) :
  LangCard.usable check theme → items ≠ [] →
  LangCard.finish_card check theme (VList items)
  = (LangCard.sum_counts (VInt 0) items ≫= λ total_usage,
     LangCard.draw_rows check theme 300 35 60
       (if LangCard.is_zero total_usage then VInt 1 else total_usage) 0 items
       (LangCard.add
          (LangCard.add
             {| LangCard.size :=
                  LangCard.APair (LangCard.AStr "100%") (LangCard.AStr "100%");
                LangCard.viewBox :=
                  "0 0 " ++ str_of_Z 300 ++ " "
                  ++ str_of_Z (40 + Z.of_nat (length items) * 35 + 10);
                LangCard.elements := [] |}
             (LangCard.background theme))
          (LangCard.title theme))).
Proof.
  intros Hu Hne. pose proof (proj1 Hu) as Hs.
  destruct items as [|item items]; [done|].
  unfold LangCard.finish_card.
  cbn [truthy length Nat.eqb negb len]. rewrite ret_bind.
  rewrite !(theme_item_style theme _ Hs) by (simpl; tauto).
  destruct (frame_built check theme Hu) as [Hbg Htitle].
  rewrite ?ret_bind, Hbg, ?ret_bind, Htitle, ?ret_bind. reflexivity.
Qed.

(** Keys in the place of pairs: the sum stops at the string "count". *)
Lemma finish_card_keys (check : LangCard.Check) (theme : gmap string PyVal)
    (l : list (string * Z)) :
  LangCard.usable check theme → l ≠ [] →
  LangCard.finish_card check theme
    (VList (map (fun _ => VTuple [VStr "name"; VStr "count"]) l))
  = raise TypeError "unsupported operand type(s) for +".
Proof.
  intros Hu Hl. rewrite finish_card_sum; [|exact Hu|by destruct l].
  destruct l as [|p l]; [done|]. reflexivity.
Qed.

(** Mappings that reach the sum as they are. *)
Lemma finish_card_mappings (check : LangCard.Check)
    (theme : gmap string PyVal) (l : list (string * Z)) :
  LangCard.usable check theme → l ≠ [] →
  LangCard.finish_card check theme (VList (map GithubUtils.lang_entry l))
  = raise TypeError "unsupported operand type(s) for +".
Proof.
  intros Hu Hl. rewrite finish_card_sum; [|exact Hu|by destruct l].
  destruct l as [|p l]; [done|]. reflexivity.
Qed.

(** X5. A record whose top languages are name/count mappings, as the
    fetcher builds them, is not rendered under any usable presets, any
    custom colours that svgwrite accepts or any exclusion list: the
    renderer raises [TypeError] at the sum of the counts, except that an
    exclusion list with an entry equal to "name" up to case removes every
    entry and leaves the "No Data" card. The excluded entries are ASCII
    text. *)
Theorem mappings_never_render (check : LangCard.Check)
    (THEMES : gmap string (gmap string PyVal))
    (data : PyVal) (l : list (string * Z)) (theme_name : string)
    (custom_colors : option (gmap string PyVal))
    (ex : option (list string)) :
  LangCard.themes_ok check THEMES → LangCard.colors_ok check custom_colors →
  LangCard.ascii_text [] ex → l ≠ [] →
  dict_get data "top_languages" (VList [])
  = Ok (VList (map GithubUtils.lang_entry l)) →
  (LangCard.excluded ex "name" = false →
   LangCard.draw_lang_card check THEMES data theme_name custom_colors ex
   = raise TypeError "unsupported operand type(s) for +")
  ∧ (LangCard.excluded ex "name" = true →
     ∃ doc,
       LangCard.draw_lang_card check THEMES data theme_name custom_colors ex
       = Ok doc
       ∧ LangCard.rows doc = [LangCard.no_data_row]).
Proof.
  intros Hth Hcol _ Hl Hdata.
  destruct (resolve_theme_ok check THEMES theme_name custom_colors Hth Hcol)
    as (theme & Hres & Hu).
  assert (LangCard.exclusion_step ex (VList (map GithubUtils.lang_entry l))
          = Ok (VList (if LangCard.excluded ex "name" then []
                       else map (fun _ => VTuple [VStr "name"; VStr "count"])
                                l))
          ∨ (LangCard.excluded ex "name" = false
             ∧ LangCard.exclusion_step ex
                 (VList (map GithubUtils.lang_entry l))
               = Ok (VList (map GithubUtils.lang_entry l)))) as Hstep.
  { destruct ex as [[|e es]|]; [right; by split| |right; by split].
    left. destruct l as [|p l]; [done|].
    unfold LangCard.exclusion_step.
    cbn [truthy map length Nat.eqb negb iterate]. rewrite ret_bind.
    change (GithubUtils.lang_entry p :: map GithubUtils.lang_entry l)
      with (map GithubUtils.lang_entry (p :: l)).
    rewrite filter_langs_mappings, ret_bind.
    change (str_in "name" (lower e :: map lower es))
      with (str_in (lower "name") (map lower (e :: es))).
    rewrite str_in_lower. reflexivity. }
  split.
  - intros Hex. destruct Hstep as [Hstep|[_ Hstep]];
      rewrite draw_steps, Hres, ret_bind, Hdata, ret_bind, Hstep, ret_bind.
    + rewrite Hex. by apply finish_card_keys.
    + by apply finish_card_mappings.
  - intros Hex. destruct Hstep as [Hstep|[Hno _]]; [|congruence].
    rewrite draw_steps, Hres, ret_bind, Hdata, ret_bind, Hstep, ret_bind.
    rewrite Hex, (finish_card_empty check theme Hu).
    eexists. split; [reflexivity|]. rewrite rows_card. vm_compute. reflexivity.
Qed.

Lemma mappings_never_render_witness :
  LangCard.draw_lang_card LangCard.sample_check LangCard.sample_THEMES
    (GithubUtils.fetch_github_stats GithubUtils.sample_gh "octocat")
    "Default" None (Some ["Go"])
  = raise TypeError "unsupported operand type(s) for +"
  ∧ ∃ doc,
      LangCard.draw_lang_card LangCard.sample_check LangCard.sample_THEMES
        (GithubUtils.fetch_github_stats GithubUtils.sample_gh "octocat")
        "Default" None (Some ["NAME"]) = Ok doc
      ∧ LangCard.rows doc = [LangCard.no_data_row].
Proof.
  split.
  - apply (proj1 (mappings_never_render LangCard.sample_check
                    LangCard.sample_THEMES
                    (GithubUtils.fetch_github_stats GithubUtils.sample_gh
                       "octocat")
                    [("Go", 2); ("Python", 1)] "Default" None (Some ["Go"])
                    sample_THEMES_ok I ltac:(split; repeat constructor)
                    ltac:(discriminate) eq_refl)).
    reflexivity.
  - apply (proj2 (mappings_never_render LangCard.sample_check
                    LangCard.sample_THEMES
                    (GithubUtils.fetch_github_stats GithubUtils.sample_gh
                       "octocat")
                    [("Go", 2); ("Python", 1)] "Default" None (Some ["NAME"])
                    sample_THEMES_ok I ltac:(split; repeat constructor)
                    ltac:(discriminate) eq_refl)).
    reflexivity.
Defined.

Lemma unpack2_wrong_arity (items : list PyVal) :
  length items ≠ 2%nat →
  unpack2 (VTuple items) = raise ValueError "wrong number of values to unpack".
Proof. destruct items as [|a [|b [|c r]]]; simpl; try reflexivity; lia. Qed.

Lemma filter_langs_wrong_arity (ex : list string) (l1 : list (string * Z))
    (items rest : list PyVal) :
  length items ≠ 2%nat →
  LangCard.filter_langs ex (map LangCard.pair_val l1 ++ VTuple items :: rest)
  = raise ValueError "wrong number of values to unpack".
Proof.
  intros Hn. induction l1 as [|p l1 IH].
  - cbn [map app LangCard.filter_langs]. by rewrite unpack2_wrong_arity.
  - cbn [map app LangCard.filter_langs].
    rewrite unpack2_pair, ret_bind. cbn [LangCard.str_lower].
    rewrite ret_bind, IH. reflexivity.
Qed.

Lemma sum_counts_wrong_arity (acc : Z) (l1 : list (string * Z))
    (items rest : list PyVal) :
  length items ≠ 2%nat →
  LangCard.sum_counts (VInt acc)
    (map LangCard.pair_val l1 ++ VTuple items :: rest)
  = raise ValueError "wrong number of values to unpack".
Proof.
  intros Hn. revert acc. induction l1 as [|p l1 IH]; intros acc.
  - cbn [map app LangCard.sum_counts]. by rewrite unpack2_wrong_arity.
  - cbn [map app LangCard.sum_counts].
    rewrite unpack2_pair, ret_bind. cbn [Py.add]. rewrite ret_bind. apply IH.
Qed.

(** X6. A language entry that is a tuple of any length but two, after
    any number of well-formed pairs, makes the renderer raise
    [ValueError], with or without an exclusion list, under usable presets
    and custom colours that svgwrite accepts: no row is drawn for the
    pairs before it. The names before it and the excluded entries are
    ASCII text. *)
Theorem wrong_arity_raises (check : LangCard.Check)
    (THEMES : gmap string (gmap string PyVal))
    (data : PyVal) (l1 : list (string * Z)) (items rest : list PyVal)
    (theme_name : string) (custom_colors : option (gmap string PyVal))
    (ex : option (list string)) :
  LangCard.themes_ok check THEMES → LangCard.colors_ok check custom_colors →
  LangCard.ascii_text l1 ex →
  dict_get data "top_languages" (VList [])
  = Ok (VList (map LangCard.pair_val l1 ++ VTuple items :: rest)) →
  length items ≠ 2%nat →
  LangCard.draw_lang_card check THEMES data theme_name custom_colors ex
  = raise ValueError "wrong number of values to unpack".
Proof.
  intros Hth Hcol _ Hdata Hn.
  destruct (resolve_theme_ok check THEMES theme_name custom_colors Hth Hcol)
    as (theme & Hres & Hu).
  rewrite draw_steps, Hres, ret_bind, Hdata, ret_bind.
  set (langs := (map LangCard.pair_val l1 ++ VTuple items :: rest)%list).
  assert (langs ≠ []) as Hne by (subst langs; by destruct l1).
  assert (truthy (VList langs) = true) as Htruthy
    by (destruct langs; [done|reflexivity]).
  assert (LangCard.finish_card check theme (VList langs)
          = raise ValueError "wrong number of values to unpack") as Hfinish.
  { rewrite (finish_card_sum check theme langs Hu Hne). subst langs.
    by rewrite sum_counts_wrong_arity. }
  destruct ex as [[|e es]|]; cbn [LangCard.exclusion_step].
  - by rewrite ret_bind.
  - rewrite Htruthy. cbn [iterate]. rewrite ret_bind. subst langs.
    by rewrite filter_langs_wrong_arity.
  - by rewrite ret_bind.
Qed.

Lemma wrong_arity_raises_witness :
  LangCard.draw_lang_card LangCard.sample_check LangCard.sample_THEMES
    (VDict [("top_languages",
             VList [VTuple [VStr "Go"; VInt 2];
                    VTuple [VStr "Rust"; VInt 1; VInt 7]])])
    "Default" None None
  = raise ValueError "wrong number of values to unpack".
Proof.
  apply (wrong_arity_raises LangCard.sample_check LangCard.sample_THEMES _
           [("Go", 2)] [VStr "Rust"; VInt 1; VInt 7] [] "Default" None None
           sample_THEMES_ok I); [split; repeat constructor|reflexivity|].
  simpl. lia.
Defined.

(** * More of the fetcher *)

(** ** Counting *)

Lemma count_of_incr (k k' : string) (c : GithubUtils.Counter) :
  GithubUtils.count_of k' (GithubUtils.incr k c)
  = GithubUtils.count_of k' c + (if String.eqb k' k then 1 else 0).
Proof.
  induction c as [|[k0 n] c IH]; [reflexivity|].
  cbn [GithubUtils.incr].
  destruct (String.eqb_spec k k0) as [->|Hne]; cbn [GithubUtils.count_of].
  - destruct (String.eqb_spec k' k0); lia.
  - rewrite IH. destruct (String.eqb_spec k' k0) as [->|]; [|reflexivity].
    destruct (String.eqb_spec k0 k); [congruence|lia].
Qed.

Lemma count_of_tally (k : string) (keys : list string)
    (c : GithubUtils.Counter) :
  GithubUtils.count_of k (GithubUtils.tally keys c)
  = GithubUtils.count_of k c + GithubUtils.occurrences k keys.
Proof.
  unfold GithubUtils.tally, GithubUtils.occurrences.
  revert c. induction keys as [|k0 keys IH]; intros c; [simpl; lia|].
  cbn [fold_left List.filter]. rewrite IH, count_of_incr.
  destruct (String.eqb k k0); cbn [length]; lia.
Qed.

Lemma keys_incr (k k0 : string) (c : GithubUtils.Counter) :
  In k0 (map fst (GithubUtils.incr k c)) ↔ k0 = k ∨ In k0 (map fst c).
Proof.
  induction c as [|[k1 n] c IH]; [simpl; intuition congruence|].
  cbn [GithubUtils.incr].
  destruct (String.eqb_spec k k1) as [->|Hne]; cbn [map fst In] in *.
  - intuition congruence.
  - rewrite IH. intuition congruence.
Qed.

Lemma NoDup_incr (k : string) (c : GithubUtils.Counter) :
  List.NoDup (map fst c) → List.NoDup (map fst (GithubUtils.incr k c)).
Proof.
  induction c as [|[k1 n] c IH]; intros Hnd.
  - repeat constructor. by intros [].
  - cbn [GithubUtils.incr].
    destruct (String.eqb_spec k k1) as [->|Hne]; [exact Hnd|].
    cbn [map fst] in *. inversion Hnd as [|? ? Hnotin Hrest]; subst.
    constructor; [|by apply IH].
    rewrite keys_incr. intuition congruence.
Qed.

Lemma NoDup_tally (keys : list string) (c : GithubUtils.Counter) :
  List.NoDup (map fst c) → List.NoDup (map fst (GithubUtils.tally keys c)).
Proof.
  unfold GithubUtils.tally. revert c.
  induction keys as [|k keys IH]; intros c Hnd; [exact Hnd|].
  cbn [fold_left]. by apply IH, NoDup_incr.
Qed.

Lemma positive_tally (keys : list string) (c : GithubUtils.Counter) :
  GithubUtils.positive_counts c →
  GithubUtils.positive_counts (GithubUtils.tally keys c).
Proof.
  unfold GithubUtils.tally. revert c.
  induction keys as [|k keys IH]; intros c Hc; [exact Hc|].
  cbn [fold_left]. by apply IH, incr_positive.
Qed.

(** With distinct keys, an entry of the counter is the count of its key. *)
Lemma In_count_of (k : string) (n : Z) (c : GithubUtils.Counter) :
  List.NoDup (map fst c) → In (k, n) c → GithubUtils.count_of k c = n.
Proof.
  induction c as [|[k0 n0] c IH]; intros Hnd Hin; [done|].
  cbn [map fst] in Hnd. inversion Hnd as [|? ? Hnotin Hrest]; subst.
  cbn [GithubUtils.count_of]. destruct Hin as [Heq|Hin].
  - inversion Heq; subst. by rewrite String.eqb_refl.
  - destruct (String.eqb_spec k k0) as [->|_]; [|by apply IH].
    destruct Hnotin. by apply (in_map fst) in Hin.
Qed.

Lemma count_of_In (k : string) (c : GithubUtils.Counter) :
  GithubUtils.count_of k c ≠ 0 → In (k, GithubUtils.count_of k c) c.
Proof.
  induction c as [|[k0 n0] c IH]; intros Hne; [done|].
  cbn [GithubUtils.count_of] in *.
  destruct (String.eqb_spec k k0) as [->|_]; [by left|].
  right. by apply IH.
Qed.

Lemma occurrences_bounds (k : string) (keys : list string) :
  0 ≤ GithubUtils.occurrences k keys ≤ Z.of_nat (length keys)
  ∧ (0 < GithubUtils.occurrences k keys ↔ In k keys).
Proof.
  unfold GithubUtils.occurrences. induction keys as [|k0 keys [IHb IHi]].
  - simpl. split; [lia|]. split; [lia|tauto].
  - cbn [List.filter length In].
    destruct (String.eqb_spec k k0) as [->|Hne]; cbn [length].
    + split; [lia|]. split; [tauto|lia].
    + split; [lia|]. rewrite IHi. intuition congruence.
Qed.

(** The loops count the languages in the order of the repositories. *)
Lemma scan_repos_tally (repos : list GithubUtils.RepoJson)
    (c : GithubUtils.Counter) (e : Z) :
  (fold_left GithubUtils.scan_repo repos (c, e)).1
  = GithubUtils.tally (GithubUtils.repo_languages repos) c.
Proof.
  revert c e. induction repos as [|repo repos IH]; intros c e; [reflexivity|].
  cbn [fold_left GithubUtils.repo_languages flat_map].
  unfold GithubUtils.scan_repo at 2, GithubUtils.tally.
  rewrite IH, fold_left_app. unfold GithubUtils.tally. f_equal.
  destruct (GithubUtils.language repo) as [lang|]; [|reflexivity].
  cbn [GithubUtils.opt_str truthy default].
  by destruct (String.eqb lang "").
Qed.

Lemma scan_nodes_tally (repos : list GithubUtils.GqlRepo)
    (c : GithubUtils.Counter) :
  fold_left GithubUtils.scan_node repos c
  = GithubUtils.tally (GithubUtils.node_languages repos) c.
Proof.
  revert c. induction repos as [|repo repos IH]; intros c; [reflexivity|].
  cbn [fold_left GithubUtils.node_languages flat_map].
  unfold GithubUtils.tally. rewrite IH, fold_left_app.
  unfold GithubUtils.tally. f_equal. unfold GithubUtils.scan_node.
  by destruct (GithubUtils.primaryLanguage repo).
Qed.

Lemma lang_entry_inj (l l' : list (string * Z)) :
  map GithubUtils.lang_entry l = map GithubUtils.lang_entry l' → l = l'.
Proof.
  revert l'. induction l as [|[n c] l IH]; intros [|[n' c'] l'] H;
    try discriminate; [reflexivity|].
  cbn [map] in H. inversion H. f_equal. by apply IH.
Qed.

Lemma sorted_app_inv (l1 l2 : list (string * Z)) :
  GithubUtils.non_increasing (l1 ++ l2) →
  ∀ a b, In a l1 → In b l2 → b.2 ≤ a.2.
Proof.
  unfold GithubUtils.non_increasing.
  induction l1 as [|x l1 IH]; intros Hs a b Ha Hb; [done|].
  cbn [app] in Hs. inversion Hs as [|? ? Hrest Hall]; subst.
  destruct Ha as [->|Ha]; [|by apply (IH Hrest)].
  rewrite Forall_forall in Hall. apply Hall.
  apply list_elem_of_In, in_or_app. by right.
Qed.

(** What [most_common] keeps of a counter with distinct keys [c]: entries
    of [c], with distinct keys, and every entry it drops counts no more
    than any it keeps. *)
Lemma most_common_entries (n : nat) (c : GithubUtils.Counter) :
  List.NoDup (map fst c) →
  List.NoDup (map fst (GithubUtils.most_common n c))
  ∧ (∀ p, In p (GithubUtils.most_common n c) → In p c)
  ∧ (∀ q, In q c → ¬ In q (GithubUtils.most_common n c) →
          length (GithubUtils.most_common n c) = n
          ∧ ∀ p, In p (GithubUtils.most_common n c) → q.2 ≤ p.2).
Proof.
  intros Hnd. unfold GithubUtils.most_common.
  pose proof (sort_desc_perm c) as Hperm.
  pose proof (sort_desc_sorted c) as Hsorted.
  set (s := GithubUtils.sort_desc c) in *.
  split; [|split].
  - rewrite <- firstn_map. apply NoDup_ListNoDup.
    apply (sublist_NoDup _ (map fst s)); [|apply sublist_take].
    apply NoDup_ListNoDup.
    eapply Permutation_NoDup; [|exact Hnd].
    apply Permutation_map. by symmetry.
  - intros p Hp. apply (Permutation_in _ Hperm).
    rewrite <- (firstn_skipn n s). apply in_or_app. by left.
  - intros q Hq Hnot.
    assert (In q (skipn n s)) as Hdrop.
    { apply (Permutation_in _ (Permutation_sym Hperm)) in Hq.
      rewrite <- (firstn_skipn n s) in Hq.
      apply in_app_or in Hq as [Hq|Hq]; [done|exact Hq]. }
    split.
    + rewrite length_firstn.
      assert (n < length s)%nat; [|lia].
      destruct (Nat.lt_ge_cases n (length s)) as [Hlt|Hge]; [exact Hlt|].
      rewrite skipn_all2 in Hdrop by exact Hge. done.
    + intros p Hp. rewrite <- (firstn_skipn n s) in Hsorted.
      by apply (sorted_app_inv _ _ Hsorted).
Qed.

Lemma repo_languages_length (repos : list GithubUtils.RepoJson) :
  (length (GithubUtils.repo_languages repos) ≤ length repos)%nat.
Proof.
  induction repos as [|repo repos IH]; [reflexivity|].
  cbn [GithubUtils.repo_languages flat_map]. rewrite length_app.
  fold (GithubUtils.repo_languages repos).
  destruct (GithubUtils.language repo) as [lang|]; [|simpl; lia].
  destruct (String.eqb lang ""); simpl; lia.
Qed.

Lemma basic_top_languages (gh : GithubUtils.GitHub) (username : string)
    (user_data : GithubUtils.UserJson) (repos : list GithubUtils.RepoJson)
    (l : list (string * Z)) :
  GithubUtils.profile_body (GithubUtils.get_user gh username)
  = Some user_data →
  GithubUtils.listed_repos (GithubUtils.get_repos gh username) = Some repos →
  getitem (GithubUtils.fetch_github_stats gh username) "top_languages"
  = Ok (VList (map GithubUtils.lang_entry l)) →
  l = GithubUtils.most_common 5
        (GithubUtils.tally (GithubUtils.repo_languages (firstn 30 repos)) []).
Proof.
  intros Huser Hrepos Htop.
  rewrite fetch_github_stats_eq, Huser, Hrepos in Htop.
  unfold GithubUtils.language_stats in Htop. rewrite scan_repos_tally in Htop.
  cbn in Htop. inversion Htop as [Heq]. by apply lang_entry_inj in Heq.
Qed.

(** ** The top languages of the basic fetch *)

(** X7. In a record of the basic fetch no language is listed twice, and
    the count of a listed language is the number of repositories, among
    the first 30 of the listing, that have it as their language (forks
    included); it is at least 1 and at most 30. *)
Theorem basic_counts_exact (gh : GithubUtils.GitHub) (username : string)
    (user_data : GithubUtils.UserJson) (repos : list GithubUtils.RepoJson)
    (l : list (string * Z)) :
  GithubUtils.profile_body (GithubUtils.get_user gh username)
  = Some user_data →
  GithubUtils.listed_repos (GithubUtils.get_repos gh username) = Some repos →
  getitem (GithubUtils.fetch_github_stats gh username) "top_languages"
  = Ok (VList (map GithubUtils.lang_entry l)) →
  let langs := GithubUtils.repo_languages (firstn 30 repos) in
  List.NoDup (map fst l)
  ∧ ∀ name count, In (name, count) l →
      count = GithubUtils.occurrences name langs ∧ 1 ≤ count ≤ 30.
Proof.
  intros Huser Hrepos Htop langs.
  rewrite (basic_top_languages _ _ _ _ _ Huser Hrepos Htop). fold langs.
  assert (List.NoDup (map fst (GithubUtils.tally langs []))) as Hnd
    by (apply NoDup_tally; constructor).
  destruct (most_common_entries 5 _ Hnd) as (Hkeys & Hsub & _).
  split; [exact Hkeys|]. intros name count Hin.
  pose proof (Hsub _ Hin) as Hc.
  assert (count = GithubUtils.occurrences name langs) as Hcount.
  { apply (In_count_of _ _ _ Hnd) in Hc.
    rewrite count_of_tally in Hc. simpl in Hc. lia. }
  split; [exact Hcount|].
  assert (GithubUtils.positive_counts (GithubUtils.tally langs [])) as Hpos
    by (apply positive_tally; constructor).
  unfold GithubUtils.positive_counts in Hpos. rewrite Forall_forall in Hpos.
  apply list_elem_of_In, Hpos in Hc. simpl in Hc.
  pose proof (proj1 (occurrences_bounds name langs)) as Hb.
  pose proof (repo_languages_length (firstn 30 repos)) as Hlen.
  rewrite length_firstn in Hlen. fold langs in Hlen. lia.
Qed.

Lemma basic_counts_exact_witness :
  getitem (GithubUtils.fetch_github_stats GithubUtils.many_gh "octocat")
          "top_languages"
  = Ok (VList (map GithubUtils.lang_entry [("Go", 30)]))
  ∧ ∀ name count, In (name, count) [("Go", 30)] →
      count = GithubUtils.occurrences name
                (GithubUtils.repo_languages (firstn 30 GithubUtils.many_repos))
      ∧ 1 ≤ count ≤ 30.
Proof.
  split; [reflexivity|].
  exact (proj2 (basic_counts_exact GithubUtils.many_gh "octocat"
                  GithubUtils.sample_user GithubUtils.many_repos
                  [("Go", 30)] eq_refl eq_refl eq_refl)).
Defined.

(** X8. A language that some repository among the first 30 has and that
    the record does not list was left out for room only: the record then
    lists 5 languages, and each of them counts at least as many
    repositories. *)
Theorem top_five_maximal (gh : GithubUtils.GitHub) (username : string)
    (user_data : GithubUtils.UserJson) (repos : list GithubUtils.RepoJson)
    (l : list (string * Z)) (name : string) :
  GithubUtils.profile_body (GithubUtils.get_user gh username)
  = Some user_data →
  GithubUtils.listed_repos (GithubUtils.get_repos gh username) = Some repos →
  getitem (GithubUtils.fetch_github_stats gh username) "top_languages"
  = Ok (VList (map GithubUtils.lang_entry l)) →
  let langs := GithubUtils.repo_languages (firstn 30 repos) in
  In name langs → ¬ In name (map fst l) →
  length l = 5%nat
  ∧ ∀ p, In p l → GithubUtils.occurrences name langs ≤ p.2.
Proof.
  intros Huser Hrepos Htop langs Hname Hnot.
  rewrite (basic_top_languages _ _ _ _ _ Huser Hrepos Htop) in Hnot |- *.
  fold langs in Hnot |- *.
  assert (List.NoDup (map fst (GithubUtils.tally langs []))) as Hnd
    by (apply NoDup_tally; constructor).
  destruct (most_common_entries 5 _ Hnd) as (_ & _ & Hmax).
  assert (GithubUtils.count_of name (GithubUtils.tally langs [])
          = GithubUtils.occurrences name langs) as Hcount.
  { rewrite count_of_tally. simpl. lia. }
  apply (occurrences_bounds name langs) in Hname.
  destruct (Hmax (name, GithubUtils.occurrences name langs)) as [Hlen Hle].
  - rewrite <- Hcount. apply count_of_In. lia.
  - intros Hin. apply Hnot. by apply (in_map fst) in Hin.
  - split; [exact Hlen|]. intros p Hp. exact (Hle p Hp).
Qed.

Lemma top_five_maximal_witness :
  getitem (GithubUtils.fetch_github_stats GithubUtils.polyglot_gh "octocat")
          "top_languages"
  = Ok (VList (map GithubUtils.lang_entry
                 [("Go", 2); ("Rust", 2); ("C", 2); ("Java", 2); ("Ruby", 2)]))
  ∧ ∀ p, In p [("Go", 2); ("Rust", 2); ("C", 2); ("Java", 2); ("Ruby", 2)] →
         GithubUtils.occurrences "Zig"
           (GithubUtils.repo_languages
              (firstn 30 GithubUtils.polyglot_repos)) ≤ p.2.
Proof.
  split; [reflexivity|].
  refine (proj2 (top_five_maximal GithubUtils.polyglot_gh "octocat"
                   GithubUtils.sample_user GithubUtils.polyglot_repos
                   [("Go", 2); ("Rust", 2); ("C", 2); ("Java", 2); ("Ruby", 2)]
                   "Zig" eq_refl eq_refl eq_refl _ _)).
  - vm_compute. tauto.
  - vm_compute. intuition discriminate.
Defined.

(** ** The detailed fetch *)

Lemma profile_data_not_None (user_data : GithubUtils.UserJson)
    (c : GithubUtils.Counter) (e : Z) :
  GithubUtils.profile_data user_data c e ≠ VNone.
Proof. discriminate. Qed.

(** The detailed fetch, case by case. *)
Lemma fetch_detailed_eq (gh : GithubUtils.GitHub) (username : string)
    (github_token : option string) :
  GithubUtils.fetch_github_stats_detailed gh username github_token
  = match GithubUtils.usable_token github_token with
    | Some token =>
        match GithubUtils.graph_user
                (GithubUtils.post_graphql gh username token) with
        | Some user => GithubUtils.detailed_data user
        | None => GithubUtils.fetch_github_stats gh username
        end
    | None => GithubUtils.fetch_github_stats gh username
    end.
Proof.
  unfold GithubUtils.fetch_github_stats_detailed, GithubUtils.usable_token.
  destruct github_token as [[|ch t]|]; [reflexivity| |reflexivity].
  cbn [String.eqb].
  unfold GithubUtils.fetch_github_stats_detailed_try, GithubUtils.graph_user.
  destruct (GithubUtils.post_graphql gh username (String ch t))
    as [|s [data|e]]; cbn [GithubUtils.request]; [reflexivity| |].
  - rewrite ret_bind. destruct (s =? 200); cbn [negb]; [|reflexivity].
    rewrite ret_bind. destruct (GithubUtils.has_errors data); [reflexivity|].
    by destruct (GithubUtils.data_user data).
  - rewrite ret_bind. by destruct (s =? 200).
Qed.

(** X9. The detailed fetch falls back on the basic fetch exactly when it
    has no usable token or the graph answer is not usable (network error,
    status other than 200, body that does not parse, [errors] key, [user]
    null): it then returns what the basic fetch returns, whatever the
    graph API would have answered when there is no token. Otherwise it
    returns the record of the graph answer. It returns [None] only when
    it fell back and the basic fetch returned [None]. *)
Theorem detailed_falls_back (gh : GithubUtils.GitHub) (username : string)
    (github_token : option string) :
  let r := GithubUtils.fetch_github_stats_detailed gh username github_token in
  (GithubUtils.usable_token github_token = None →
   r = GithubUtils.fetch_github_stats gh username)
  ∧ (∀ token, GithubUtils.usable_token github_token = Some token →
       match GithubUtils.graph_user
               (GithubUtils.post_graphql gh username token) with
       | Some user => r = GithubUtils.detailed_data user
       | None => r = GithubUtils.fetch_github_stats gh username
       end)
  ∧ (r = VNone →
     GithubUtils.fetch_github_stats gh username = VNone
     ∧ ∀ token, GithubUtils.usable_token github_token = Some token →
         GithubUtils.graph_user (GithubUtils.post_graphql gh username token)
         = None).
Proof.
  intros r. subst r. rewrite fetch_detailed_eq.
  destruct (GithubUtils.usable_token github_token) as [token|].
  - split; [discriminate|]. split.
    + intros t Ht. inversion Ht; subst.
      by destruct (GithubUtils.graph_user _).
    + destruct (GithubUtils.graph_user _) as [user|] eqn:Hg;
        [discriminate|].
      intros Hnone. split; [exact Hnone|].
      intros t Ht. inversion Ht; subst. exact Hg.
  - split; [reflexivity|]. split; [discriminate|].
    intros Hnone. split; [exact Hnone|]. discriminate.
Qed.

Lemma detailed_falls_back_witness :
  GithubUtils.fetch_github_stats_detailed GithubUtils.sample_gh "octocat"
    (Some "")
  = GithubUtils.fetch_github_stats GithubUtils.sample_gh "octocat"
  ∧ GithubUtils.fetch_github_stats_detailed GithubUtils.limited_gh "octocat"
      (Some "token")
    = GithubUtils.fetch_github_stats GithubUtils.limited_gh "octocat".
Proof.
  split.
  - apply (proj1 (detailed_falls_back GithubUtils.sample_gh "octocat"
                    (Some ""))).
    reflexivity.
  - exact (proj1 (proj2 (detailed_falls_back GithubUtils.limited_gh "octocat"
                           (Some "token"))) "token" eq_refl).
Defined.

Lemma node_languages_length (repos : list GithubUtils.GqlRepo) :
  (length (GithubUtils.node_languages repos) ≤ length repos)%nat.
Proof.
  induction repos as [|repo repos IH]; [reflexivity|].
  cbn [GithubUtils.node_languages flat_map]. rewrite length_app.
  fold (GithubUtils.node_languages repos).
  destruct (GithubUtils.primaryLanguage repo); simpl; lia.
Qed.

(** X10. When the graph answer is used, the record takes [public_repos]
    and [total_commits] from it as they are (no estimate), lists no
    language twice, and the count of a listed language is the number of
    nodes of the answer, all of them and not the first 30 only, that
    have it as their primary language. *)
Theorem detailed_counts_all_nodes (gh : GithubUtils.GitHub)
    (username token : string) (user : GithubUtils.GqlUser)
    (l : list (string * Z)) :
  GithubUtils.usable_token (Some token) = Some token →
  GithubUtils.graph_user (GithubUtils.post_graphql gh username token)
  = Some user →
  let r := GithubUtils.fetch_github_stats_detailed gh username (Some token) in
  getitem r "top_languages" = Ok (VList (map GithubUtils.lang_entry l)) →
  let langs := GithubUtils.node_languages (GithubUtils.nodes user) in
  getitem r "public_repos" = Ok (VInt (GithubUtils.totalCount user))
  ∧ getitem r "total_commits"
    = Ok (VInt (GithubUtils.totalCommitContributions user))
  ∧ List.NoDup (map fst l)
  ∧ ∀ name count, In (name, count) l →
      count = GithubUtils.occurrences name langs
      ∧ 1 ≤ count ≤ Z.of_nat (length (GithubUtils.nodes user)).
Proof.
  intros Htok Hgraph r. subst r. rewrite fetch_detailed_eq, Htok, Hgraph.
  intros Htop langs.
  split; [reflexivity|]. split; [reflexivity|].
  unfold GithubUtils.detailed_data in Htop. rewrite scan_nodes_tally in Htop.
  cbn in Htop. inversion Htop as [Heq]. apply lang_entry_inj in Heq.
  subst l. fold langs.
  assert (List.NoDup (map fst (GithubUtils.tally langs []))) as Hnd
    by (apply NoDup_tally; constructor).
  destruct (most_common_entries 5 _ Hnd) as (Hkeys & Hsub & _).
  split; [exact Hkeys|]. intros name count Hin.
  pose proof (Hsub _ Hin) as Hc.
  assert (count = GithubUtils.occurrences name langs) as Hcount.
  { apply (In_count_of _ _ _ Hnd) in Hc.
    rewrite count_of_tally in Hc. simpl in Hc. lia. }
  split; [exact Hcount|].
  assert (GithubUtils.positive_counts (GithubUtils.tally langs [])) as Hpos
    by (apply positive_tally; constructor).
  unfold GithubUtils.positive_counts in Hpos. rewrite Forall_forall in Hpos.
  apply list_elem_of_In, Hpos in Hc. simpl in Hc.
  pose proof (proj1 (occurrences_bounds name langs)) as Hb.
  pose proof (node_languages_length (GithubUtils.nodes user)) as Hlen.
  fold langs in Hlen. lia.
Qed.

Lemma detailed_counts_all_nodes_witness :
  getitem (GithubUtils.fetch_github_stats_detailed GithubUtils.sample_gh
             "octocat" (Some "token")) "total_commits" = Ok (VInt 120)
  ∧ getitem (GithubUtils.fetch_github_stats GithubUtils.sample_gh "octocat")
            "total_commits" = Ok (VInt 15).
Proof.
  split; [|reflexivity].
  exact (proj1 (proj2 (detailed_counts_all_nodes GithubUtils.sample_gh
                         "octocat" "token" GithubUtils.sample_gql_user
                         [("Go", 2); ("Python", 1)]
                         eq_refl eq_refl eq_refl))).
Defined.

(** ** What is printed *)

Lemma fetch_out_cases (gh : GithubUtils.GitHub) (username : string) :
  GithubUtils.fetch_github_stats_out gh username
  = match GithubUtils.get_user gh username with
    | GithubUtils.Unreachable =>
        (["Error fetching GitHub stats: connection failed"], VNone)
    | GithubUtils.Response s json =>
        if s =? 200 then
          match json with
          | Raise e => (["Error fetching GitHub stats: " ++ exc_msg e], VNone)
          | Ok user_data =>
              match GithubUtils.get_repos gh username with
              | GithubUtils.Unreachable =>
                  (["Error fetching GitHub stats: connection failed"], VNone)
              | GithubUtils.Response s' json' =>
                  if s' =? 200 then
                    match json' with
                    | Raise e =>
                        (["Error fetching GitHub stats: " ++ exc_msg e], VNone)
                    | Ok repos =>
                        ([], GithubUtils.profile_data user_data
                               (GithubUtils.language_stats repos).1
                               (GithubUtils.language_stats repos).2)
                    end
                  else (["Failed to fetch repos: " ++ str_of_Z s'],
                        GithubUtils.profile_data user_data [] 0)
              end
          end
        else (["Failed to fetch user: " ++ str_of_Z s], VNone)
    end.
Proof.
  unfold GithubUtils.fetch_github_stats_out,
    GithubUtils.fetch_github_stats_try_out.
  destruct (GithubUtils.get_user gh username) as [|s [user_data|e]];
    [reflexivity| |]; cbn.
  - destruct (s =? 200); [|reflexivity]. cbn.
    destruct (GithubUtils.get_repos gh username) as [|s' [repos|e]];
      [reflexivity| |]; cbn.
    + destruct (s' =? 200); [|reflexivity].
      cbn. by destruct (GithubUtils.language_stats repos).
    + by destruct (s' =? 200).
  - by destruct (s =? 200).
Qed.



Lemma fetch_out_value (gh : GithubUtils.GitHub) (username : string) :
  (GithubUtils.fetch_github_stats_out gh username).2
  = GithubUtils.fetch_github_stats gh username.
Proof.
  rewrite fetch_out_cases, fetch_github_stats_eq.
  unfold GithubUtils.profile_body, GithubUtils.listed_repos.
  destruct (GithubUtils.get_user gh username) as [|s [user_data|e]];
    [reflexivity| |by destruct (s =? 200)].
  destruct (s =? 200); [|reflexivity].
  destruct (GithubUtils.get_repos gh username) as [|s' [repos|e]];
    [reflexivity| |]; by destruct (s' =? 200).
Qed.

Lemma names_of_entries (l : list (string * Z)) :
  item_of_each "name" (map GithubUtils.lang_entry l)
  = Ok (map (fun p => VStr p.1) l).
Proof.
  induction l as [|p l IH]; [reflexivity|].
  cbn [map item_of_each].
  change (getitem (GithubUtils.lang_entry p) "name")
    with (Ok (A := PyVal) (VStr p.1)).
  by rewrite ret_bind, IH.
Qed.

Lemma join_names (sep : string) (l : list (string * Z)) :
  join sep (map (fun p => VStr p.1) l) = Ok (concat_with sep (map fst l)).
Proof.
  induction l as [|p l IH]; [reflexivity|].
  cbn [map join concat_with]. destruct l as [|q l]; [reflexivity|].
  rewrite IH. reflexivity.
Qed.

(** X12. The script of [github_utils.py] never ends on an exception.
    With no argument it prints the usage line and calls nothing. With an
    account name it prints the name, then what the fetcher prints, then
    "Failed to fetch stats" when the fetcher returned [None], and
    otherwise four lines: the username, the repository count, the commit
    estimate and the names of the top languages separated by ", ". *)
Theorem main_prints (gh : GithubUtils.GitHub) (argv : list string) :
  GithubUtils.outcome (GithubUtils.main gh argv) = Ok tt
  ∧ match argv with
    | _ :: username :: _ =>
        let r := GithubUtils.fetch_github_stats gh username in
        ∃ report,
          GithubUtils.printed (GithubUtils.main gh argv)
          = ("Fetching stats for: " ++ username)
            :: ((GithubUtils.fetch_github_stats_out gh username).1 ++ report)%list
          ∧ (r = VNone → report = ["Failed to fetch stats"])
          ∧ (r ≠ VNone →
             ∃ u p t l,
               getitem r "username" = Ok u
               ∧ getitem r "public_repos" = Ok (VInt p)
               ∧ getitem r "total_commits" = Ok (VInt t)
               ∧ getitem r "top_languages"
                 = Ok (VList (map GithubUtils.lang_entry l))
               ∧ report
                 = [String newline ("Username: " ++ str u);
                    "Public Repos: " ++ str_of_Z p;
                    "Estimated Commits: " ++ str_of_Z t;
                    "Top Languages: " ++ concat_with ", " (map fst l)])
    | _ => GithubUtils.printed (GithubUtils.main gh argv)
           = ["Usage: python github_utils.py <username>"]
    end.
Proof.
  destruct argv as [|script [|username rest]]; [by split|by split|].
  unfold GithubUtils.main.
  pose proof (fetch_out_value gh username) as Hvalue.
  destruct (GithubUtils.fetch_github_stats_out gh username)
    as [lines stats]. cbn [fst snd] in *. subst stats.
  destruct (fetch_github_stats_cases gh username)
    as [Hnone|(user_data & repos & Hrec)].
  - rewrite Hnone. cbn. split; [reflexivity|].
    exists ["Failed to fetch stats"]. split; [reflexivity|]. split; [done|].
    intros H. by destruct H.
  - rewrite Hrec. unfold GithubUtils.profile_data.
    cbn [truthy length Nat.eqb negb].
    cbn [mbind GithubUtils.Printing_bind GithubUtils.print GithubUtils.quiet
         GithubUtils.outcome GithubUtils.printed getitem assoc String.eqb
         Ascii.eqb Bool.eqb iterate].
    rewrite names_of_entries. cbn [GithubUtils.outcome GithubUtils.printed].
    rewrite join_names.
    cbn [GithubUtils.outcome GithubUtils.printed truthy length Nat.eqb negb
         app].
    split; [reflexivity|].
    eexists. split; [reflexivity|].
    split; [discriminate|]. intros _.
    eexists _, _, _, _. repeat split; reflexivity.
Qed.

Lemma main_prints_witness :
  GithubUtils.main GithubUtils.sample_gh ["github_utils.py"; "octocat"]
  = GithubUtils.Pr
      ["Fetching stats for: octocat";
       String newline "Username: octocat";
       "Public Repos: 2"; "Estimated Commits: 15";
       "Top Languages: Go, Python"] (Ok tt)
  ∧ GithubUtils.outcome
      (GithubUtils.main GithubUtils.not_found_gh ["github_utils.py"; "ghost"])
    = Ok tt.
Proof.
  split; [reflexivity|].
  exact (proj1 (main_prints GithubUtils.not_found_gh
                  ["github_utils.py"; "ghost"])).
Defined.

(** * More of the widget *)

Lemma stats_footer_entries (profile : PyVal) (l : list (string * Z))
    (v : PyVal) :
  dict_get profile "top_languages" (VList [])
  = Ok (VList (map GithubUtils.lang_entry l)) →
  dict_get profile "total_commits" (VStr "N/A") = Ok v →
  RoastWidget.stats_footer profile
  = Ok (match l with
        | [] => "N/A"
        | _ => concat_with ", " (map fst (firstn 3 l))
        end, str v).
Proof.
  intros Hl Hv. unfold RoastWidget.stats_footer.
  rewrite Hl, ret_bind. cbn [slice_to]. rewrite ret_bind.
  rewrite firstn_map. cbn [iterate]. rewrite ret_bind.
  rewrite names_of_entries, ret_bind.
  destruct l as [|p l];
    cbn [firstn map truthy length Nat.eqb negb]; [by rewrite ret_bind, Hv|].
  change (VStr p.1 :: map (fun q => VStr q.1) (firstn 2 l))
    with (map (fun q : string * Z => VStr q.1) (p :: firstn 2 l)).
  rewrite join_names, ret_bind, Hv. reflexivity.
Qed.

Lemma dict_get_total (profile : PyVal) (k k' : string) (d d' v : PyVal) :
  dict_get profile k d = Ok v → ∃ v', dict_get profile k' d' = Ok v'.
Proof. destruct profile; try discriminate. intros _. by eexists. Qed.

(** X13. The footer of the widget, for a record of either fetcher: the
    names of its first three top languages separated by ", ", or "N/A"
    when it has none, and its [total_commits] in decimal. No record of a
    fetcher makes it raise, the seven-key record of the detailed fetch
    included. *)
Theorem footer_of_fetched (gh : GithubUtils.GitHub) (username : string)
    (github_token : option string) (r : PyVal) :
  r = GithubUtils.fetch_github_stats gh username
  ∨ r = GithubUtils.fetch_github_stats_detailed gh username github_token →
  r ≠ VNone →
  ∃ l t,
    getitem r "top_languages" = Ok (VList (map GithubUtils.lang_entry l))
    ∧ getitem r "total_commits" = Ok (VInt t)
    ∧ RoastWidget.stats_footer r
      = Ok (match l with
            | [] => "N/A"
            | _ => concat_with ", " (map fst (firstn 3 l))
            end, str_of_Z t).
Proof.
  intros Hr Hsome.
  assert ((∃ user_data repos,
             r = GithubUtils.profile_data user_data
                   (GithubUtils.language_stats repos).1
                   (GithubUtils.language_stats repos).2)
          ∨ ∃ user, r = GithubUtils.detailed_data user) as Hshape.
  { destruct Hr as [->| ->].
    - destruct (fetch_github_stats_cases gh username) as [H|H]; [done|tauto].
    - destruct (fetch_detailed_cases gh username github_token) as [Heq|H];
        [|tauto].
      rewrite Heq in *.
      destruct (fetch_github_stats_cases gh username) as [H|H]; [done|tauto]. }
  destruct Hshape as [(user_data & repos & ->)|(user & ->)].
  - eexists _, _. split; [reflexivity|]. split; [reflexivity|].
    refine (stats_footer_entries _ _ (VInt _) _ _); reflexivity.
  - eexists _, _. split; [reflexivity|]. split; [reflexivity|].
    refine (stats_footer_entries _ _ (VInt _) _ _); reflexivity.
Qed.

Lemma footer_of_fetched_witness :
  RoastWidget.stats_footer
    (GithubUtils.fetch_github_stats GithubUtils.polyglot_gh "octocat")
  = Ok ("Go, Rust, C", "11")
  ∧ ∃ (l : list (string * Z)) t,
      RoastWidget.stats_footer
        (GithubUtils.fetch_github_stats_detailed GithubUtils.sample_gh
           "octocat" (Some "token"))
      = Ok (match l with
            | [] => "N/A"
            | _ => concat_with ", " (map fst (firstn 3 l))
            end, str_of_Z t).
Proof.
  split; [reflexivity|].
  destruct (footer_of_fetched GithubUtils.sample_gh "octocat" (Some "token")
              _ (or_intror eq_refl)) as (l & t & _ & _ & Hfooter).
  { vm_compute. discriminate. }
  by exists l, t.
Defined.

(** X14. The "New Roast" action on a cached record asks the collaborator
    for a roast of the cached profile and, when it gets one, replaces
    the roast only: the profile and the source stay as they were, even
    if the answer names another source. When the collaborator raises or
    its answer has no roast, the record is left as it was and an error is
    shown. *)
Theorem regenerate_replaces_roast_only
    (generate_profile_roast : PyVal → Result PyVal)
    (roast profile source : PyVal) (ui : RoastWidget.UI) :
  RoastWidget.session_state ui !! "roast_data"
  = Some (VDict [("roast", roast); ("profile", profile);
                 ("source", source)]) →
  let flow := RoastWidget.regenerate_action generate_profile_roast
                profile ui in
  (∀ result roast', generate_profile_roast profile = Ok result →
     getitem result "roast" = Ok roast' →
     flow = RoastWidget.Rerun
              {| RoastWidget.session_state :=
                   <["roast_data" := VDict [("roast", roast');
                                            ("profile", profile);
                                            ("source", source)]]>
                     (RoastWidget.session_state ui);
                 RoastWidget.shown_errors := RoastWidget.shown_errors ui |})
  ∧ (∀ e, generate_profile_roast profile = Raise e →
       flow = RoastWidget.Continue
                (RoastWidget.st_error ("Error: " ++ exc_msg e) ui))
  ∧ (∀ result e, generate_profile_roast profile = Ok result →
       getitem result "roast" = Raise e →
       flow = RoastWidget.Continue
                (RoastWidget.st_error ("Error: " ++ exc_msg e) ui)).
Proof.
  intros Hcache flow. subst flow.
  unfold RoastWidget.regenerate_action, RoastWidget.regenerate_try,
    RoastWidget.session_attr.
  split; [|split].
  - intros result roast' Hgen Hroast.
    rewrite Hgen, ret_bind, Hroast, ret_bind, Hcache. reflexivity.
  - intros e Hgen. by rewrite Hgen.
  - intros result e Hgen Hroast. by rewrite Hgen, ret_bind, Hroast.
Qed.

Lemma regenerate_replaces_roast_only_witness :
  RoastWidget.session_state
    (RoastWidget.flow_ui
       (RoastWidget.regenerate_action RoastWidget.other_roast
          (VDict [("username", VStr "octocat")]) RoastWidget.cached_ui))
    !! "roast_data"
  = Some (VDict [("roast", VStr "A newer roast.");
                 ("profile", VDict [("username", VStr "octocat")]);
                 ("source", VStr "fallback")]).
Proof.
  rewrite (proj1 (regenerate_replaces_roast_only RoastWidget.other_roast
                    (VStr "An older roast.")
                    (VDict [("username", VStr "octocat")])
                    (VStr "fallback") RoastWidget.cached_ui eq_refl)
             _ (VStr "A newer roast.") eq_refl eq_refl).
  reflexivity.
Defined.

(** ** A whole run of the widget *)

Lemma init_session_ok (ui : RoastWidget.UI) :
  RoastWidget.session_ok ui →
  RoastWidget.session_ok (RoastWidget.init_session ui)
  ∧ is_Some (RoastWidget.session_state (RoastWidget.init_session ui)
             !! "roast_data").
Proof.
  unfold RoastWidget.session_ok, RoastWidget.init_session.
  destruct (RoastWidget.session_state ui !! "roast_data") as [v|] eqn:Hv.
  - rewrite Hv. split; [done|by eexists].
  - cbn [RoastWidget.session_state]. rewrite lookup_insert_eq.
    split; [done|by eexists].
Qed.

Lemma fetched_is_displayable (gh : GithubUtils.GitHub) (username : string) :
  truthy (GithubUtils.fetch_github_stats gh username) = true →
  ∃ l, dict_get (GithubUtils.fetch_github_stats gh username)
         "top_languages" (VList [])
       = Ok (VList (map GithubUtils.lang_entry l)).
Proof.
  destruct (fetch_github_stats_cases gh username)
    as [->|(user_data & repos & ->)]; [discriminate|].
  intros _. by eexists.
Qed.

Lemma generate_session_ok (gh : GithubUtils.GitHub)
    (generate_profile_roast : PyVal → Result PyVal)
    (username : string) (ui : RoastWidget.UI) :
  RoastWidget.text_roasts generate_profile_roast →
  RoastWidget.session_ok ui →
  is_Some (RoastWidget.session_state ui !! "roast_data") →
  let ui' := RoastWidget.generate_with gh generate_profile_roast
               username ui in
  RoastWidget.session_ok ui'
  ∧ is_Some (RoastWidget.session_state ui' !! "roast_data").
Proof.
  intros Htext Hok Hsome ui'. subst ui'.
  unfold RoastWidget.generate_with, RoastWidget.generate_action,
    RoastWidget.generate_try.
  rewrite ret_bind.
  destruct (truthy (GithubUtils.fetch_github_stats gh username)) eqn:Htruthy;
    [|by split].
  destruct (generate_profile_roast _) as [result|e] eqn:Hresult; [|by split].
  rewrite ret_bind.
  destruct (getitem result "roast") as [roast|e] eqn:Hroast; [|by split].
  rewrite ret_bind.
  destruct (getitem result "source") as [source|e]; [|by split].
  rewrite ret_bind. unfold RoastWidget.session_ok.
  cbn [RoastWidget.session_state]. rewrite lookup_insert_eq.
  split; [|by eexists].
  destruct (Htext _ _ _ Hresult Hroast) as [text ->].
  destruct (fetched_is_displayable gh username Htruthy) as [l Hl].
  by exists text, (GithubUtils.fetch_github_stats gh username), source, l.
Qed.

Lemma session_attr_Some (ui : RoastWidget.UI) (k : string) (v : PyVal) :
  RoastWidget.session_state ui !! k = Some v →
  RoastWidget.session_attr ui k = Ok v.
Proof. intros H. unfold RoastWidget.session_attr. by rewrite H. Qed.

(** The display after the two buttons of its first columns, on a cached
    record: the download, the footer and the source. *)
Lemma display_rest (username roast : string) (profile source : PyVal)
    (l : list (string * Z)) (ui : RoastWidget.UI)
    (items0 : list RoastWidget.Item) :
  RoastWidget.session_state ui !! "roast_data"
  = Some (VDict [("roast", VStr roast); ("profile", profile);
                 ("source", source)]) →
  dict_get profile "top_languages" (VList [])
  = Ok (VList (map GithubUtils.lang_entry l)) →
  ∃ langs_str total_commits,
    RoastWidget.stats_footer profile = Ok (langs_str, total_commits)
    ∧ (RoastWidget.download_button (VStr roast) (username ++ "_roast.txt")
         "text/plain" ≫= λ download,
       RoastWidget.stats_footer profile ≫= λ '(langs_str, total_commits),
       RoastWidget.session_attr ui "roast_data" ≫= λ roast_data,
       getitem roast_data "source" ≫= λ source0,
       Ok (RoastWidget.Continue ui,
           (((items0 ++ [download])
             ++ [RoastWidget.Footer langs_str total_commits])
            ++ [RoastWidget.Caption (str source0)])%list))
      = Ok (RoastWidget.Continue ui,
            (items0
             ++ [RoastWidget.Download (VStr roast) (username ++ "_roast.txt")
                   "text/plain";
                 RoastWidget.Footer langs_str total_commits;
                 RoastWidget.Caption (str source)])%list).
Proof.
  intros Hv Hl.
  destruct (dict_get_total profile "top_languages" "total_commits"
              (VList []) (VStr "N/A") _ Hl) as [t Ht].
  pose proof (stats_footer_entries profile l t Hl Ht) as Hfooter.
  eexists _, _. split; [exact Hfooter|].
  cbn [RoastWidget.download_button]. rewrite ret_bind, Hfooter, ret_bind.
  rewrite (session_attr_Some _ _ _ Hv), ret_bind.
  change (getitem (VDict [("roast", VStr roast); ("profile", profile);
                          ("source", source)]) "source")
    with (Ok (A := PyVal) source).
  rewrite ret_bind. by rewrite <- !app_assoc.
Qed.

Lemma display_ok (generate_profile_roast : PyVal → Result PyVal)
    (pressed_new pressed_copy : bool) (username : string)
    (ui : RoastWidget.UI) :
  RoastWidget.text_roasts generate_profile_roast →
  RoastWidget.session_ok ui →
  is_Some (RoastWidget.session_state ui !! "roast_data") →
  ∃ flow items,
    RoastWidget.display generate_profile_roast pressed_new pressed_copy
      username ui = Ok (flow, items)
    ∧ RoastWidget.session_ok (RoastWidget.flow_ui flow).
Proof.
  intros Htext Hok [v Hv].
  pose proof Hok as Hok'. unfold RoastWidget.session_ok in Hok.
  rewrite Hv in Hok.
  unfold RoastWidget.display.
  rewrite (session_attr_Some _ _ _ Hv), ret_bind.
  assert (v = VNone ∨ RoastWidget.cached_record v) as [->|Hrec]
    by (destruct v; tauto).
  { eexists _, _. split; [reflexivity|]. exact Hok'. }
  destruct Hrec as (roast & profile & source & l & -> & Hl).
  cbn [truthy length Nat.eqb negb].
  change (getitem (VDict [("roast", VStr roast); ("profile", profile);
                          ("source", source)]) "roast")
    with (Ok (A := PyVal) (VStr roast)).
  change (getitem (VDict [("roast", VStr roast); ("profile", profile);
                          ("source", source)]) "profile")
    with (Ok (A := PyVal) profile).
  rewrite !ret_bind.
  assert (∀ ui0 items0,
            RoastWidget.session_state ui0 = RoastWidget.session_state ui →
            RoastWidget.session_ok ui0
            ∧ ∃ langs_str total_commits,
                (RoastWidget.download_button (VStr roast)
                   (username ++ "_roast.txt") "text/plain" ≫= λ download,
                 RoastWidget.stats_footer profile
                 ≫= λ '(langs_str, total_commits),
                 RoastWidget.session_attr ui0 "roast_data" ≫= λ roast_data,
                 getitem roast_data "source" ≫= λ source0,
                 Ok (RoastWidget.Continue ui0,
                     (((items0 ++ [download])
                       ++ [RoastWidget.Footer langs_str total_commits])
                      ++ [RoastWidget.Caption (str source0)])%list))
                = Ok (RoastWidget.Continue ui0,
                      (items0
                       ++ [RoastWidget.Download (VStr roast)
                             (username ++ "_roast.txt") "text/plain";
                           RoastWidget.Footer langs_str total_commits;
                           RoastWidget.Caption (str source)])%list))
    as Hrest.
  { intros ui0 items0 Hsame. split.
    - unfold RoastWidget.session_ok. rewrite Hsame, Hv.
      by exists roast, profile, source, l.
    - rewrite <- Hsame in Hv.
      destruct (display_rest username roast profile source l ui0 items0
                  Hv Hl) as (langs_str & total_commits & _ & Heq).
      by exists langs_str, total_commits. }
  destruct pressed_new.
  - unfold RoastWidget.regenerate_action, RoastWidget.regenerate_try.
    destruct (generate_profile_roast profile) as [result|e] eqn:Hresult.
    + rewrite ret_bind.
      destruct (getitem result "roast") as [roast'|e] eqn:Hroast.
      * rewrite ret_bind, (session_attr_Some _ _ _ Hv), ret_bind.
        cbn [setitem assoc_set String.eqb].
        rewrite ret_bind. eexists _, _. split; [reflexivity|].
        unfold RoastWidget.session_ok.
        cbn [RoastWidget.flow_ui RoastWidget.session_state].
        rewrite lookup_insert_eq.
        destruct (Htext _ _ _ Hresult Hroast) as [text' ->].
        by exists text', profile, source, l.
      * cbn [mbind Result_bind].
        destruct (Hrest (RoastWidget.st_error ("Error: " ++ exc_msg e) ui)
                    (if pressed_copy
                     then ([RoastWidget.RoastText (str (VStr roast))]
                           ++ [RoastWidget.Written
                                 "Roast copied to clipboard!";
                               RoastWidget.Code (VStr roast)])%list
                     else [RoastWidget.RoastText (str (VStr roast))])
                    eq_refl) as (Hsess & langs_str & total_commits & Heq).
        eexists _, _. split; [exact Heq|exact Hsess].
    + cbn [mbind Result_bind].
      destruct (Hrest (RoastWidget.st_error ("Error: " ++ exc_msg e) ui)
                  (if pressed_copy
                   then ([RoastWidget.RoastText (str (VStr roast))]
                         ++ [RoastWidget.Written
                               "Roast copied to clipboard!";
                             RoastWidget.Code (VStr roast)])%list
                   else [RoastWidget.RoastText (str (VStr roast))])
                  eq_refl) as (Hsess & langs_str & total_commits & Heq).
      eexists _, _. split; [exact Heq|exact Hsess].
  - destruct (Hrest ui
                (if pressed_copy
                 then ([RoastWidget.RoastText (str (VStr roast))]
                       ++ [RoastWidget.Written "Roast copied to clipboard!";
                           RoastWidget.Code (VStr roast)])%list
                 else [RoastWidget.RoastText (str (VStr roast))])
                eq_refl) as (Hsess & langs_str & total_commits & Heq).
    eexists _, _. split; [exact Heq|exact Hsess].
Qed.

(** X15. [render_roast_widget], with [fetch_github_stats] behind it and a
    roast service that gives its roasts as text: a run that starts from a
    session as the script leaves it (no [roast_data], [None], or a cached
    record) ends without an uncaught exception and leaves the session in
    that shape again, whichever buttons were pressed and whether the
    service answers or raises. *)
Theorem run_keeps_session (gh : GithubUtils.GitHub)
    (generate_profile_roast : PyVal → Result PyVal)
    (pressed_generate pressed_new pressed_copy : bool)
    (username : string) (ui : RoastWidget.UI) :
  RoastWidget.text_roasts generate_profile_roast →
  RoastWidget.session_ok ui →
  ∃ flow items,
    RoastWidget.render_roast_widget
      (λ u, Ok (GithubUtils.fetch_github_stats gh u)) generate_profile_roast
      pressed_generate pressed_new pressed_copy username ui
    = Ok (flow, items)
    ∧ RoastWidget.session_ok (RoastWidget.flow_ui flow).
Proof.
  intros Htext Hok. unfold RoastWidget.render_roast_widget,
    RoastWidget.render_generate.
  destruct (init_session_ok ui Hok) as [Hok0 Hsome0].
  destruct pressed_generate.
  - destruct (generate_session_ok gh generate_profile_roast username _
                Htext Hok0 Hsome0) as [Hok1 Hsome1].
    exact (display_ok _ _ _ _ _ Htext Hok1 Hsome1).
  - exact (display_ok _ _ _ _ _ Htext Hok0 Hsome0).
Qed.

Lemma run_keeps_session_witness :
  RoastWidget.session_ok RoastWidget.roasted_ui
  ∧ ∃ flow items,
      RoastWidget.render_roast_widget
        (λ u, Ok (GithubUtils.fetch_github_stats GithubUtils.sample_gh u))
        RoastWidget.other_roast true true true "octocat"
        RoastWidget.roasted_ui
      = Ok (flow, items)
      ∧ RoastWidget.session_ok (RoastWidget.flow_ui flow).
Proof.
  assert (RoastWidget.session_ok RoastWidget.roasted_ui) as Hok.
  { unfold RoastWidget.session_ok, RoastWidget.roasted_ui.
    cbn [RoastWidget.session_state]. rewrite lookup_singleton_eq.
    eexists _, _, _, _. split; reflexivity. }
  split; [exact Hok|].
  apply (run_keeps_session GithubUtils.sample_gh RoastWidget.other_roast
           true true true "octocat" RoastWidget.roasted_ui); [|exact Hok].
  intros profile result roast Hresult Hroast.
  unfold RoastWidget.other_roast in Hresult. inversion Hresult. subst result.
  vm_compute in Hroast. inversion Hroast. by eexists.
Defined.

(** X16. [render_roast_widget]: when the "Generate Roast" button is pressed,
    the profile is fetched and the roast service answers with a roast,
    which is text, and a source, the same run already displays the new
    roast: its text, the download of that roast as [<username>_roast.txt],
    the footer of the fetched profile and the source, in this order, and
    the session holds the three values. *)
Theorem generate_then_display (gh : GithubUtils.GitHub)
    (generate_profile_roast : PyVal → Result PyVal)
    (username : string) (ui : RoastWidget.UI)
    (result source : PyVal) (roast : string) :
  truthy (GithubUtils.fetch_github_stats gh username) = true →
  generate_profile_roast (GithubUtils.fetch_github_stats gh username)
  = Ok result →
  getitem result "roast" = Ok (VStr roast) →
  getitem result "source" = Ok source →
  ∃ ui' langs_str total_commits,
    RoastWidget.stats_footer (GithubUtils.fetch_github_stats gh username)
    = Ok (langs_str, total_commits)
    ∧ RoastWidget.session_state ui' !! "roast_data"
      = Some (VDict [("roast", VStr roast);
                     ("profile", GithubUtils.fetch_github_stats gh username);
                     ("source", source)])
    ∧ RoastWidget.shown_errors ui' = RoastWidget.shown_errors ui
    ∧ RoastWidget.render_roast_widget
        (λ u, Ok (GithubUtils.fetch_github_stats gh u)) generate_profile_roast
        true false false username ui
      = Ok (RoastWidget.Continue ui',
            [RoastWidget.RoastText roast;
             RoastWidget.Download (VStr roast) (username ++ "_roast.txt")
               "text/plain";
             RoastWidget.Footer langs_str total_commits;
             RoastWidget.Caption (str source)]).
Proof.
  intros Htruthy Hresult Hroast Hsource.
  destruct (fetched_is_displayable gh username Htruthy) as [l Hl].
  unfold RoastWidget.render_roast_widget, RoastWidget.render_generate,
    RoastWidget.generate_action, RoastWidget.generate_try.
  rewrite ret_bind, Htruthy, Hresult, ret_bind, Hroast, ret_bind, Hsource,
    ret_bind.
  set (ui' := {| RoastWidget.session_state := _;
                 RoastWidget.shown_errors := _ |}).
  assert (RoastWidget.session_state ui' !! "roast_data"
          = Some (VDict [("roast", VStr roast);
                         ("profile",
                          GithubUtils.fetch_github_stats gh username);
                         ("source", source)])) as Hv.
  { subst ui'. cbn [RoastWidget.session_state]. by rewrite lookup_insert_eq. }
  destruct (display_rest username roast _ source l ui'
              [RoastWidget.RoastText (str (VStr roast))] Hv Hl)
    as (langs_str & total_commits & Hfooter & Heq).
  exists ui', langs_str, total_commits.
  split; [exact Hfooter|]. split; [exact Hv|]. split.
  { subst ui'. cbn [RoastWidget.shown_errors].
    unfold RoastWidget.init_session.
    by destruct (RoastWidget.session_state ui !! "roast_data"). }
  unfold RoastWidget.display.
  rewrite (session_attr_Some _ _ _ Hv), ret_bind.
  cbn [truthy length Nat.eqb negb].
  change (getitem (VDict [("roast", VStr roast);
                          ("profile",
                           GithubUtils.fetch_github_stats gh username);
                          ("source", source)]) "roast")
    with (Ok (A := PyVal) (VStr roast)).
  change (getitem (VDict [("roast", VStr roast);
                          ("profile",
                           GithubUtils.fetch_github_stats gh username);
                          ("source", source)]) "profile")
    with (Ok (A := PyVal) (GithubUtils.fetch_github_stats gh username)).
  rewrite (session_attr_Some _ _ _ Hv) in Heq.
  rewrite !ret_bind. exact Heq.
Qed.

Lemma generate_then_display_witness :
  ∃ ui' langs_str total_commits,
    RoastWidget.stats_footer
      (GithubUtils.fetch_github_stats GithubUtils.sample_gh "octocat")
    = Ok (langs_str, total_commits)
    ∧ RoastWidget.session_state ui' !! "roast_data"
      = Some (VDict [("roast", VStr "Two Go repositories and a fork.");
                     ("profile",
                      GithubUtils.fetch_github_stats GithubUtils.sample_gh
                        "octocat");
                     ("source", VStr "fallback")])
    ∧ RoastWidget.shown_errors ui' = []
    ∧ RoastWidget.render_roast_widget
        (λ u, Ok (GithubUtils.fetch_github_stats GithubUtils.sample_gh u))
        RoastWidget.sample_roast true false false "octocat"
        {| RoastWidget.session_state := ∅;
           RoastWidget.shown_errors := [] |}
      = Ok (RoastWidget.Continue ui',
            [RoastWidget.RoastText "Two Go repositories and a fork.";
             RoastWidget.Download (VStr "Two Go repositories and a fork.")
               ("octocat" ++ "_roast.txt") "text/plain";
             RoastWidget.Footer langs_str total_commits;
             RoastWidget.Caption (str (VStr "fallback"))]).
Proof.
  apply (generate_then_display GithubUtils.sample_gh RoastWidget.sample_roast
           "octocat"
           {| RoastWidget.session_state := ∅;
              RoastWidget.shown_errors := [] |}
           (VDict [("roast", VStr "Two Go repositories and a fork.");
                   ("source", VStr "fallback")]));
    reflexivity.
Defined.
